(** * Yescoin tapper: a shallow embedding of [bot/core/tapper.py]

    The per-account bot ([BaseBot]) is embedded as a state-and-exception
    monad that also collects the trace of observable actions (requests,
    HTTP attempts, sleeps, back-off announcements, identity look-ups).
    Everything the bot reads from outside (HTTP answers, random draws, the
    web-view URL, the first-run marker) comes from a [World] oracle, so
    every definition below is executable.

    Conventions of the model:
    - decoded JSON is the only kind of Python value, [JNull] being [None];
      JSON numbers are integers (the counters and prices of the API);
    - [InvalidSession] ([bot/exceptions.py]) is an [Exception], as the
      handlers of [login] and [run] take it to be;
    - [time()] is a field of the state that only [asyncio.sleep] moves; the
      theorems that read the clock hold for every value of it;
    - of the log lines only the ones that announce a back-off are kept in
      the trace ([Waiting]);
    - the endless loop of [process_bot_logic] is cut after a given number
      of iterations; its body is [iteration];
    - the files of [bot/utils/wallet_utils.py] are modelled apart, in
      [Wallet], as a state of the disk. *)

From Stdlib Require Import ZArith List String Ascii Bool Lia DecimalString.
Import ListNotations.
Open Scope Z_scope.
Set Warnings "-register-all".

(** ** Python values

    Every value the bot handles is decoded JSON; [JNull] is Python's [None].
    Numbers are integers (the API's counters and prices); floats are outside
    the model. *)

Inductive json : Type :=
| JNull
| JBool (b : bool)
| JNum (n : Z)
| JStr (s : string)
| JArr (l : list json)
| JObj (kv : list (string * json)).

(** A Python [dict] keeps insertion order; keys are unique after decoding. *)
Definition dict := list (string * json).

Fixpoint dict_get (k : string) (d : dict) : option json :=
  match d with
  | [] => None
  | (k', v) :: d' => if String.eqb k k' then Some v else dict_get k d'
  end.

(** [d[k] = v]: overwrite in place or append. *)
Fixpoint dict_set (k : string) (v : json) (d : dict) : dict :=
  match d with
  | [] => [(k, v)]
  | (k', v') :: d' =>
      if String.eqb k k' then (k, v) :: d' else (k', v') :: dict_set k v d'
  end.

(** [d.update(e)]. *)
Definition dict_update (d e : dict) : dict :=
  fold_left (fun acc kv => dict_set (fst kv) (snd kv) acc) e d.

(** [bool(x)]. *)
Definition truthy (j : json) : bool :=
  match j with
  | JNull => false
  | JBool b => b
  | JNum n => negb (n =? 0)
  | JStr s => negb (String.eqb s EmptyString)
  | JArr l => match l with [] => false | _ :: _ => true end
  | JObj kv => match kv with [] => false | _ :: _ => true end
  end.

(** [x[k]] for a string key: only a dict has one (anything else is a
    [TypeError], a missing key a [KeyError]). *)
Definition py_getitem (j : json) (k : string) : option json :=
  match j with
  | JObj kv => dict_get k kv
  | _ => None
  end.

(** [x.get(k, default)]: [None] here is the [AttributeError] of a non-dict. *)
Definition py_get (j : json) (k : string) (default : json) : option json :=
  match j with
  | JObj kv => Some (match dict_get k kv with Some v => v | None => default end)
  | _ => None
  end.

(** [k in x] for a string [k]: key of a dict, item of a list, substring of
    a string; anything else is not a container. *)
Definition py_in (k : string) (j : json) : option bool :=
  match j with
  | JObj kv => Some (match dict_get k kv with Some _ => true | None => false end)
  | JArr l =>
      Some (existsb (fun x => match x with JStr s => String.eqb s k | _ => false end) l)
  | JStr s => Some (match String.index 0 k s with Some _ => true | None => false end)
  | _ => None
  end.

(** The integer a value stands for in arithmetic and in ordering
    comparisons against an [int]; a [bool] is an [int] in Python.  [None]
    is the [TypeError] of any other operand. *)
Definition as_int (j : json) : option Z :=
  match j with
  | JNum n => Some n
  | JBool b => Some (if b then 1 else 0)
  | _ => None
  end.

(** [x == n] for an integer literal [n]: never raises. *)
Definition py_eq_int (j : json) (n : Z) : bool :=
  match as_int j with
  | Some m => m =? n
  | None => false
  end.

(** [x is None]. *)
Definition is_None (j : json) : bool :=
  match j with JNull => true | _ => false end.

(** [for x in v]: a list yields its items, a dict its keys, a string its
    characters; anything else is not iterable. *)
Fixpoint chars (s : string) : list json :=
  match s with
  | EmptyString => []
  | String c s' => JStr (String c EmptyString) :: chars s'
  end.

Definition py_iter (j : json) : option (list json) :=
  match j with
  | JArr l => Some l
  | JObj kv => Some (map (fun p => JStr (fst p)) kv)
  | JStr s => Some (chars s)
  | _ => None
  end.

(** [x[:3]]. *)
Definition py_slice3 (j : json) : option json :=
  match j with
  | JArr l => Some (JArr (firstn 3 l))
  | JStr s => Some (JStr (String.substring 0 3 s))
  | _ => None
  end.

(** [a >= b] and [a <= b] on numbers.  Python also orders two strings or two
    lists; the API sends numbers, and that ordering is not modelled. *)
Definition py_ge (a b : json) : option bool :=
  match as_int a, as_int b with
  | Some x, Some y => Some (x >=? y)
  | _, _ => None
  end.

(** [str(x)] for an [int] or a [bool]. *)
Definition py_str (n : Z) : string := NilZero.string_of_int (Z.to_int n).

Definition py_str_json (j : json) : option string :=
  match j with
  | JNum n => Some (py_str n)
  | JBool true => Some "True"%string
  | JBool false => Some "False"%string
  | _ => None
  end.

(** [int(a * b / 100)]: true division, then truncation toward zero.  Floats
    are outside the model and the quotient is taken exactly; Python's float
    quotient can differ from it for products above [2^53], far beyond the
    counters of the API. *)
Definition int_percent (a b : Z) : Z := Z.quot (a * b) 100.

(** ** The [str] methods used on the web-view URL *)

Definition contains (sub s : string) : bool :=
  match String.index 0 sub s with Some _ => true | None => false end.

(** [s.split(sep)] for a non-empty [sep]; [cur] is the piece being read and
    [skip] the characters of a separator still to drop. *)
Fixpoint split_go (sep : string) (skip : nat) (cur s : string) : list string :=
  match s with
  | EmptyString => [cur]
  | String c s' =>
      match skip with
      | S k => split_go sep k cur s'
      | O =>
          if String.prefix sep s
          then cur :: split_go sep (String.length sep - 1) EmptyString s'
          else split_go sep O (cur ++ String c EmptyString)%string s'
      end
  end.

Definition split (sep s : string) : list string := split_go sep O EmptyString s.

(** [s.replace(old, new)]. *)
Definition replace (old new s : string) : string := String.concat new (split old s).

(** ** Settings ([bot/config/config.py]) *)

Record Settings : Type := {
  REF_ID : string;
  SLEEP_BETWEEN_TAP : Z * Z;
  SLEEP_BY_MIN_ENERGY : Z * Z;
  RANDOM_TAPS_COUNT : Z * Z;
  MIN_AVAILABLE_ENERGY : Z;
  MAX_TAP_LEVEL : Z;
  MAX_ENERGY_LEVEL : Z;
  MAX_CHARGE_LEVEL : Z
}.

Definition default_settings : Settings := {|
  REF_ID := "dIk9eL";
  SLEEP_BETWEEN_TAP := (3, 8);
  SLEEP_BY_MIN_ENERGY := (1800, 10800);
  RANDOM_TAPS_COUNT := (35, 100);
  MIN_AVAILABLE_ENERGY := 10;
  MAX_TAP_LEVEL := 10;
  MAX_ENERGY_LEVEL := 10;
  MAX_CHARGE_LEVEL := 10
|}.

(** ** Request headers ([bot/core/headers.py]) *)

(** The double quote, which the [sec-ch-ua] values contain. *)
Definition dq : string := String (ascii_of_nat 34) EmptyString.

Definition HEADERS : dict :=
  [("accept", JStr "application/json, text/plain, */*");
   ("accept-language", JStr "ru,en-US;q=0.9,en;q=0.8");
   ("cache-control", JStr "no-cache");
   ("content-type", JStr "application/json");
   ("dnt", JStr "1");
   ("origin", JStr "https://www.yescoin.gold");
   ("pragma", JStr "no-cache");
   ("priority", JStr "u=1, i");
   ("referer", JStr "https://www.yescoin.gold/");
   ("sec-ch-ua",
    JStr (dq ++ "Chromium" ++ dq ++ ";v=" ++ dq ++ "131" ++ dq ++ ", "
          ++ dq ++ "Not_A Brand" ++ dq ++ ";v=" ++ dq ++ "24" ++ dq));
   ("sec-ch-ua-mobile", JStr "?0");
   ("sec-ch-ua-platform", JStr (dq ++ "macOS" ++ dq));
   ("sec-fetch-dest", JStr "empty");
   ("sec-fetch-mode", JStr "cors");
   ("sec-fetch-site", JStr "same-site");
   ("user-agent",
    JStr "Mozilla/5.0 (Macintosh; Intel Mac OS X 10_15_7) AppleWebKit/537.36 (KHTML, like Gecko) Chrome/131.0.0.0 Safari/537.36")
  ]%string.

Definition get_auth_headers (token : string) : dict :=
  dict_set "lang" (JStr "en")
    (dict_set "authorization" (JStr ("Bearer " ++ token)%string) HEADERS).

(** ** The outside world *)

(** What one HTTP attempt gives: a response with a status and, when it
    decodes, a body; or an exception (connection error, timeout). *)
Inductive HttpOutcome : Type :=
| Responded (status : Z) (body : option json)
| Failed.

Inductive exn : Type :=
| InvalidSession
| TooManyRequestsError
| PyError.          (* any other [Exception]: KeyError, TypeError, ValueError, ... *)

Inductive result (A : Type) : Type :=
| Ret (a : A)
| Raise (e : exn).
Arguments Ret {A} a.
Arguments Raise {A} e.

Record World : Type := {
  http : nat -> string -> string -> HttpOutcome;  (* n-th attempt of the session, method, url *)
  rand_raw : nat -> Z;                            (* n-th draw of the generator *)
  get_app_webview_url : nat -> string -> option string;
                        (* n-th identity look-up, ref id; [None]: raises or returns nothing *)
  check_is_first_run : option bool;               (* [bot.utils.first_run]; [None]: raises *)
  append_recurring_session : bool;                (* [bot.utils.first_run]; [false]: raises *)
  unquote : string -> string;                     (* [urllib.parse.unquote] *)
  settings : Settings
}.

(** ** Observable actions *)

Inductive Event : Type :=
| Call (method url : string) (body : option json)  (* [make_request] entered *)
| Attempt (n : Z) (headers : dict)                 (* one HTTP attempt, with the headers sent *)
| Sleep (secs : Z)                                 (* [asyncio.sleep] *)
| Waiting (secs : Z)                               (* the log line announcing a back-off *)
| WebView (ref_id : string)                        (* [tg_client.get_app_webview_url] *)
| AppendRecurring.                                 (* [append_recurring_session] *)

(** ** The bot's state: the attributes of [BaseBot], the three locals of
    [process_bot_logic] that live across iterations, and the cursors into
    the world. *)

Record State : Type := {
  _http_client : bool;                (* is a transport installed *)
  _access_token : json;
  _is_first_run : option bool;
  _init_data : option string;
  _current_ref_id : option string;
  access_token_created_time : Z;
  active_turbo : bool;
  balance : json;
  now : Z;                            (* [time()], moved by sleeps only *)
  http_cursor : nat;
  rand_cursor : nat;
  webview_cursor : nat
}.

Definition set_access_token (v : json) (s : State) : State :=
  {| _http_client := _http_client s; _access_token := v;
     _is_first_run := _is_first_run s; _init_data := _init_data s;
     _current_ref_id := _current_ref_id s;
     access_token_created_time := access_token_created_time s;
     active_turbo := active_turbo s; balance := balance s; now := now s;
     http_cursor := http_cursor s; rand_cursor := rand_cursor s;
     webview_cursor := webview_cursor s |}.

Definition set_is_first_run (v : option bool) (s : State) : State :=
  {| _http_client := _http_client s; _access_token := _access_token s;
     _is_first_run := v; _init_data := _init_data s;
     _current_ref_id := _current_ref_id s;
     access_token_created_time := access_token_created_time s;
     active_turbo := active_turbo s; balance := balance s; now := now s;
     http_cursor := http_cursor s; rand_cursor := rand_cursor s;
     webview_cursor := webview_cursor s |}.

Definition set_init_data (v : option string) (s : State) : State :=
  {| _http_client := _http_client s; _access_token := _access_token s;
     _is_first_run := _is_first_run s; _init_data := v;
     _current_ref_id := _current_ref_id s;
     access_token_created_time := access_token_created_time s;
     active_turbo := active_turbo s; balance := balance s; now := now s;
     http_cursor := http_cursor s; rand_cursor := rand_cursor s;
     webview_cursor := webview_cursor s |}.

Definition set_current_ref_id (v : option string) (s : State) : State :=
  {| _http_client := _http_client s; _access_token := _access_token s;
     _is_first_run := _is_first_run s; _init_data := _init_data s;
     _current_ref_id := v;
     access_token_created_time := access_token_created_time s;
     active_turbo := active_turbo s; balance := balance s; now := now s;
     http_cursor := http_cursor s; rand_cursor := rand_cursor s;
     webview_cursor := webview_cursor s |}.

Definition set_created_time (v : Z) (s : State) : State :=
  {| _http_client := _http_client s; _access_token := _access_token s;
     _is_first_run := _is_first_run s; _init_data := _init_data s;
     _current_ref_id := _current_ref_id s;
     access_token_created_time := v;
     active_turbo := active_turbo s; balance := balance s; now := now s;
     http_cursor := http_cursor s; rand_cursor := rand_cursor s;
     webview_cursor := webview_cursor s |}.

Definition set_active_turbo (v : bool) (s : State) : State :=
  {| _http_client := _http_client s; _access_token := _access_token s;
     _is_first_run := _is_first_run s; _init_data := _init_data s;
     _current_ref_id := _current_ref_id s;
     access_token_created_time := access_token_created_time s;
     active_turbo := v; balance := balance s; now := now s;
     http_cursor := http_cursor s; rand_cursor := rand_cursor s;
     webview_cursor := webview_cursor s |}.

Definition set_balance (v : json) (s : State) : State :=
  {| _http_client := _http_client s; _access_token := _access_token s;
     _is_first_run := _is_first_run s; _init_data := _init_data s;
     _current_ref_id := _current_ref_id s;
     access_token_created_time := access_token_created_time s;
     active_turbo := active_turbo s; balance := v; now := now s;
     http_cursor := http_cursor s; rand_cursor := rand_cursor s;
     webview_cursor := webview_cursor s |}.

Definition set_now (v : Z) (s : State) : State :=
  {| _http_client := _http_client s; _access_token := _access_token s;
     _is_first_run := _is_first_run s; _init_data := _init_data s;
     _current_ref_id := _current_ref_id s;
     access_token_created_time := access_token_created_time s;
     active_turbo := active_turbo s; balance := balance s; now := v;
     http_cursor := http_cursor s; rand_cursor := rand_cursor s;
     webview_cursor := webview_cursor s |}.

Definition set_http_cursor (v : nat) (s : State) : State :=
  {| _http_client := _http_client s; _access_token := _access_token s;
     _is_first_run := _is_first_run s; _init_data := _init_data s;
     _current_ref_id := _current_ref_id s;
     access_token_created_time := access_token_created_time s;
     active_turbo := active_turbo s; balance := balance s; now := now s;
     http_cursor := v; rand_cursor := rand_cursor s;
     webview_cursor := webview_cursor s |}.

Definition set_rand_cursor (v : nat) (s : State) : State :=
  {| _http_client := _http_client s; _access_token := _access_token s;
     _is_first_run := _is_first_run s; _init_data := _init_data s;
     _current_ref_id := _current_ref_id s;
     access_token_created_time := access_token_created_time s;
     active_turbo := active_turbo s; balance := balance s; now := now s;
     http_cursor := http_cursor s; rand_cursor := v;
     webview_cursor := webview_cursor s |}.

Definition set_webview_cursor (v : nat) (s : State) : State :=
  {| _http_client := _http_client s; _access_token := _access_token s;
     _is_first_run := _is_first_run s; _init_data := _init_data s;
     _current_ref_id := _current_ref_id s;
     access_token_created_time := access_token_created_time s;
     active_turbo := active_turbo s; balance := balance s; now := now s;
     http_cursor := http_cursor s; rand_cursor := rand_cursor s;
     webview_cursor := v |}.

(** ** The monad: world reader, state, exceptions, trace writer *)

(** What running an action gives: its result, the state it leaves and the
    actions it performed, oldest first. *)
#[projections(primitive)]
Record Out (A : Type) : Type := mkOut {
  res : result A;
  st : State;
  tr : list Event
}.
Arguments mkOut {A} res st tr.
Arguments res {A} o.
Arguments st {A} o.
Arguments tr {A} o.

Definition M (A : Type) : Type := World -> State -> Out A.

Definition ret {A} (a : A) : M A := fun _ s => mkOut (Ret a) s [].

Definition raise {A} (e : exn) : M A := fun _ s => mkOut (Raise e) s [].

Definition bind {A B} (m : M A) (f : A -> M B) : M B := fun w s =>
  let x := m w s in
  match res x with
  | Ret a =>
      let y := f a w (st x) in
      mkOut (res y) (st y) (tr x ++ tr y)
  | Raise e => mkOut (Raise e) (st x) (tr x)
  end.

(** [try: m  except ...: h e]: the handler sees every exception and decides
    by its class; what the body did to the state before raising stays. *)
Definition try_except {A} (m : M A) (h : exn -> M A) : M A := fun w s =>
  let x := m w s in
  match res x with
  | Ret a => x
  | Raise e =>
      let y := h e w (st x) in
      mkOut (res y) (st y) (tr x ++ tr y)
  end.

Definition get : M State := fun _ s => mkOut (Ret s) s [].
Definition ask : M World := fun w s => mkOut (Ret w) s [].
Definition modify (f : State -> State) : M unit := fun _ s => mkOut (Ret tt) (f s) [].
Definition emit (e : Event) : M unit := fun _ s => mkOut (Ret tt) s [e].

Declare Scope bot_scope.
Delimit Scope bot_scope with bot.
Notation "x <- m ;; k" := (bind m (fun x => k))
  (at level 61, m at next level, right associativity) : bot_scope.
Notation "m ;; k" := (bind m (fun _ => k))
  (at level 61, right associativity) : bot_scope.
Open Scope bot_scope.

(** An operation that raises a plain Python exception when undefined. *)
Definition must {A} (o : option A) : M A :=
  match o with
  | Some a => ret a
  | None => raise PyError
  end.

(** [await asyncio.sleep(d)]. *)
Definition sleep (d : Z) : M unit :=
  emit (Sleep d) ;; modify (fun s => set_now (now s + Z.max 0 d) s).

(** [randint(a, b)]: [ValueError] on an empty range. *)
Definition randint (a b : Z) : M Z := fun w s =>
  if b <? a then mkOut (Raise PyError) s []
  else mkOut (Ret (a + (rand_raw w (rand_cursor s)) mod (b - a + 1)))
             (set_rand_cursor (S (rand_cursor s)) s) [].

(** One HTTP attempt: the next answer of the world. *)
Definition http_attempt (method url : string) : M HttpOutcome := fun w s =>
  mkOut (Ret (http w (http_cursor s) method url)) (set_http_cursor (S (http_cursor s)) s) [].

(** ** [BaseBot.get_ref_id] *)

Definition get_ref_id : M string :=
  s <- get ;;
  match _current_ref_id s with
  | None =>
      random_number <- randint 1 100 ;;
      w <- ask ;;
      let r := if random_number <=? 70 then REF_ID (settings w) else "dIk9eL"%string in
      modify (set_current_ref_id (Some r)) ;;
      ret r
  | Some r => ret r
  end.

(** ** [BaseBot.make_request] *)

Definition max_retries : Z := 3.
Definition base_delay : Z := 5.

(** The body of [for attempt in range(max_retries)], from iteration
    [attempt] on, with [todo] iterations left; [kw_headers] is
    [kwargs.get('headers')], which every iteration overwrites.
    [self._headers] is a copy of [HEADERS] that nothing writes. *)
Fixpoint request_attempts (todo : nat) (attempt : Z) (method url : string)
    (kw_headers : option dict) : M json :=
  match todo with
  | O => ret JNull
  | S todo' =>
      s <- get ;;
      let headers := HEADERS in
      let headers :=
        if truthy (_access_token s) then dict_set "token" (_access_token s) headers
        else headers in
      let headers :=
        match kw_headers with
        | Some h => dict_update headers h
        | None => headers
        end in
      let on_exception : M json :=
        if attempt <? max_retries - 1
        then sleep (base_delay * (attempt + 1)) ;;
             request_attempts todo' (attempt + 1) method url (Some headers)
        else ret JNull in
      emit (Attempt attempt headers) ;;
      o <- http_attempt method url ;;
      match o with
      | Responded status body =>
          if status =? 200 then
            match body with
            | Some j => ret j
            | None => on_exception
            end
          else if status =? 429 then ret JNull
          else ret JNull
      | Failed => on_exception
      end
  end.

Definition make_request (method url : string) (json_kw : option json)
    (headers_kw : option dict) : M json :=
  emit (Call method url json_kw) ;;
  s <- get ;;
  if negb (_http_client s) then raise InvalidSession
  else request_attempts (Z.to_nat max_retries) 0 method url headers_kw.

(** ** [BaseBot.get_tg_web_data] *)

Definition get_tg_web_data : M string :=
  try_except
    (ref_id <- get_ref_id ;;
     emit (WebView ref_id) ;;
     s <- get ;;
     w <- ask ;;
     modify (set_webview_cursor (S (webview_cursor s))) ;;
     match get_app_webview_url w (webview_cursor s) ref_id with
     | None => raise InvalidSession
     | Some webview_url =>
         if String.eqb webview_url EmptyString then raise InvalidSession
         else
           let webview_url :=
             if negb (contains "startapp=" webview_url)
                && negb (contains "start=" webview_url)
             then replace "#tgWebAppData="
                    ("?startapp=" ++ ref_id ++ "#tgWebAppData=")%string webview_url
             else webview_url in
           tail <- must (nth_error (split "tgWebAppData=" webview_url) 1) ;;
           encoded_data <- must (nth_error (split "&tgWebAppVersion" tail) 0) ;;
           let decoded_data := unquote w (unquote w encoded_data) in
           (if contains "start_param" decoded_data
            then tail <- must (nth_error (split "start_param=" decoded_data) 1) ;;
                 _ <- must (nth_error (split "&" tail) 0) ;;
                 ret tt
            else ret tt) ;;
           modify (set_init_data (Some decoded_data)) ;;
           ret decoded_data
     end)
    (fun _ => raise InvalidSession).

(** ** [BaseBot.initialize_session] *)

Definition initialize_session : M bool :=
  try_except
    (w <- ask ;;
     is_first_run <- must (check_is_first_run w) ;;
     modify (set_is_first_run (Some is_first_run)) ;;
     (if is_first_run then
        if append_recurring_session w then emit AppendRecurring else raise PyError
      else ret tt) ;;
     ret true)
    (fun _ => ret false).

(** ** Shapes shared by the action primitives *)

(** [response['data'] if response else default]. *)
Definition data_or (response default : json) : M json :=
  if truthy response then must (py_getitem response "data") else ret default.

(** [bool(response and response['data'])]. *)
Definition has_data (response : json) : M bool :=
  if truthy response
  then data <- must (py_getitem response "data") ;; ret (truthy data)
  else ret false.

(** [response and response.get('code') == 0]. *)
Definition code_is_zero (response : json) : M bool :=
  if truthy response
  then code <- must (py_get response "code" JNull) ;; ret (py_eq_int code 0)
  else ret false.

(** [except Exception: log; await asyncio.sleep(3); return default]. *)
Definition give_back {A} (default : A) (e : exn) : M A :=
  sleep 3 ;; ret default.

(** The same, after [except TooManyRequestsError: raise]. *)
Definition give_back_unless_limited {A} (default : A) (e : exn) : M A :=
  match e with
  | TooManyRequestsError => raise e
  | _ => sleep 3 ;; ret default
  end.

Definition api (path : string) : string := ("https://bi.yescoin.gold" ++ path)%string.

(** ** [BaseBot.login] *)

Definition login (tg_web_data : string) : M json :=
  try_except
    (response <- make_request "POST" (api "/user/login")
                   (Some (JObj [("code"%string, JStr tg_web_data)])) (Some HEADERS) ;;
     if negb (truthy response) then raise InvalidSession
     else
       code <- must (py_get response "code" JNull) ;;
       if negb (py_eq_int code 0) then
         _ <- must (py_get response "message" (JStr "unknown error")) ;;
         raise InvalidSession
       else
         has <- must (py_in "data" response) ;;
         if negb has then raise InvalidSession
         else
           data <- must (py_getitem response "data") ;;
           has_token <- must (py_in "token" data) ;;
           if negb has_token then raise InvalidSession
           else
             token <- must (py_getitem data "token") ;;
             modify (set_access_token token) ;;
             ret token)
    (fun _ => sleep 3 ;; raise InvalidSession).

(** ** Fetching primitives *)

Definition get_profile_data : M json :=
  try_except
    (response <- make_request "GET" (api "/account/getAccountInfo") None None ;;
     data_or response (JObj []))
    (give_back_unless_limited (JObj [])).

Definition get_game_data : M json :=
  try_except
    (response <- make_request "GET" (api "/game/getGameInfo") None None ;;
     data_or response (JObj []))
    (give_back_unless_limited (JObj [])).

Definition get_boosts_info : M json :=
  try_except
    (response <- make_request "GET" (api "/build/getAccountBuildInfo") None None ;;
     data_or response (JObj []))
    (give_back_unless_limited (JObj [])).

Definition get_special_box_info : M json :=
  try_except
    (response <- make_request "GET" (api "/game/getSpecialBoxInfo") None None ;;
     data_or response (JObj []))
    (give_back (JObj [])).

(** ** Acting primitives *)

Definition level_up (boost_id : Z) : M bool :=
  try_except
    (response <- make_request "POST" (api "/build/levelUp")
                   (Some (JStr (py_str boost_id))) None ;;
     has_data response)
    (give_back false).

Definition apply_turbo_boost : M bool :=
  try_except
    (response <- make_request "POST" (api "/game/recoverSpecialBox") None None ;;
     has_data response)
    (give_back false).

Definition apply_energy_boost : M bool :=
  try_except
    (response <- make_request "POST" (api "/game/recoverCoinPool") None None ;;
     has_data response)
    (give_back false).

(** [send_taps] gets [str(taps)]; [taps] is the value [min] picked. *)
Definition send_taps (taps : json) : M (json * json) :=
  try_except
    (body <- must (py_str_json taps) ;;
     response <- make_request "POST" (api "/game/collectCoin") (Some (JStr body)) None ;;
     ok <- has_data response ;;
     if negb ok then ret (JBool false, JObj [])
     else
       data <- must (py_getitem response "data") ;;
       status <- must (py_getitem data "collectStatus") ;;
       collect_amount <- must (py_getitem data "collectAmount") ;;
       current_amount <- must (py_getitem data "currentAmount") ;;
       total_amount <- must (py_getitem data "totalAmount") ;;
       ret (status, JObj [("collect_amount"%string, collect_amount);
                          ("current_amount"%string, current_amount);
                          ("total_amount"%string, total_amount)]))
    (give_back (JBool false, JObj [])).

Definition send_taps_with_turbo : M (json * json) :=
  try_except
    (special_box_info <- get_special_box_info ;;
     box <- must (py_getitem special_box_info "recoveryBox") ;;
     box_type <- must (py_getitem box "boxType") ;;
     taps <- must (py_getitem box "specialBoxTotalCount") ;;
     sleep 10 ;;
     response <- make_request "POST" (api "/game/collectSpecialBoxCoin")
                   (Some (JObj [("boxType"%string, box_type); ("coinCount"%string, taps)]))
                   None ;;
     ok <- has_data response ;;
     if negb ok then ret (JBool false, JObj [])
     else
       data <- must (py_getitem response "data") ;;
       status <- must (py_getitem data "collectStatus") ;;
       collect_amount <- must (py_getitem data "collectAmount") ;;
       current_amount <- must (py_get data "currentAmount" JNull) ;;
       total_amount <- must (py_get data "totalAmount" JNull) ;;
       ret (status, JObj [("collect_amount"%string, collect_amount);
                          ("current_amount"%string, current_amount);
                          ("total_amount"%string, total_amount)]))
    (give_back (JBool false, JObj [])).

Definition join_activity (activity_code : string) : M bool :=
  try_except
    (response <- make_request "POST" (api "/activity/doJoinActivity")
                   (Some (JObj [("activityCode"%string, JStr activity_code)])) None ;;
     has_data response)
    (give_back false).

Definition get_activity_status (activity_code : string) : M json :=
  try_except
    (response <- make_request "GET"
                   (api "/activity/getJoinActivityStatus?activityCode=" ++ activity_code)%string
                   None None ;;
     data_or response (JObj []))
    (give_back (JObj [])).

(** ** Loops *)

(** What the body of a [for] asks for when it ends. *)
Inductive loop_ctl : Type := Continue | Break.

Fixpoint for_each {A} (items : list A) (body : A -> M loop_ctl) : M unit :=
  match items with
  | [] => ret tt
  | x :: rest =>
      c <- body x ;;
      match c with
      | Continue => for_each rest body
      | Break => ret tt
      end
  end.

(** ** Tasks *)

Definition get_task_list : M json :=
  try_except
    (response <- make_request "GET" (api "/task/getTaskList") None None ;;
     data_or response (JObj []))
    (give_back (JObj [])).

Definition click_task (task_id : json) : M bool :=
  try_except
    (response <- make_request "POST" (api "/task/clickTask") (Some task_id) None ;;
     has_data response)
    (give_back false).

Definition check_task (task_id : json) : M bool :=
  try_except
    (response <- make_request "POST" (api "/task/checkTask") (Some task_id) None ;;
     has_data response)
    (give_back false).

Definition claim_task_reward (task_id : json) : M json :=
  try_except
    (response <- make_request "POST" (api "/task/claimTaskReward") (Some task_id) None ;;
     data_or response (JObj []))
    (give_back (JObj [])).

Definition get_task_bonus_info : M json :=
  try_except
    (response <- make_request "GET" (api "/task/getFinishTaskBonusInfo") None None ;;
     data_or response (JObj []))
    (give_back (JObj [])).

(** The body shared by the two loops of [process_tasks]. *)
Definition run_task (task : json) : M loop_ctl :=
  task_id <- must (py_getitem task "taskId") ;;
  _ <- must (py_getitem task "taskName") ;;
  _ <- must (py_getitem task "taskBonusAmount") ;;
  task_status <- must (py_getitem task "taskStatus") ;;
  (if py_eq_int task_status 0 then
     clicked <- click_task task_id ;;
     if clicked then
       sleep 5 ;;
       checked <- check_task task_id ;;
       if checked then
         reward_data <- claim_task_reward task_id ;;
         if truthy reward_data
         then _ <- must (py_get reward_data "bonusAmount" (JNum 0)) ;; ret tt
         else ret tt
       else ret tt
     else ret tt
   else ret tt) ;;
  ret Continue.

Definition process_tasks : M unit :=
  try_except
    (task_list <- get_task_list ;;
     if negb (truthy task_list) then ret tt
     else
       tasks <- must (py_get task_list "taskList" (JArr [])) ;;
       items <- must (py_iter tasks) ;;
       for_each items run_task ;;
       special <- must (py_get task_list "specialTaskList" (JArr [])) ;;
       items <- must (py_iter special) ;;
       for_each items run_task ;;
       bonus_info <- get_task_bonus_info ;;
       if truthy bonus_info then
         _ <- must (py_get bonus_info "dailyTaskFinishCount" (JNum 0)) ;;
         ret tt
       else ret tt)
    (fun _ => sleep 3).

(** ** Daily missions *)

Definition get_daily_missions : M json :=
  try_except
    (response <- make_request "GET" (api "/mission/getDailyMission") None None ;;
     data_or response (JArr []))
    (give_back (JArr [])).

(** [for attempt in range(2)] of [process_daily_mission], from iteration
    [attempt] on. *)
Fixpoint mission_attempts (todo : nat) (attempt : Z) (mission_id : json) : M bool :=
  match todo with
  | O => ret false
  | S todo' =>
      (if 0 <? attempt then sleep 5 else ret tt) ;;
      click_response <- make_request "POST" (api "/mission/clickDailyMission")
                          (Some mission_id) None ;;
      clicked <- has_data click_response ;;
      if negb clicked then mission_attempts todo' (attempt + 1) mission_id
      else
        sleep 7 ;;
        check_response <- make_request "POST" (api "/mission/checkDailyMission")
                            (Some mission_id) None ;;
        checked <- has_data check_response ;;
        if negb checked then mission_attempts todo' (attempt + 1) mission_id
        else
          sleep 5 ;;
          claim_response <- make_request "POST" (api "/mission/claimReward")
                              (Some mission_id) None ;;
          claimed <- (if truthy claim_response
                      then data <- must (py_get claim_response "data" JNull) ;;
                           ret (truthy data)
                      else ret false) ;;
          if negb claimed then mission_attempts todo' (attempt + 1) mission_id
          else
            reward_data <- must (py_getitem claim_response "data") ;;
            _ <- must (py_get reward_data "reward" (JNum 0)) ;;
            ret true
  end.

Definition process_daily_mission (mission_id : json) : M bool :=
  try_except (mission_attempts 2 0 mission_id) (give_back false).

Definition process_daily_missions : M unit :=
  try_except
    (missions <- get_daily_missions ;;
     if negb (truthy missions) then ret tt
     else
       items <- must (py_iter missions) ;;
       for_each items (fun mission =>
         mission_id <- must (py_getitem mission "missionId") ;;
         _ <- must (py_getitem mission "name") ;;
         mission_status <- must (py_getitem mission "missionStatus") ;;
         _ <- must (py_getitem mission "reward") ;;
         (if py_eq_int mission_status 0 then
            try_except
              (_ <- process_daily_mission mission_id ;; sleep 5)
              (fun _ => ret tt)
          else ret tt) ;;
         ret Continue))
    (fun _ => sleep 3).

(** ** Squad *)

Definition get_squad_info : M json :=
  try_except
    (response <- make_request "GET" (api "/squad/mySquad") None None ;;
     data_or response (JObj []))
    (give_back (JObj [])).

Definition get_recommended_squads : M json :=
  try_except
    (response <- make_request "GET" (api "/squad/getRecommendSquadList") None None ;;
     has <- (if truthy response then must (py_in "data" response) else ret false) ;;
     if has then
       data <- must (py_getitem response "data") ;;
       must (py_getitem data "list")
     else ret (JArr []))
    (give_back (JArr [])).

Definition join_squad (squad_id squad_tg_link : json) : M bool :=
  try_except
    (response <- make_request "POST" (api "/squad/joinSquad")
                   (Some (JObj [("squadId"%string, squad_id);
                                ("squadTgLink"%string, squad_tg_link)])) None ;;
     ok <- code_is_zero response ;;
     if ok then
       data <- must (py_getitem response "data") ;;
       squad_info <- must (py_getitem data "squadInfo") ;;
       _ <- must (py_getitem squad_info "squadTitle") ;;
       _ <- must (py_getitem squad_info "squadMembers") ;;
       _ <- must (py_getitem squad_info "squadLevel") ;;
       ret true
     else ret false)
    (give_back false).

Definition process_squad : M unit :=
  try_except
    (squad_info <- get_squad_info ;;
     joined <- must (py_get squad_info "isJoinSquad" JNull) ;;
     if truthy joined then ret tt
     else
       squads <- get_recommended_squads ;;
       if negb (truthy squads) then ret tt
       else
         first3 <- must (py_slice3 squads) ;;
         items <- must (py_iter first3) ;;
         for_each items (fun squad =>
           squad_id <- must (py_getitem squad "squadIdStr") ;;
           squad_tg_link <- must (py_getitem squad "squadTgLink") ;;
           _ <- must (py_getitem squad "squadTitle") ;;
           _ <- must (py_getitem squad "squadMembers") ;;
           joined <- join_squad squad_id squad_tg_link ;;
           if joined then ret Break
           else sleep 2 ;; ret Continue))
    (fun _ => sleep 3).

(** ** Offline bonus and daily check-in *)

Definition get_offline_bonus_info : M json :=
  try_except
    (response <- make_request "GET" (api "/game/getOfflineYesPacBonusInfo") None None ;;
     data_or response (JArr []))
    (give_back (JArr [])).

Definition claim_offline_bonus (transaction_id claim_type : json) (create_at : Z) : M bool :=
  try_except
    (response <- make_request "POST" (api "/game/claimOfflineBonus")
                   (Some (JObj [("id"%string, transaction_id);
                                ("createAt"%string, JNum create_at);
                                ("claimType"%string, claim_type);
                                ("destination"%string, JStr EmptyString)])) None ;;
     ok <- code_is_zero response ;;
     if ok then
       bonus_data <- must (py_getitem response "data") ;;
       _ <- must (py_getitem bonus_data "collectAmount") ;;
       _ <- must (py_getitem bonus_data "extraPercentage") ;;
       ret true
     else ret false)
    (give_back false).

Definition get_signin_list : M json :=
  try_except
    (response <- make_request "GET" (api "/signIn/list") None None ;;
     data_or response (JArr []))
    (give_back (JArr [])).

Definition claim_signin (signin_id : json) (create_at : Z) (signin_type : Z) : M bool :=
  try_except
    (response <- make_request "POST" (api "/signIn/claim")
                   (Some (JObj [("id"%string, signin_id);
                                ("createAt"%string, JNum create_at);
                                ("signInType"%string, JNum signin_type);
                                ("destination"%string, JStr EmptyString)])) None ;;
     ok <- code_is_zero response ;;
     if ok then
       reward_data <- must (py_getitem response "data") ;;
       _ <- must (py_getitem reward_data "reward") ;;
       ret true
     else ret false)
    (give_back false).

Definition process_offline_bonus : M unit :=
  try_except
    (bonus_info <- get_offline_bonus_info ;;
     if negb (truthy bonus_info) then ret tt
     else
       items <- must (py_iter bonus_info) ;;
       for_each items (fun bonus =>
         collect_status <- must (py_getitem bonus "collectStatus") ;;
         if truthy collect_status then
           s <- get ;;
           let create_at := now s in
           transaction_id <- must (py_getitem bonus "transactionId") ;;
           claim_type <- must (py_getitem bonus "claimType") ;;
           _ <- claim_offline_bonus transaction_id claim_type create_at ;;
           sleep 2 ;;
           ret Continue
         else ret Continue))
    (fun _ => sleep 3).

Definition process_signin : M unit :=
  try_except
    (signin_list <- get_signin_list ;;
     if negb (truthy signin_list) then ret tt
     else
       items <- must (py_iter signin_list) ;;
       for_each items (fun signin =>
         status <- must (py_getitem signin "status") ;;
         due <- (if py_eq_int status 1
                 then check_in <- must (py_getitem signin "checkIn") ;;
                      ret (py_eq_int check_in 0)
                 else ret false) ;;
         if due then
           s <- get ;;
           let create_at := now s in
           signin_id <- must (py_getitem signin "id") ;;
           _ <- claim_signin signin_id create_at 1 ;;
           ret Break
         else ret Continue))
    (fun _ => sleep 3).

(** ** [BaseBot.process_bot_logic] *)

(** How a block of the loop body ends: [Next] when it ran [continue],
    [Proceed] when control falls out of it. *)
Inductive flow : Type := Next | Proceed.

(** [sleep_time = randint(lo, hi); log; await asyncio.sleep(sleep_time)] with
    the two bounds of [SLEEP_BY_MIN_ENERGY]: the wait the loop writes out at
    each of its back-off points. *)
Definition coarse_wait : M unit :=
  w <- ask ;;
  sleep_time <- randint (fst (SLEEP_BY_MIN_ENERGY (settings w)))
                        (snd (SLEEP_BY_MIN_ENERGY (settings w))) ;;
  emit (Waiting sleep_time) ;;
  sleep sleep_time.

(** The one-time gift box of the referral code (lines 207-228). *)
Definition claim_referral : M unit :=
  ref_id <- get_ref_id ;;
  try_except
    (response <- make_request "POST"
                   (api "/invite/claimGiftBox?packId=" ++ ref_id)%string None None ;;
     ok <- code_is_zero response ;;
     if ok then
       data <- must (py_getitem response "data") ;;
       _ <- must (py_get data "claimAmount" (JNum 0)) ;;
       data <- must (py_getitem response "data") ;;
       _ <- must (py_get data "isInvited" (JBool false)) ;;
       ret tt
     else ret tt)
    (fun _ => ret tt).

(** The branch taken when the token is an hour old (lines 202-275). *)
Definition auth_refresh : M flow :=
  tg_web_data <- get_tg_web_data ;;
  token <- login tg_web_data ;;
  modify (set_access_token token) ;;
  s <- get ;;
  modify (set_created_time (now s)) ;;
  (match _is_first_run s with
   | Some true => claim_referral
   | _ => ret tt
   end) ;;
  process_offline_bonus ;;
  process_signin ;;
  process_squad ;;
  profile_data <- get_profile_data ;;
  if negb (truthy profile_data) then ret Next
  else
    current_amount <- must (py_getitem profile_data "currentAmount") ;;
    modify (set_balance current_amount) ;;
    _ <- must (py_getitem profile_data "rank") ;;
    _ <- must (py_getitem profile_data "userLevel") ;;
    _ <- must (py_getitem profile_data "inviteAmount") ;;
    tge_status <- get_activity_status "TGE" ;;
    (if truthy tge_status then
       join_status <- must (py_get tge_status "joinStatus" (JNum 0)) ;;
       _ <- must (py_get tge_status "joinYesDays" (JNum 0)) ;;
       if py_eq_int join_status 0
       then _ <- join_activity "TGE" ;; ret tt
       else ret tt
     else ret tt) ;;
    try_except (process_tasks ;; process_daily_missions) (fun _ => ret tt) ;;
    ret Proceed.

(** What the loop does with the answer of a tap (lines 326-369). *)
Definition after_tap (status tap_data : json) : M flow :=
  if is_None tap_data then coarse_wait ;; ret Next
  else if truthy status then
    current <- must (py_get tap_data "current_amount" JNull) ;;
    new_balance <-
      (if negb (is_None current) then
         new_balance <- must (py_getitem tap_data "current_amount") ;;
         _ <- must (py_getitem tap_data "total_amount") ;;
         ret (Some new_balance)
       else
         profile_data <- get_profile_data ;;
         if negb (truthy profile_data) then ret None
         else
           new_balance <- must (py_getitem profile_data "currentAmount") ;;
           _ <- must (py_getitem profile_data "totalAmount") ;;
           ret (Some new_balance)) ;;
    match new_balance with
    | None => ret Next
    | Some new_balance =>
        _ <- must (py_getitem tap_data "collect_amount") ;;
        modify (set_balance new_balance) ;;
        game_data <- get_game_data ;;
        if negb (truthy game_data) then ret Next
        else
          _ <- must (py_getitem game_data "coinPoolLeftCount") ;;
          _ <- must (py_get game_data "coinPoolTotalCount" (JNum 0)) ;;
          w <- ask ;;
          pause <- randint (fst (SLEEP_BETWEEN_TAP (settings w)))
                           (snd (SLEEP_BETWEEN_TAP (settings w))) ;;
          sleep pause ;;
          ret Next
    end
  else ret Proceed.

(** The turbo tap of a pending turbo boost (lines 319-321). *)
Definition turbo_tap : M (json * json) :=
  tap <- send_taps_with_turbo ;;
  (if truthy (fst tap) then modify (set_active_turbo false) else ret tt) ;;
  ret tap.

(** The regular tap (lines 323-324); [available_energy] is the value the
    server sent and [energy] the integer it stands for. *)
Definition regular_tap (available_energy : json) (energy : Z) : M (json * json) :=
  w <- ask ;;
  drawn <- randint (fst (RANDOM_TAPS_COUNT (settings w)))
                   (snd (RANDOM_TAPS_COUNT (settings w))) ;;
  let max_taps := if drawn <? energy then JNum drawn else available_energy in
  send_taps max_taps.

(** The tap branch, entered when [available_energy > min_energy]
    (lines 311-369). *)
Definition tap_branch (available_energy : json) (energy : Z) (turbo_boost_count : json)
    : M flow :=
  count <- must (as_int turbo_boost_count) ;;
  s <- get ;;
  (if (count >? 0) && negb (active_turbo s) then
     activated <- apply_turbo_boost ;;
     if activated then sleep 1 ;; modify (set_active_turbo true) else ret tt
   else ret tt) ;;
  s <- get ;;
  tap <- (if active_turbo s then turbo_tap else regular_tap available_energy energy) ;;
  after_tap (fst tap) (snd tap).

(** One gate of the upgrade pass:
    [if balance >= price and next_level <= max_level: if await level_up(id): upgraded = True]. *)
Definition try_upgrade (price : json) (next_level max_level boost_id : Z)
    (upgraded : bool) : M bool :=
  s <- get ;;
  affordable <- must (py_ge (balance s) price) ;;
  if affordable && (next_level <=? max_level) then
    done <- level_up boost_id ;;
    ret (if done then true else upgraded)
  else ret upgraded.

(** The upgrade pass, entered when [available_energy == 0] (lines 372-428). *)
Definition upgrade_pass (boosts_info : json) : M flow :=
  try_except
    (tap_level <- must (py_getitem boosts_info "singleCoinLevel") ;;
     tap_level <- must (as_int tap_level) ;;
     let next_tap_level := tap_level + 1 in
     energy_level <- must (py_getitem boosts_info "coinPoolTotalLevel") ;;
     energy_level <- must (as_int energy_level) ;;
     let next_energy_level := energy_level + 1 in
     charge_level <- must (py_getitem boosts_info "coinPoolRecoveryLevel") ;;
     charge_level <- must (as_int charge_level) ;;
     let next_charge_level := charge_level + 1 in
     next_tap_price <- must (py_getitem boosts_info "singleCoinUpgradeCost") ;;
     next_energy_price <- must (py_getitem boosts_info "coinPoolTotalUpgradeCost") ;;
     next_charge_price <- must (py_getitem boosts_info "coinPoolRecoveryUpgradeCost") ;;
     w <- ask ;;
     let upgraded := false in
     upgraded <- try_upgrade next_tap_price next_tap_level
                   (MAX_TAP_LEVEL (settings w)) 1 upgraded ;;
     upgraded <- try_upgrade next_energy_price next_energy_level
                   (MAX_ENERGY_LEVEL (settings w)) 3 upgraded ;;
     upgraded <- try_upgrade next_charge_price next_charge_level
                   (MAX_CHARGE_LEVEL (settings w)) 2 upgraded ;;
     if upgraded then sleep 1 ;; ret Next else ret Proceed)
    (fun e =>
       match e with
       | TooManyRequestsError => coarse_wait ;; ret Next
       | _ => raise e
       end).

(** The decision of one iteration, once both snapshots are there
    (lines 306-437). *)
Definition decide (available_energy : json) (min_energy : Z) (boosts_info : json)
    : M unit :=
  turbo_boost_count <- must (py_getitem boosts_info "specialBoxLeftRecoveryCount") ;;
  _ <- must (py_getitem boosts_info "coinPoolLeftRecoveryCount") ;;
  current_amount <- must (py_get boosts_info "currentAmount" (JNum 0)) ;;
  modify (set_balance current_amount) ;;
  energy <- must (as_int available_energy) ;;
  tapped <- (if energy >? min_energy
             then tap_branch available_energy energy turbo_boost_count
             else ret Proceed) ;;
  match tapped with
  | Next => ret tt
  | Proceed =>
      if energy =? 0 then
        upgraded <- upgrade_pass boosts_info ;;
        match upgraded with
        | Next => ret tt
        | Proceed => coarse_wait
        end
      else ret tt
  end.

(** Polling and deciding (the inner [try], lines 277-447). *)
Definition poll : M unit :=
  try_except
    (game_data <- get_game_data ;;
     if negb (truthy game_data) then coarse_wait
     else
       available_energy <- must (py_getitem game_data "coinPoolLeftCount") ;;
       _ <- must (py_getitem game_data "singleCoinValue") ;;
       total_energy <- must (py_get game_data "coinPoolTotalCount" (JNum 0)) ;;
       _ <- must (py_get game_data "coinPoolRecoverySpeed" (JNum 0)) ;;
       total <- must (as_int total_energy) ;;
       w <- ask ;;
       let min_energy := int_percent total (MIN_AVAILABLE_ENERGY (settings w)) in
       boosts_info <- get_boosts_info ;;
       if negb (truthy boosts_info) then coarse_wait
       else decide available_energy min_energy boosts_info)
    (fun e =>
       match e with
       | TooManyRequestsError => coarse_wait
       | _ => raise e
       end).

(** The token is stale: [time() - access_token_created_time >= 3600]. *)
Definition token_stale (s : State) : bool :=
  now s - access_token_created_time s >=? 3600.

(** One iteration of [while True] (lines 200-454). *)
Definition iteration : M unit :=
  try_except
    (s <- get ;;
     refreshed <- (if token_stale s then auth_refresh else ret Proceed) ;;
     match refreshed with
     | Next => ret tt
     | Proceed => poll
     end)
    (fun e =>
       match e with
       | InvalidSession => raise e
       | _ => sleep 3
       end).

Fixpoint iterations (n : nat) : M unit :=
  match n with
  | O => ret tt
  | S n' => iteration ;; iterations n'
  end.

(** [process_bot_logic], cut after [n] iterations of its endless loop. *)
Definition process_bot_logic (n : nat) : M unit :=
  modify (set_created_time 0) ;;
  modify (set_active_turbo false) ;;
  modify (set_balance (JNum 0)) ;;
  iterations n.

(** ** Reading a trace *)

Definition login_url : string := api "/user/login".
Definition profile_url : string := api "/account/getAccountInfo".
Definition game_url : string := api "/game/getGameInfo".
Definition boosts_url : string := api "/build/getAccountBuildInfo".
Definition level_up_url : string := api "/build/levelUp".
Definition turbo_boost_url : string := api "/game/recoverSpecialBox".
Definition tap_url : string := api "/game/collectCoin".
Definition turbo_tap_url : string := api "/game/collectSpecialBoxCoin".
Definition referral_prefix : string := api "/invite/claimGiftBox?packId=".

(** [make_request] was entered for [url]. *)
Definition is_call (url : string) (e : Event) : bool :=
  match e with
  | Call _ u _ => String.eqb u url
  | _ => false
  end.

Definition is_referral (e : Event) : bool :=
  match e with
  | Call _ u _ => String.prefix referral_prefix u
  | _ => false
  end.

(** Re-authentication: the identity look-up and the login call. *)
Definition is_auth (e : Event) : bool :=
  match e with
  | Call _ u _ => String.eqb u login_url
  | WebView _ => true
  | _ => false
  end.

(** The loop announced a back-off. *)
Definition is_waiting (e : Event) : bool :=
  match e with
  | Waiting _ => true
  | _ => false
  end.

Definition count (f : Event -> bool) (t : list Event) : nat := List.length (filter f t).

Definition attempts_of (t : list Event) : list Z :=
  flat_map (fun e => match e with Attempt n _ => [n] | _ => [] end) t.

Definition sleeps_of (t : list Event) : list Z :=
  flat_map (fun e => match e with Sleep d => [d] | _ => [] end) t.

(** The bodies of the level-up calls, in order. *)
Definition level_ups_of (t : list Event) : list (option json) :=
  flat_map (fun e => if is_call level_up_url e
                     then match e with Call _ _ b => [b] | _ => [] end
                     else []) t.

(** The url of the first call of a trace. *)
Fixpoint first_call (t : list Event) : option string :=
  match t with
  | [] => None
  | Call _ u _ :: _ => Some u
  | _ :: t' => first_call t'
  end.

(** ** What [make_request] answers, in closed form *)

(** The attempt ends in an exception: no response, or a 200 whose body does
    not decode. *)
Definition attempt_raises (o : HttpOutcome) : bool :=
  match o with
  | Failed => true
  | Responded status None => status =? 200
  | Responded _ (Some _) => false
  end.

(** What a response that ends the loop makes [make_request] return. *)
Definition answer_of (o : HttpOutcome) : json :=
  match o with
  | Responded status (Some j) => if status =? 200 then j else JNull
  | _ => JNull
  end.

(** How many of the first three outcomes, from the first on, raise. *)
Definition failures (o : nat -> HttpOutcome) : nat :=
  if attempt_raises (o 0%nat) then
    if attempt_raises (o 1%nat) then
      if attempt_raises (o 2%nat) then 3 else 2
    else 1
  else 0.

(** ** The gates of the upgrade pass, as the source writes them *)

Definition gate (balance price level max_level : Z) : bool :=
  (balance >=? price) && (level + 1 <=? max_level).


(** ** Concrete servers and sessions *)

(** The success envelope of the API. *)
Definition ok (data : json) : HttpOutcome :=
  Responded 200 (Some (JObj [("code"%string, JNum 0); ("data"%string, data)])).

Definition game_info (left total : Z) : json :=
  JObj [("coinPoolLeftCount"%string, JNum left);
        ("singleCoinValue"%string, JNum 1);
        ("coinPoolTotalCount"%string, JNum total);
        ("coinPoolRecoverySpeed"%string, JNum 1)].

Definition build_info (turbo amount tap_level tap_cost energy_level energy_cost
    charge_level charge_cost : Z) : json :=
  JObj [("specialBoxLeftRecoveryCount"%string, JNum turbo);
        ("coinPoolLeftRecoveryCount"%string, JNum 0);
        ("currentAmount"%string, JNum amount);
        ("singleCoinLevel"%string, JNum tap_level);
        ("singleCoinUpgradeCost"%string, JNum tap_cost);
        ("coinPoolTotalLevel"%string, JNum energy_level);
        ("coinPoolTotalUpgradeCost"%string, JNum energy_cost);
        ("coinPoolRecoveryLevel"%string, JNum charge_level);
        ("coinPoolRecoveryUpgradeCost"%string, JNum charge_cost)].

Definition collected (status : bool) (amount current total : Z) : json :=
  JObj [("collectStatus"%string, JBool status);
        ("collectAmount"%string, JNum amount);
        ("currentAmount"%string, JNum current);
        ("totalAmount"%string, JNum total)].

(** A server that answers by url; an unknown url is a 404. *)
Definition routes (table : list (string * HttpOutcome))
    : nat -> string -> string -> HttpOutcome :=
  fun _ _ url =>
    match find (fun p => String.eqb (fst p) url) table with
    | Some p => snd p
    | None => Responded 404 None
    end.

(** A world around such a server.  Its web-view url carries launch data
    without percent escapes, on which [unquote] is the identity. *)
Definition world_of (table : list (string * HttpOutcome)) (raw : Z) : World := {|
  http := routes table;
  rand_raw := fun _ => raw;
  get_app_webview_url := fun _ _ =>
    Some "https://app.example/#tgWebAppData=user=1&tgWebAppVersion=7"%string;
  check_is_first_run := Some false;
  append_recurring_session := true;
  unquote := fun s => s;
  settings := default_settings
|}.

(** A session in the middle of its loop: transport installed, token ten
    seconds old. *)
Definition running : State := {|
  _http_client := true;
  _access_token := JStr "token";
  _is_first_run := Some false;
  _init_data := None;
  _current_ref_id := None;
  access_token_created_time := 1700000000;
  active_turbo := false;
  balance := JNum 0;
  now := 1700000010;
  http_cursor := 0;
  rand_cursor := 0;
  webview_cursor := 0
|}.

(** A session of a newly seen account entering [process_bot_logic]. *)
Definition newcomer : State := {|
  _http_client := true;
  _access_token := JNull;
  _is_first_run := Some true;
  _init_data := None;
  _current_ref_id := None;
  access_token_created_time := 0;
  active_turbo := false;
  balance := JNum 0;
  now := 1700000000;
  http_cursor := 0;
  rand_cursor := 0;
  webview_cursor := 0
|}.

(** Energy 5 of 500 with the default 10 percent threshold (50). *)
Definition low_energy_world : World :=
  world_of [(game_url, ok (game_info 5 500));
            (boosts_url, ok (build_info 0 1000 3 500 3 5000 3 5000))] 0.

(** Full energy; the tap is answered with 429. *)
Definition limited_tap_world : World :=
  world_of [(game_url, ok (game_info 500 500));
            (boosts_url, ok (build_info 0 1000 3 500 3 5000 3 5000));
            (tap_url, Responded 429 None)] 0.

(** Full energy; the tap is answered with a payload that refuses it. *)
Definition rejected_tap_world : World :=
  world_of [(game_url, ok (game_info 500 500));
            (boosts_url, ok (build_info 0 1000 3 500 3 5000 3 5000));
            (tap_url, ok (collected false 0 1000 1000))] 0.

(** The scenario of the spec: no energy, 1000 coins, the tap upgrade costs
    500 (level 3 to 4), the other two cost 5000. *)
Definition scenario_boosts : json := build_info 0 1000 3 500 3 5000 3 5000.

Definition scenario_world : World :=
  world_of [(game_url, ok (game_info 0 500));
            (boosts_url, ok scenario_boosts);
            (level_up_url, ok (JBool true))] 0.



(** Login works; the game-state fetch fails, so each iteration ends in a
    back-off of [1800 + 1800] seconds. *)
Definition first_hours_world : World :=
  world_of [(login_url, ok (JObj [("token"%string, JStr "fresh")]));
            (profile_url, ok (JObj [("currentAmount"%string, JNum 0);
                                    ("rank"%string, JNum 1);
                                    ("userLevel"%string, JNum 1);
                                    ("inviteAmount"%string, JNum 0)]))] 1800.

(** A pending turbo boost whose tap the server refuses, then accepts. *)
Definition turbo_pending : State := set_active_turbo true running.

Definition turbo_world (status : bool) : World :=
  world_of [(game_url, ok (game_info 500 500));
            (boosts_url, ok (build_info 1 1000 3 500 3 5000 3 5000));
            (api "/game/getSpecialBoxInfo",
             ok (JObj [("recoveryBox"%string,
                        JObj [("boxType"%string, JNum 2);
                              ("specialBoxTotalCount"%string, JNum 200)])]));
            (turbo_tap_url, ok (collected status 200 1200 1200))] 0.

(** A network that fails twice and then answers. *)
Definition flaky_world : World := {|
  http := fun n _ _ =>
    match n with
    | O | S O => Failed
    | _ => ok (game_info 500 500)
    end;
  rand_raw := fun _ => 0;
  get_app_webview_url := fun _ _ => None;
  check_is_first_run := Some false;
  append_recurring_session := true;
  unquote := fun s => s;
  settings := default_settings
|}.

(** A user who configured a referral id of their own; the generator's next
    raw draw is 70, that is the number 71. *)
Definition own_ref_settings : Settings := {|
  REF_ID := "myOwnRef";
  SLEEP_BETWEEN_TAP := (3, 8);
  SLEEP_BY_MIN_ENERGY := (1800, 10800);
  RANDOM_TAPS_COUNT := (35, 100);
  MIN_AVAILABLE_ENERGY := 10;
  MAX_TAP_LEVEL := 10;
  MAX_ENERGY_LEVEL := 10;
  MAX_CHARGE_LEVEL := 10
|}.

Definition own_ref_world : World := {|
  http := routes [];
  rand_raw := fun _ => 70;
  get_app_webview_url := fun _ _ => None;
  check_is_first_run := Some false;
  append_recurring_session := true;
  unquote := fun s => s;
  settings := own_ref_settings
|}.

(** ** The vocabulary of the theorems

    Properties of a run are stated on the state it ends in and on the trace
    it leaves.  [triple Pre Post m w s]: started in state [s] after a trace
    [t0] with [Pre s t0], the action [m] ends, by return or by exception, in
    a state and an extended trace related by [Post].  [total_triple] adds
    that it ends by return. *)

(** An action whose result is always a value. *)
Definition total {A} (m : M A) : Prop := forall w s, exists a, res (m w s) = Ret a.

Definition triple {A} (Pre Post : State -> list Event -> Prop) (m : M A)
    (w : World) (s : State) : Prop :=
  forall t0, Pre s t0 -> Post (st (m w s)) (t0 ++ tr (m w s)).

Definition total_triple {A} (Pre Post : State -> list Event -> Prop) (m : M A)
    (w : World) (s : State) : Prop :=
  forall t0, Pre s t0 ->
    (exists a, res (m w s) = Ret a) /\ Post (st (m w s)) (t0 ++ tr (m w s)).

(** What an invariant must tolerate from the plumbing of every request:
    the clock, the cursors, attempts and sleeps. *)
Class Frame (J : State -> list Event -> Prop) : Prop := {
  frame_now : forall v s t, J s t -> J (set_now v s) t;
  frame_http : forall v s t, J s t -> J (set_http_cursor v s) t;
  frame_rand : forall v s t, J s t -> J (set_rand_cursor v s) t;
  frame_attempt : forall n h s t, J s t -> J s (t ++ [Attempt n h]);
  frame_sleep : forall d s t, J s t -> J s (t ++ [Sleep d])
}.

(** The usual invariant: a property of the state and a property of every
    event. *)
Definition keeps (I : State -> Prop) (P : Event -> bool) : State -> list Event -> Prop :=
  fun s t => I s /\ Forall (fun e => P e = true) t.

(** Nothing was done. *)
Definition silent : State -> list Event -> Prop := fun _ t => t = [].

(** The cached referral id is [r]. *)
Definition ref_is (r : string) : State -> list Event -> Prop :=
  keeps (fun s => _current_ref_id s = Some r) (fun _ => true).

(** No re-authentication happened. *)
Definition fresh_inv : State -> list Event -> Prop :=
  keeps (fun _ => True) (fun e => negb (is_auth e)).

(** The first-run flag is [v]. *)
Definition first_run_is (v : option bool) : State -> list Event -> Prop :=
  keeps (fun s => _is_first_run s = v) (fun _ => true).

(** The first-run flag is [v] and no referral claim was made. *)
Definition unclaimed (v : option bool) : State -> list Event -> Prop :=
  keeps (fun s => _is_first_run s = v) (fun e => negb (is_referral e)).

(** The referral claim was made at most once. *)
Definition claimed_at_most_once (t : list Event) : Prop :=
  (count is_referral t <= 1)%nat.

(** Neither a turbo-boost activation nor a regular tap. *)
Definition no_boost_no_tap (e : Event) : bool :=
  negb (is_call turbo_boost_url e) && negb (is_call tap_url e).

(** Before the turbo tap: the flag is set. *)
Definition pending : State -> list Event -> Prop :=
  keeps (fun s => active_turbo s = true) no_boost_no_tap.

(** After it: the flag is still set, or the turbo tap was sent. *)
Definition settled : State -> list Event -> Prop :=
  fun s t =>
    Forall (fun e => no_boost_no_tap e = true) t
    /\ (active_turbo s = true \/ Exists (fun e => is_call turbo_tap_url e = true) t).

(** The level-up calls made so far are [l] and the balance is [b]. *)
Definition ups (l : list (option json)) (b : json) : State -> list Event -> Prop :=
  fun s t => level_ups_of t = l /\ balance s = b.

(** No back-off was announced. *)
Definition calm : State -> list Event -> Prop :=
  keeps (fun _ => True) (fun e => negb (is_waiting e)).

(** The balance is [b] and neither the boost state nor the profile was
    fetched. *)
Definition same_snapshot (b : json) : State -> list Event -> Prop :=
  keeps (fun s => balance s = b)
        (fun e => negb (is_call boosts_url e) && negb (is_call profile_url e)).

(** ** Primitives the loop does not call *)

Definition get_user_info : M json :=
  try_except
    (response <- make_request "GET" (api "/user/info") None None ;;
     data_or response (JObj []))
    (give_back (JObj [])).

Definition get_user_active_level : M json :=
  try_except
    (response <- make_request "GET" (api "/activity/userActiveLevel") None None ;;
     data_or response (JObj []))
    (give_back (JObj [])).

Definition get_stop_bonus : M json :=
  try_except
    (response <- make_request "GET" (api "/account/getUserStopBonus") None None ;;
     data_or response (JObj []))
    (give_back (JObj [])).

Definition claim_stop_bonus : M bool :=
  try_except
    (response <- make_request "POST" (api "/account/claimStopBonus") None None ;;
     has_data response)
    (give_back false).

(** ** More readers of a trace *)

(** The headers of the HTTP attempts, in order. *)
Definition headers_of (t : list Event) : list dict :=
  flat_map (fun e => match e with Attempt _ h => [h] | _ => [] end) t.

(** The urls [make_request] was entered for, in order. *)
Definition calls_of (t : list Event) : list string :=
  flat_map (fun e => match e with Call _ u _ => [u] | _ => [] end) t.

(** The keys of a dict, in order. *)
Definition keys (d : dict) : list string := map fst d.

(** What [d.update(e)] looks like for a dict [d]: the entries under the
    keys of [d], in the order of [d], then the new ones. *)
Definition over (d : dict) (r : dict) : Prop :=
  exists r1 r2, r = r1 ++ r2 /\ keys r1 = keys d /\ NoDup (keys r).

(** ** Which exceptions an action can raise *)

(** Every exception [m] raises satisfies [P]. *)
Definition raises_only {A} (P : exn -> Prop) (m : M A) : Prop :=
  forall w s e, res (m w s) = Raise e -> P e.

(** Any exception but [TooManyRequestsError]. *)
Definition plain (e : exn) : Prop := e <> TooManyRequestsError.

(** ** Back-offs *)

(** Every back-off announced in [t] lies in [lo, hi] and is slept at once,
    for the announced time; [announced] is an announcement still to be
    slept. *)
Fixpoint backoffs_ok (lo hi : Z) (announced : option Z) (t : list Event) : bool :=
  match t with
  | [] => match announced with None => true | Some _ => false end
  | e :: t' =>
      match announced with
      | Some d =>
          match e with
          | Sleep d' => (d' =? d) && backoffs_ok lo hi None t'
          | _ => false
          end
      | None =>
          match e with
          | Waiting d => (lo <=? d) && (d <=? hi) && backoffs_ok lo hi (Some d) t'
          | _ => backoffs_ok lo hi None t'
          end
      end
  end.

(** The back-offs of a run in world [w] respect [SLEEP_BY_MIN_ENERGY]. *)
Definition backed_off (w : World) : State -> list Event -> Prop :=
  fun _ t =>
    backoffs_ok (fst (SLEEP_BY_MIN_ENERGY (settings w)))
                (snd (SLEEP_BY_MIN_ENERGY (settings w))) None t = true.

(** ** Where the requests go *)

Definition host : string := "https://bi.yescoin.gold/".

(** The urls of the primitives that [process_bot_logic] leaves aside. *)
Definition idle_urls : list string :=
  [api "/game/recoverCoinPool"; api "/user/info"; api "/activity/userActiveLevel";
   api "/account/getUserStopBonus"; api "/account/claimStopBonus"].

(** A request to the game server that is none of the idle ones. *)
Definition expected_call (e : Event) : bool :=
  match e with
  | Call _ u _ => String.prefix host u && negb (existsb (String.eqb u) idle_urls)
  | _ => true
  end.

(** The requests made so far are those of [l]. *)
Definition called (l : list string) : State -> list Event -> Prop :=
  fun _ t => calls_of t = l.

(** ** The requests of the side activities *)

Definition signin_list_url : string := api "/signIn/list".
Definition signin_claim_url : string := api "/signIn/claim".
Definition squad_url : string := api "/squad/mySquad".
Definition squad_list_url : string := api "/squad/getRecommendSquadList".
Definition squad_join_url : string := api "/squad/joinSquad".
Definition offline_info_url : string := api "/game/getOfflineYesPacBonusInfo".
Definition offline_claim_url : string := api "/game/claimOfflineBonus".
Definition mission_click_url : string := api "/mission/clickDailyMission".
Definition mission_check_url : string := api "/mission/checkDailyMission".
Definition mission_claim_url : string := api "/mission/claimReward".

(** The requests of one round of a daily mission: it stops at the first
    step the server does not confirm. *)
Definition mission_rounds : list (list string) :=
  [[mission_click_url];
   [mission_click_url; mission_check_url];
   [mission_click_url; mission_check_url; mission_claim_url]].

(** An offline bonus the loop claims: [bonus['collectStatus']] is truthy. *)
Definition collectable (bonus : json) : bool :=
  match py_getitem bonus "collectStatus" with
  | Some c => truthy c
  | None => false
  end.

(** A bonus entry with the keys the loop reads. *)
Definition bonus_entry (bonus : json) : Prop :=
  py_getitem bonus "collectStatus" <> None
  /\ py_getitem bonus "transactionId" <> None
  /\ py_getitem bonus "claimType" <> None.

(** After the requests [l], at most [n] rounds of a daily mission were
    played. *)
Definition in_rounds (n : nat) (l : list string) : State -> list Event -> Prop :=
  fun _ t =>
    exists rs, calls_of t = l ++ List.concat rs
               /\ (List.length rs <= n)%nat
               /\ Forall (fun r => In r mission_rounds) rs.

(** ** The requests of [process_tasks] *)

Definition task_list_url : string := api "/task/getTaskList".
Definition task_click_url : string := api "/task/clickTask".
Definition task_check_url : string := api "/task/checkTask".
Definition task_claim_url : string := api "/task/claimTaskReward".
Definition task_bonus_url : string := api "/task/getFinishTaskBonusInfo".

(** The requests made for one task: it is clicked, checked when the click
    was confirmed, and its reward claimed when the check was. *)
Definition task_rounds : list (list string) :=
  [[task_click_url];
   [task_click_url; task_check_url];
   [task_click_url; task_check_url; task_claim_url]].

(** A task still to do: [task['taskStatus'] == 0]. *)
Definition open_task (task : json) : bool :=
  match py_getitem task "taskStatus" with
  | Some status => py_eq_int status 0
  | None => false
  end.

(** A task with the keys the loop reads. *)
Definition task_entry (task : json) : Prop :=
  py_getitem task "taskId" <> None
  /\ py_getitem task "taskName" <> None
  /\ py_getitem task "taskBonusAmount" <> None
  /\ py_getitem task "taskStatus" <> None.

(** ** [Settings.blacklisted_sessions] ([bot/config/config.py]) *)

(** The white space [str.strip()] removes, for ASCII text: tab to carriage
    return, the four separators and the space. *)
Definition is_space (c : ascii) : bool :=
  let n := nat_of_ascii c in
  ((9 <=? n) && (n <=? 13) || (28 <=? n) && (n <=? 32))%nat.

Fixpoint lstrip (s : string) : string :=
  match s with
  | EmptyString => EmptyString
  | String c s' => if is_space c then lstrip s' else s
  end.

Fixpoint rstrip (s : string) : string :=
  match s with
  | EmptyString => EmptyString
  | String c s' =>
      match rstrip s' with
      | EmptyString => if is_space c then EmptyString else String c EmptyString
      | r => String c r
      end
  end.

Definition strip (s : string) : string := rstrip (lstrip s).

(** [[s.strip() for s in self.BLACKLISTED_SESSIONS.split(',') if s.strip()]]. *)
Definition blacklisted_sessions (BLACKLISTED_SESSIONS : string) : list string :=
  map strip
      (filter (fun s => negb (String.eqb (strip s) EmptyString))
              (split "," BLACKLISTED_SESSIONS)).

(** The character [c] occurs in [s]. *)
Fixpoint occurs (c : ascii) (s : string) : bool :=
  match s with
  | EmptyString => false
  | String b s' => Ascii.eqb c b || occurs c s'
  end.

(** * Wallet files ([bot/utils/wallet_utils.py])

    The functions of this module read and write JSON files next to the
    configuration file.  A file holds a JSON document or text that
    [json.load] rejects; the directory is there and writable, and
    [json.load] gives back what [json.dump] wrote.  [Path(...).parent] and
    [bot.utils.ton.generate_wallet] are outside the module: the first is any
    function, the second leaves something (or nothing) in the file it is
    given and returns an address or raises. *)

Module Wallet.

(** A path: a directory and the name of a file in it. *)
Definition path : Type := (string * string)%type.

Definition path_eqb (p q : path) : bool :=
  String.eqb (fst p) (fst q) && String.eqb (snd p) (snd q).

Inductive content : Type :=
| Doc (j : json)
| Garbage.

Definition Disk : Type := path -> option content.

Definition write_file (p : path) (c : content) (d : Disk) : Disk :=
  fun q => if path_eqb q p then Some c else d q.

Definition remove_file (p : path) (d : Disk) : Disk :=
  fun q => if path_eqb q p then None else d q.

Record Outside : Type := {
  parent : string -> string;                       (* [Path(config_path).parent] *)
  generate_wallet : string -> path -> option content * option string
    (* what it leaves in the file, and the address ([None]: it raises) *)
}.

(** File actions: a reader of the outside, a state of the disk, exceptions. *)
Definition IO (A : Type) : Type := Outside -> Disk -> result A * Disk.

Definition ret {A} (a : A) : IO A := fun _ d => (Ret a, d).

Definition raise {A} (e : exn) : IO A := fun _ d => (Raise e, d).

Definition bind {A B} (m : IO A) (f : A -> IO B) : IO B := fun o d =>
  match m o d with
  | (Ret a, d') => f a o d'
  | (Raise e, d') => (Raise e, d')
  end.

(** [try: m  finally: cleanup]. *)
Definition try_finally {A} (m : IO A) (cleanup : IO unit) : IO A := fun o d =>
  match m o d with
  | (r, d') =>
      match cleanup o d' with
      | (Ret _, d'') => (r, d'')
      | (Raise e, d'') => (Raise e, d'')
      end
  end.

Declare Scope io_scope.
Delimit Scope io_scope with io.
Notation "x <- m ;; k" := (bind m (fun x => k))
  (at level 61, m at next level, right associativity) : io_scope.
Notation "m ;; k" := (bind m (fun _ => k))
  (at level 61, right associativity) : io_scope.
#[local] Open Scope io_scope.

Definition must {A} (o : option A) : IO A :=
  match o with
  | Some a => ret a
  | None => raise PyError
  end.

(** [Path(config_path).parent / name]. *)
Definition sibling (config_path name : string) : IO path :=
  fun o d => (Ret (parent o config_path, name), d).

(** [p.exists()]. *)
Definition path_exists (p : path) : IO bool :=
  fun _ d => (Ret (match d p with Some _ => true | None => false end), d).

(** [with open(p, 'w') as f: json.dump(j, f, indent=4)]. *)
Definition json_dump (j : json) (p : path) : IO unit :=
  fun _ d => (Ret tt, write_file p (Doc j) d).

(** [with open(p, 'r') as f: json.load(f)]. *)
Definition json_load (p : path) : IO json :=
  fun _ d =>
    match d p with
    | Some (Doc j) => (Ret j, d)
    | _ => (Raise PyError, d)
    end.

(** [os.remove(p)]. *)
Definition os_remove (p : path) : IO unit :=
  fun _ d =>
    match d p with
    | Some _ => (Ret tt, remove_file p d)
    | None => (Raise PyError, d)
    end.

(** [x[k] = v] for a string key: only a dict takes it. *)
Definition py_setitem (j : json) (k : string) (v : json) : option json :=
  match j with
  | JObj kv => Some (JObj (dict_set k v kv))
  | _ => None
  end.

Definition load_wallet_config (config_path : string) : IO json :=
  wallet_config_path <- sibling config_path "wallet_config.json" ;;
  there <- path_exists wallet_config_path ;;
  if negb there then
    json_dump (JObj []) wallet_config_path ;;
    ret (JObj [])
  else json_load wallet_config_path.

Definition save_wallet_config (config_path : string) (wallet_data : json) : IO unit :=
  wallet_config_path <- sibling config_path "wallet_config.json" ;;
  json_dump wallet_data wallet_config_path.

Definition get_wallet_data (config_path session_name : string) : IO json :=
  wallet_config <- load_wallet_config config_path ;;
  must (py_get wallet_config session_name JNull).

Definition update_accounts_config_wallet (config_path session_name : string)
    (wallet_address : json) : IO unit :=
  accounts_config_path <- sibling config_path "accounts_config.json" ;;
  there <- path_exists accounts_config_path ;;
  if negb there then ret tt
  else
    accounts_config <- json_load accounts_config_path ;;
    known <- must (py_in session_name accounts_config) ;;
    if known then
      account <- must (py_getitem accounts_config session_name) ;;
      has_address <- must (py_in "ton_address" account) ;;
      if negb has_address then
        account <- must (py_setitem account "ton_address" wallet_address) ;;
        accounts_config <- must (py_setitem accounts_config session_name account) ;;
        json_dump accounts_config accounts_config_path
      else ret tt
    else ret tt.

(** [generate_wallet(config_path, str(temp_wallet_path))]. *)
Definition run_generate_wallet (config_path : string) (temp_wallet_path : path)
    : IO string :=
  fun o d =>
    let d' := match fst (generate_wallet o config_path temp_wallet_path) with
              | Some c => write_file temp_wallet_path c d
              | None => d
              end in
    match snd (generate_wallet o config_path temp_wallet_path) with
    | Some wallet_address => (Ret wallet_address, d')
    | None => (Raise PyError, d')
    end.

Definition create_and_save_wallet (config_path session_name : string) : IO json :=
  wallet_config <- load_wallet_config config_path ;;
  known <- must (py_in session_name wallet_config) ;;
  if known then
    wallet <- must (py_getitem wallet_config session_name) ;;
    wallet_address <- must (py_getitem wallet "wallet_address") ;;
    update_accounts_config_wallet config_path session_name wallet_address ;;
    must (py_getitem wallet_config session_name)
  else
    temp_wallet_path <-
      sibling config_path ("temp_wallet_" ++ session_name ++ ".json") ;;
    try_finally
      (wallet_address <- run_generate_wallet config_path temp_wallet_path ;;
       wallet_data <- json_load temp_wallet_path ;;
       wallet_data <-
         (if contains ":" wallet_address then
            match split ":" wallet_address with
            | [_; address] => must (py_setitem wallet_data "raw_address" (JStr address))
            | _ => raise PyError
            end
          else must (py_setitem wallet_data "raw_address" (JStr wallet_address))) ;;
       wallet_config <- must (py_setitem wallet_config session_name wallet_data) ;;
       save_wallet_config config_path wallet_config ;;
       update_accounts_config_wallet config_path session_name (JStr wallet_address) ;;
       must (py_getitem wallet_config session_name))
      (there <- path_exists temp_wallet_path ;;
       if there then os_remove temp_wallet_path else ret tt).

End Wallet.

(** ** More concrete servers, sessions and disks *)

(** A session whose transport was never opened. *)
Definition unopened : State := {|
  _http_client := false;
  _access_token := JStr "token";
  _is_first_run := Some false;
  _init_data := None;
  _current_ref_id := None;
  access_token_created_time := 1700000000;
  active_turbo := false;
  balance := JNum 0;
  now := 1700000010;
  http_cursor := 0;
  rand_cursor := 0;
  webview_cursor := 0
|}.

(** The account is in a squad already. *)
Definition squad_member_world : World :=
  world_of [(squad_url, ok (JObj [("isJoinSquad"%string, JBool true)]))] 0.

(** Two offline bonuses, the first of them to collect. *)
Definition offline_bonuses : list json :=
  [JObj [("collectStatus"%string, JBool true);
         ("transactionId"%string, JStr "t1");
         ("claimType"%string, JNum 1)];
   JObj [("collectStatus"%string, JBool false);
         ("transactionId"%string, JStr "t2");
         ("claimType"%string, JNum 1)]].

Definition offline_world : World :=
  world_of [(offline_info_url, ok (JArr offline_bonuses));
            (offline_claim_url, ok (JBool true))] 0.

(** One task to do, whose click the server confirms and whose check it
    does not, and one task done. *)
Definition some_tasks : json :=
  JObj [("taskList"%string,
         JArr [JObj [("taskId"%string, JStr "t1");
                     ("taskName"%string, JStr "join");
                     ("taskBonusAmount"%string, JNum 100);
                     ("taskStatus"%string, JNum 0)]]);
        ("specialTaskList"%string,
         JArr [JObj [("taskId"%string, JStr "t2");
                     ("taskName"%string, JStr "follow");
                     ("taskBonusAmount"%string, JNum 100);
                     ("taskStatus"%string, JNum 1)]])].

Definition tasks_world : World :=
  world_of [(task_list_url, ok some_tasks);
            (task_click_url, ok (JBool true));
            (task_check_url, ok (JBool false))] 0.

(** Nothing left to do. *)
Definition done_tasks : json :=
  JObj [("taskList"%string,
         JArr [JObj [("taskId"%string, JStr "t1");
                     ("taskName"%string, JStr "join");
                     ("taskBonusAmount"%string, JNum 100);
                     ("taskStatus"%string, JNum 1)]])].

Definition done_tasks_world : World := world_of [(task_list_url, ok done_tasks)] 0.

(** A tap answer as [send_taps] hands it on. *)
Definition tapped_amounts : json :=
  JObj [("collect_amount"%string, JNum 200);
        ("current_amount"%string, JNum 1200);
        ("total_amount"%string, JNum 1200)].

(** The configuration lives in [config/]; the generator writes a key file
    and returns an address with its workchain. *)
Definition ton : Wallet.Outside := {|
  Wallet.parent := fun _ => "config"%string;
  Wallet.generate_wallet := fun _ _ =>
    (Some (Wallet.Doc (JObj [("mnemonic"%string, JStr "abandon ability")])),
     Some "0:abcdef"%string)
|}.

Definition empty_disk : Wallet.Disk := fun _ => None.

(** One account, without an address yet. *)
Definition accounts_disk : Wallet.Disk :=
  Wallet.write_file ("config", "accounts_config.json")%string
    (Wallet.Doc (JObj [("session1"%string,
                        JObj [("proxy"%string, JStr "socks5://127.0.0.1:9050")])]))
    empty_disk.

(** The wallet of [session1] is on file. *)
Definition known_wallet : json :=
  JObj [("wallet_address"%string, JStr "0:abcdef");
        ("raw_address"%string, JStr "abcdef")].

Definition stored_disk : Wallet.Disk :=
  Wallet.write_file ("config", "wallet_config.json")%string
    (Wallet.Doc (JObj [("session1"%string, known_wallet)])) empty_disk.

(** ** The two steps of the tap branch *)

(** The activation of a turbo boost that precedes the tap (lines 311-316). *)
Definition activation (turbo_boost_count : json) : M unit :=
  count <- must (as_int turbo_boost_count) ;;
  s <- get ;;
  if (count >? 0) && negb (active_turbo s) then
    activated <- apply_turbo_boost ;;
    if activated then sleep 1 ;; modify (set_active_turbo true) else ret tt
  else ret tt.

(** The tap itself, turbo or regular (lines 318-324). *)
Definition tap_once (available_energy : json) (energy : Z) : M (json * json) :=
  s <- get ;;
  if active_turbo s then turbo_tap else regular_tap available_energy energy.

(** Neither a profile fetch nor the announcement of a back-off. *)
Definition no_profile_no_wait (e : Event) : bool :=
  negb (is_call profile_url e) && negb (is_waiting e).

(** * Running the monad *)

Lemma bind_run_ret {A B} (m : M A) (f : A -> M B) w s a :
  res (m w s) = Ret a ->
  bind m f w s =
  mkOut (res (f a w (st (m w s)))) (st (f a w (st (m w s))))
        (tr (m w s) ++ tr (f a w (st (m w s)))).
Proof. intros H. unfold bind. cbv zeta. rewrite H. reflexivity. Qed.

Lemma bind_run_raise {A B} (m : M A) (f : A -> M B) w s e :
  res (m w s) = Raise e ->
  bind m f w s = mkOut (Raise e) (st (m w s)) (tr (m w s)).
Proof. intros H. unfold bind. cbv zeta. rewrite H. reflexivity. Qed.

(** The primitive actions, run in front of a continuation. *)
Lemma bind_ret {A B} (a : A) (k : A -> M B) w s : bind (ret a) k w s = k a w s.
Proof. reflexivity. Qed.

Lemma bind_get {B} (k : State -> M B) w s : bind get k w s = k s w s.
Proof. reflexivity. Qed.

Lemma bind_ask {B} (k : World -> M B) w s : bind ask k w s = k w w s.
Proof. reflexivity. Qed.

Lemma bind_modify {B} (f : State -> State) (k : unit -> M B) w s :
  bind (modify f) k w s = k tt w (f s).
Proof. reflexivity. Qed.

Lemma bind_emit {B} (e : Event) (k : unit -> M B) w s :
  bind (emit e) k w s =
  mkOut (res (k tt w s)) (st (k tt w s)) (e :: tr (k tt w s)).
Proof. reflexivity. Qed.

Lemma bind_sleep {B} (d : Z) (k : unit -> M B) w s :
  bind (sleep d) k w s =
  mkOut (res (k tt w (set_now (now s + Z.max 0 d) s)))
        (st (k tt w (set_now (now s + Z.max 0 d) s)))
        (Sleep d :: tr (k tt w (set_now (now s + Z.max 0 d) s))).
Proof. reflexivity. Qed.

Lemma bind_http_attempt {B} m u (k : HttpOutcome -> M B) w s :
  bind (http_attempt m u) k w s =
  k (http w (http_cursor s) m u) w (set_http_cursor (S (http_cursor s)) s).
Proof. reflexivity. Qed.

Lemma bind_randint {B} a b (k : Z -> M B) w s :
  (b <? a) = false ->
  bind (randint a b) k w s =
  k (a + rand_raw w (rand_cursor s) mod (b - a + 1)) w
    (set_rand_cursor (S (rand_cursor s)) s).
Proof. intros H. unfold bind, randint. cbv zeta. rewrite H. reflexivity. Qed.

Lemma bind_raise {A B} e (k : A -> M B) w s :
  bind (raise e) k w s = mkOut (Raise e) s [].
Proof. reflexivity. Qed.

(** A bind whose first part is known. *)
Lemma bind_eq {A B} (m : M A) (k : A -> M B) w s a s' t :
  m w s = mkOut (Ret a) s' t ->
  bind m k w s = mkOut (res (k a w s')) (st (k a w s')) (t ++ tr (k a w s')).
Proof.
  intros E. rewrite (bind_run_ret m k w s a) by (rewrite E; reflexivity).
  rewrite E. reflexivity.
Qed.

Lemma bind_assoc {A B C} (m : M A) (f : A -> M B) (g : B -> M C) w s :
  bind (bind m f) g w s = bind m (fun a => bind (f a) g) w s.
Proof.
  destruct (res (m w s)) as [a | e] eqn:E.
  - rewrite (bind_run_ret m (fun a => bind (f a) g) w s a E).
    destruct (res (f a w (st (m w s)))) as [b | e] eqn:E2.
    + rewrite (bind_run_ret (bind m f) g w s b)
        by (rewrite (bind_run_ret m f w s a E); exact E2).
      rewrite (bind_run_ret (f a) g w (st (m w s)) b E2).
      rewrite (bind_run_ret m f w s a E). cbn [res st tr].
      rewrite app_assoc. reflexivity.
    + rewrite (bind_run_raise (bind m f) g w s e)
        by (rewrite (bind_run_ret m f w s a E); exact E2).
      rewrite (bind_run_raise (f a) g w (st (m w s)) e E2).
      rewrite (bind_run_ret m f w s a E). reflexivity.
  - rewrite (bind_run_raise m (fun a => bind (f a) g) w s e E).
    rewrite (bind_run_raise (bind m f) g w s e)
      by (rewrite (bind_run_raise m f w s e E); reflexivity).
    rewrite (bind_run_raise m f w s e E). reflexivity.
Qed.

(** Running the pure head of a computation. *)
Ltac run :=
  cbv beta iota zeta; cbn [must as_int];
  repeat (first [ rewrite bind_ret | rewrite bind_get | rewrite bind_ask
                | rewrite bind_modify | rewrite bind_assoc ];
          cbv beta iota zeta; cbn [must as_int]).

(** A bind that returns ran both of its parts. *)
Lemma bind_ret_inv {A B} (m : M A) (f : A -> M B) w s b :
  res (bind m f w s) = Ret b ->
  exists a, res (m w s) = Ret a
            /\ res (f a w (st (m w s))) = Ret b
            /\ tr (bind m f w s) = tr (m w s) ++ tr (f a w (st (m w s)))
            /\ st (bind m f w s) = st (f a w (st (m w s))).
Proof.
  intros H. destruct (res (m w s)) as [a | e] eqn:E.
  - rewrite (bind_run_ret m f w s a E) in *. cbn in H. exists a. auto.
  - rewrite (bind_run_raise m f w s e E) in H. discriminate.
Qed.

Lemma try_run_ret {A} (m : M A) (h : exn -> M A) w s a :
  res (m w s) = Ret a -> try_except m h w s = m w s.
Proof. intros H. unfold try_except. cbv zeta. rewrite H. reflexivity. Qed.

Lemma try_run_raise {A} (m : M A) (h : exn -> M A) w s e :
  res (m w s) = Raise e ->
  try_except m h w s =
  mkOut (res (h e w (st (m w s)))) (st (h e w (st (m w s))))
        (tr (m w s) ++ tr (h e w (st (m w s)))).
Proof. intros H. unfold try_except. cbv zeta. rewrite H. reflexivity. Qed.

Lemma total_try {A} (m : M A) (h : exn -> M A) :
  (forall e, total (h e)) -> total (try_except m h).
Proof.
  intros Hh w s. destruct (res (m w s)) as [a | e] eqn:E.
  - rewrite (try_run_ret m h w s a E). eauto.
  - rewrite (try_run_raise m h w s e E). cbn. apply Hh.
Qed.

Lemma total_give_back {A} (d : A) e : total (give_back d e).
Proof. intros w s. exists d. reflexivity. Qed.

(** * Properties carried along a run *)

Section Triples.
Context {Pre Post : State -> list Event -> Prop}.

Lemma triple_ret {A} (a : A) w s :
  (forall t, Pre s t -> Post s t) -> triple Pre Post (ret a) w s.
Proof. intros H t0 H0. cbn. rewrite app_nil_r. auto. Qed.

Lemma triple_raise {A} e w s :
  (forall t, Pre s t -> Post s t) -> triple Pre Post (@raise A e) w s.
Proof. intros H t0 H0. cbn. rewrite app_nil_r. auto. Qed.

Lemma triple_modify (f : State -> State) w s :
  (forall t, Pre s t -> Post (f s) t) -> triple Pre Post (modify f) w s.
Proof. intros H t0 H0. cbn. rewrite app_nil_r. auto. Qed.

Lemma triple_emit e w s :
  (forall t, Pre s t -> Post s (t ++ [e])) -> triple Pre Post (emit e) w s.
Proof. intros H t0 H0. cbn. auto. Qed.

(** The body runs from [Pre] to [Mid]; if it raises, [Mid] must already
    give [Post]. *)
Lemma triple_bind {A B} (Mid : State -> list Event -> Prop)
    (m : M A) (f : A -> M B) w s :
  triple Pre Mid m w s ->
  (forall s' t, Mid s' t -> Post s' t) ->
  (forall a s', triple Mid Post (f a) w s') ->
  triple Pre Post (bind m f) w s.
Proof.
  intros Hm Hsub Hf t0 H0. specialize (Hm t0 H0).
  destruct (res (m w s)) as [a | e] eqn:E.
  - rewrite (bind_run_ret m f w s a E). cbn. rewrite app_assoc.
    apply Hf. exact Hm.
  - rewrite (bind_run_raise m f w s e E). cbn. auto.
Qed.

Lemma triple_try {A} (m : M A) (h : exn -> M A) w s :
  triple Pre Post m w s ->
  (forall e s', triple Post Post (h e) w s') ->
  triple Pre Post (try_except m h) w s.
Proof.
  intros Hm Hh t0 H0. specialize (Hm t0 H0).
  destruct (res (m w s)) as [a | e] eqn:E.
  - rewrite (try_run_ret m h w s a E). exact Hm.
  - rewrite (try_run_raise m h w s e E). cbn. rewrite app_assoc.
    apply Hh. exact Hm.
Qed.

(** Reading the state tells that it satisfies the precondition. *)
Lemma triple_bind_get {B} (f : State -> M B) w s :
  ((exists t, Pre s t) -> triple Pre Post (f s) w s) ->
  triple Pre Post (bind get f) w s.
Proof. intros H t0 H0. apply H; eauto. Qed.

Lemma triple_bind_ask {B} (f : World -> M B) w s :
  triple Pre Post (f w) w s -> triple Pre Post (bind ask f) w s.
Proof. intros H t0 H0. apply H; eauto. Qed.
End Triples.

(** ** Runs that cannot raise *)

Section TotalTriples.
Context {Pre Post : State -> list Event -> Prop}.

Lemma tt_intro {A} (m : M A) w s :
  total m -> triple Pre Post m w s -> total_triple Pre Post m w s.
Proof. intros Ht Hm t0 H0. split; [apply Ht | apply Hm, H0]. Qed.

Lemma tt_ret {A} (a : A) w s :
  (forall t, Pre s t -> Post s t) -> total_triple Pre Post (ret a) w s.
Proof. intros H t0 H0. cbn. rewrite app_nil_r. split; [eauto | auto]. Qed.

Lemma tt_bind {A B} (Mid : State -> list Event -> Prop)
    (m : M A) (f : A -> M B) w s :
  total_triple Pre Mid m w s ->
  (forall a s', total_triple Mid Post (f a) w s') ->
  total_triple Pre Post (bind m f) w s.
Proof.
  intros Hm Hf t0 H0. destruct (Hm t0 H0) as [[a Ha] HM].
  rewrite (bind_run_ret m f w s a Ha). cbn. rewrite app_assoc.
  apply Hf. exact HM.
Qed.

Lemma tt_bind_ret {A B} (a : A) (k : A -> M B) w s :
  total_triple Pre Post (k a) w s -> total_triple Pre Post (bind (ret a) k) w s.
Proof. intros H. exact H. Qed.

Lemma tt_bind_get {B} (f : State -> M B) w s :
  ((exists t, Pre s t) -> total_triple Pre Post (f s) w s) ->
  total_triple Pre Post (bind get f) w s.
Proof. intros H t0 H0. apply H; eauto. Qed.

Lemma tt_bind_ask {B} (f : World -> M B) w s :
  total_triple Pre Post (f w) w s -> total_triple Pre Post (bind ask f) w s.
Proof. intros H t0 H0. apply H; eauto. Qed.

Lemma tt_try {A} (m : M A) (h : exn -> M A) w s :
  total_triple Pre Post m w s -> total_triple Pre Post (try_except m h) w s.
Proof.
  intros Hm t0 H0. destruct (Hm t0 H0) as [[a Ha] HM].
  rewrite (try_run_ret m h w s a Ha). eauto.
Qed.
End TotalTriples.

(** ** Invariants *)

Section Invariants.
Context {J : State -> list Event -> Prop}.

Lemma inv_ret {A} (a : A) w s : triple J J (ret a) w s.
Proof. apply triple_ret. auto. Qed.

Lemma inv_raise {A} e w s : triple J J (@raise A e) w s.
Proof. apply triple_raise. auto. Qed.

Lemma inv_must {A} (o : option A) w s : triple J J (must o) w s.
Proof. destruct o; [apply inv_ret | apply inv_raise]. Qed.

Lemma inv_bind {A B} (m : M A) (f : A -> M B) w s :
  triple J J m w s ->
  (forall a s', triple J J (f a) w s') ->
  triple J J (bind m f) w s.
Proof. intros Hm Hf. apply (triple_bind J); auto. Qed.

Lemma inv_for_each {A} (l : list A) (body : A -> M loop_ctl) w :
  (forall x s', triple J J (body x) w s') ->
  forall s, triple J J (for_each l body) w s.
Proof.
  intros Hb. induction l as [| x l IH]; intros s.
  - apply inv_ret.
  - cbn [for_each]. apply inv_bind; [apply Hb |].
    intros [] s'; [apply IH | apply inv_ret].
Qed.

Context {F : Frame J}.

Lemma inv_sleep d w s : triple J J (sleep d) w s.
Proof.
  unfold sleep. apply inv_bind.
  - apply triple_emit. intros t. apply frame_sleep.
  - intros _ s'. apply triple_modify. intros t. apply frame_now.
Qed.

Lemma inv_randint a b w s : triple J J (randint a b) w s.
Proof.
  intros t0 H0. unfold randint. destruct (b <? a); cbn; rewrite app_nil_r.
  - exact H0.
  - apply frame_rand, H0.
Qed.

Lemma inv_http_attempt m u w s : triple J J (http_attempt m u) w s.
Proof. intros t0 H0. cbn. rewrite app_nil_r. apply frame_http, H0. Qed.

Lemma inv_request_attempts todo : forall attempt m u h w s,
  triple J J (request_attempts todo attempt m u h) w s.
Proof.
  induction todo as [| todo IH]; intros attempt m u h w s.
  - apply inv_ret.
  - cbn [request_attempts].
    apply triple_bind_get; intros _. cbv zeta.
    apply inv_bind; [apply triple_emit; intros t; apply frame_attempt |].
    intros _ s1.
    apply inv_bind; [apply inv_http_attempt |]. intros o s2.
    match goal with
    | |- triple J J (match o with
                     | Responded _ _ => _
                     | Failed => ?exc
                     end) w s2 =>
        assert (Hexc : forall s3, triple J J exc w s3)
    end.
    { intros s3. destruct (attempt <? max_retries - 1).
      - apply inv_bind; [apply inv_sleep |]. intros _ s4. apply IH.
      - apply inv_ret. }
    destruct o as [status body |]; [| apply Hexc].
    destruct (status =? 200).
    + destruct body; [apply inv_ret | apply Hexc].
    + destruct (status =? 429); apply inv_ret.
Qed.

Lemma inv_make_request m u b h w s :
  (forall s' t, J s' t -> J s' (t ++ [Call m u b])) ->
  triple J J (make_request m u b h) w s.
Proof.
  intros Hc. unfold make_request.
  apply inv_bind; [apply triple_emit; intros t; apply Hc |]. intros _ s1.
  apply triple_bind_get; intros _.
  destruct (negb (_http_client s1)); [apply inv_raise | apply inv_request_attempts].
Qed.

Lemma inv_mission_attempts todo : forall attempt mission_id w s,
  (forall b s' t, J s' t ->
     J s' (t ++ [Call "POST" (api "/mission/clickDailyMission") b])) ->
  (forall b s' t, J s' t ->
     J s' (t ++ [Call "POST" (api "/mission/checkDailyMission") b])) ->
  (forall b s' t, J s' t ->
     J s' (t ++ [Call "POST" (api "/mission/claimReward") b])) ->
  triple J J (mission_attempts todo attempt mission_id) w s.
Proof.
  induction todo as [| todo IH]; intros attempt mission_id w s H1 H2 H3.
  - apply inv_ret.
  - cbn [mission_attempts].
    repeat first
      [ apply IH; assumption
      | apply inv_ret | apply inv_raise | apply inv_must | apply inv_sleep
      | apply inv_make_request; intros ? ?; first [apply H1 | apply H2 | apply H3]
      | apply inv_bind; [ | intros ? ? ]
      | match goal with
        | |- triple _ _ (match ?x with _ => _ end) _ _ => destruct x
        | |- triple _ _ (has_data _) _ _ => unfold has_data
        end ].
Qed.
End Invariants.

(** ** Stepping through a definition *)

Ltac head_of t :=
  lazymatch t with
  | ?f _ => head_of f
  | _ => t
  end.

(** One step of an invariant proof; [side] closes what an event or a state
    update asks of the invariant and refutes impossible branches. *)
Ltac inv_step side :=
  cbv beta zeta;
  lazymatch goal with
  | |- triple _ _ (bind get _) _ _ => apply triple_bind_get; intro
  | |- triple _ _ (bind ask _) _ _ => apply triple_bind_ask
  | |- triple _ _ (bind _ _) _ _ => apply inv_bind; [ | intros ? ? ]
  | |- triple _ _ (try_except _ _) _ _ => apply triple_try; [ | intros ? ? ]
  | |- triple _ _ (ret _) _ _ => apply inv_ret
  | |- triple _ _ (raise _) _ _ => apply inv_raise
  | |- triple _ _ (must _) _ _ => apply inv_must
  | |- triple _ _ (modify _) _ _ => apply triple_modify; side
  | |- triple _ _ (emit _) _ _ => apply triple_emit; side
  | |- triple _ _ (sleep _) _ _ => apply inv_sleep
  | |- triple _ _ (randint _ _) _ _ => apply inv_randint
  | |- triple _ _ (make_request _ _ _ _) _ _ => apply inv_make_request; side
  | |- triple _ _ (request_attempts _ _ _ _ _) _ _ => apply inv_request_attempts
  | |- triple _ _ (mission_attempts _ _ _) _ _ => apply inv_mission_attempts; side
  | |- triple _ _ (for_each _ _) _ _ => apply inv_for_each; intros ? ?
  | |- triple _ _ (match ?x with _ => _ end) _ _ =>
      destruct x eqn:?; try solve [exfalso; side]
  | |- triple _ _ ?m _ _ => let hd := head_of m in unfold hd
  end.

Ltac inv_auto side := repeat (inv_step side).

Lemma keeps_event (I : State -> Prop) (P : Event -> bool) e s t :
  P e = true -> keeps I P s t -> keeps I P s (t ++ [e]).
Proof.
  intros He [Hi Ht]. split; [exact Hi |].
  apply Forall_app. split; [exact Ht | repeat constructor; exact He].
Qed.

Lemma keeps_state (I : State -> Prop) (P : Event -> bool) s s' t :
  (I s -> I s') -> keeps I P s t -> keeps I P s' t.
Proof. intros H [Hi Ht]. split; auto. Qed.

Lemma keeps_frame (I : State -> Prop) (P : Event -> bool) :
  (forall v s, I s -> I (set_now v s)) ->
  (forall v s, I s -> I (set_http_cursor v s)) ->
  (forall v s, I s -> I (set_rand_cursor v s)) ->
  (forall n h, P (Attempt n h) = true) ->
  (forall d, P (Sleep d) = true) ->
  Frame (keeps I P).
Proof.
  intros H1 H2 H3 H4 H5. constructor; intros.
  - eapply keeps_state; [apply H1 | eassumption].
  - eapply keeps_state; [apply H2 | eassumption].
  - eapply keeps_state; [apply H3 | eassumption].
  - apply keeps_event; auto.
  - apply keeps_event; auto.
Qed.

(** Side conditions of a [keeps] invariant. *)
Ltac keeps_side :=
  intros;
  repeat match goal with
         | H : exists _, keeps _ _ _ _ |- _ => destruct H as [? [? ?]]
         end;
  cbv beta in *;
  first
    [ congruence
    | match goal with
      | H : keeps _ _ _ _ |- keeps _ _ _ (_ ++ [_]) =>
          apply keeps_event; [reflexivity | exact H]
      | H : keeps _ _ _ _ |- keeps _ _ _ _ =>
          eapply keeps_state; [ | exact H]; cbn; intros; assumption
      end ].

(** * The Request Executor *)

(** One iteration of the loop of [make_request]. *)
Lemma request_attempts_step todo attempt method url kw w s :
  let headers :=
    match kw with
    | Some h =>
        dict_update
          (if truthy (_access_token s)
           then dict_set "token" (_access_token s) HEADERS else HEADERS) h
    | None =>
        if truthy (_access_token s)
        then dict_set "token" (_access_token s) HEADERS else HEADERS
    end in
  let s1 := set_http_cursor (S (http_cursor s)) s in
  let o := http w (http_cursor s) method url in
  let next :=
    request_attempts todo (attempt + 1) method url (Some headers) w
      (set_now (now s1 + Z.max 0 (base_delay * (attempt + 1))) s1) in
  request_attempts (S todo) attempt method url kw w s =
  if attempt_raises o then
    if attempt <? max_retries - 1
    then mkOut (res next) (st next)
               (Attempt attempt headers :: Sleep (base_delay * (attempt + 1)) :: tr next)
    else mkOut (Ret JNull) s1 [Attempt attempt headers]
  else mkOut (Ret (answer_of o)) s1 [Attempt attempt headers].
Proof.
  cbv zeta. cbn [request_attempts].
  rewrite bind_get. cbv zeta. rewrite bind_emit, bind_http_attempt.
  destruct (http w (http_cursor s) method url) as [status [j |] |];
    cbn [attempt_raises answer_of].
  - destruct (status =? 200); [reflexivity |].
    destruct (status =? 429); reflexivity.
  - destruct (status =? 200).
    + destruct (attempt <? max_retries - 1); [rewrite bind_sleep |]; reflexivity.
    + destruct (status =? 429); reflexivity.
  - destruct (attempt <? max_retries - 1); [rewrite bind_sleep |]; reflexivity.
Qed.

(** The loop of [make_request] from its first iteration, in closed form:
    what it returns, which attempts it makes and how long it sleeps between
    them, by the number of leading attempts that raise. *)
Lemma request_attempts_closed w s method url headers :
  let o := fun i => http w (i + http_cursor s)%nat method url in
  let out := request_attempts 3 0 method url headers w s in
  let k := failures o in
  res out = Ret (if (k <? 3)%nat then answer_of (o k) else JNull)
  /\ attempts_of (tr out) = map Z.of_nat (seq 0 (Nat.min (k + 1) 3))
  /\ sleeps_of (tr out) = map (fun i => 5 * (Z.of_nat i + 1)) (seq 0 (Nat.min k 2)).
Proof.
  cbv zeta. unfold failures. cbn [Nat.add].
  rewrite request_attempts_step. cbv zeta.
  cbn [http_cursor set_http_cursor set_now].
  destruct (attempt_raises (http w (http_cursor s) method url));
    [| repeat split; reflexivity].
  change (0 <? max_retries - 1) with true. cbv iota.
  rewrite request_attempts_step. cbv zeta.
  cbn [http_cursor set_http_cursor set_now res st tr].
  destruct (attempt_raises (http w (S (http_cursor s)) method url));
    [| repeat split; reflexivity].
  change (0 + 1 <? max_retries - 1) with true. cbv iota.
  rewrite request_attempts_step. cbv zeta.
  cbn [http_cursor set_http_cursor set_now res st tr].
  change (0 + 1 + 1 <? max_retries - 1) with false. cbv iota.
  destruct (attempt_raises (http w (S (S (http_cursor s))) method url));
    repeat split; reflexivity.
Qed.

(** C8. [make_request] makes at most three attempts, retries only an attempt
    that ended in an exception, sleeping [5 * n] seconds after the [n]-th
    one; a 200 returns the decoded body, a 429 or any other status returns
    [None] at once; the only exception it lets out is [InvalidSession],
    when no transport is installed. *)
Theorem make_request_contract w s method url body headers :
  let o := fun i => http w (i + http_cursor s)%nat method url in
  let out := make_request method url body headers w s in
  let k := failures o in
  (_http_client s = false ->
     res out = Raise InvalidSession
     /\ attempts_of (tr out) = [] /\ sleeps_of (tr out) = [])
  /\ (_http_client s = true ->
      res out = Ret (if (k <? 3)%nat then answer_of (o k) else JNull)
      /\ attempts_of (tr out) = map Z.of_nat (seq 0 (Nat.min (k + 1) 3))
      /\ sleeps_of (tr out) = map (fun i => 5 * (Z.of_nat i + 1)) (seq 0 (Nat.min k 2))
      /\ (List.length (attempts_of (tr out)) <= 3)%nat
      /\ (forall j, o 0%nat = Responded 200 (Some j) ->
            res out = Ret j /\ attempts_of (tr out) = [0] /\ sleeps_of (tr out) = [])
      /\ (forall status b, status <> 200 -> o 0%nat = Responded status b ->
            res out = Ret JNull
            /\ attempts_of (tr out) = [0] /\ sleeps_of (tr out) = [])).
Proof.
  cbv zeta. split.
  - intros H. unfold make_request, bind, emit, get. cbn. rewrite H. cbn. auto.
  - intros H.
    assert (E : make_request method url body headers w s =
                mkOut (res (request_attempts 3 0 method url headers w s))
                      (st (request_attempts 3 0 method url headers w s))
                      (Call method url body
                         :: tr (request_attempts 3 0 method url headers w s))).
    { unfold make_request, bind, emit, get. cbn. rewrite H. reflexivity. }
    rewrite E. cbn [res tr attempts_of sleeps_of flat_map app].
    fold (attempts_of (tr (request_attempts 3 0 method url headers w s))).
    fold (sleeps_of (tr (request_attempts 3 0 method url headers w s))).
    destruct (request_attempts_closed w s method url headers) as (Hr & Ha & Hs).
    cbv zeta in Hr, Ha, Hs. revert Hr Ha Hs.
    generalize (request_attempts 3 0 method url headers w s). intros out Hr Ha Hs.
    split; [exact Hr |]. split; [exact Ha |]. split; [exact Hs |].
    split; [| split].
    + rewrite Ha, length_map, length_seq. apply Nat.le_min_r.
    + intros j Hj. cbn [Nat.add] in Hj.
      unfold failures in Hr, Ha, Hs. cbn [Nat.add] in Hr, Ha, Hs.
      rewrite Hj in Hr, Ha, Hs. cbn in Hr, Ha, Hs.
      rewrite Hj in Hr. cbn in Hr. auto.
    + intros status b Hne Ho. cbn [Nat.add] in Ho.
      unfold failures in Hr, Ha, Hs. cbn [Nat.add] in Hr, Ha, Hs.
      rewrite Ho in Hr, Ha, Hs.
      assert (Hst : (status =? 200) = false) by (apply Z.eqb_neq; exact Hne).
      destruct b; cbn in Hr, Ha, Hs; rewrite ?Hst in Hr, Ha, Hs;
        cbn in Hr, Ha, Hs; rewrite ?Ho in Hr; cbn in Hr; rewrite ?Hst in Hr; auto.
Qed.

(** * The referral id *)

Lemma get_ref_id_first w s :
  _current_ref_id s = None ->
  let draw := 1 + rand_raw w (rand_cursor s) mod 100 in
  let chosen := if draw <=? 70 then REF_ID (settings w) else "dIk9eL"%string in
  get_ref_id w s =
  mkOut (Ret chosen)
        (set_current_ref_id (Some chosen) (set_rand_cursor (S (rand_cursor s)) s)) [].
Proof.
  intros H. cbv zeta. unfold get_ref_id. rewrite bind_get, H.
  rewrite bind_randint by reflexivity. rewrite bind_ask. cbv zeta.
  rewrite bind_modify. reflexivity.
Qed.

Lemma get_ref_id_again w s r :
  _current_ref_id s = Some r -> get_ref_id w s = mkOut (Ret r) s [].
Proof. intros H. unfold get_ref_id. rewrite bind_get, H. reflexivity. Qed.

Lemma get_ref_id_run w s :
  exists r s', get_ref_id w s = mkOut (Ret r) s' [].
Proof.
  destruct (_current_ref_id s) as [r |] eqn:E.
  - rewrite (get_ref_id_again w s r E). eauto.
  - rewrite (get_ref_id_first w s E). eauto.
Qed.

#[local] Instance frame_ref_is r : Frame (ref_is r).
Proof. apply keeps_frame; intros; auto. Qed.

Lemma iteration_keeps_ref r w s : triple (ref_is r) (ref_is r) iteration w s.
Proof. unfold ref_is. inv_auto keeps_side. Qed.

Lemma iterations_keep_ref r n : forall w s,
  triple (ref_is r) (ref_is r) (iterations n) w s.
Proof.
  induction n as [| n IH]; intros w s; cbn [iterations].
  - apply inv_ret.
  - apply inv_bind; [apply iteration_keeps_ref |]. intros _ s'. apply IH.
Qed.

(** C10. The first [get_ref_id] of a session draws an integer of [1, 100]
    and answers the configured [REF_ID] when the draw is at most 70, else
    ['dIk9eL']; it caches the answer, later calls return it, the loop never
    changes it, and for a draw above 70 it is not the configured [REF_ID]
    (when that is not ['dIk9eL'] itself). *)
Theorem get_ref_id_cached w s :
  let draw := 1 + rand_raw w (rand_cursor s) mod 100 in
  let chosen := if draw <=? 70 then REF_ID (settings w) else "dIk9eL"%string in
  (_current_ref_id s = None ->
     1 <= draw <= 100
     /\ res (get_ref_id w s) = Ret chosen
     /\ _current_ref_id (st (get_ref_id w s)) = Some chosen
     /\ (REF_ID (settings w) <> "dIk9eL"%string -> 70 < draw ->
         res (get_ref_id w s) <> Ret (REF_ID (settings w))))
  /\ (forall r, _current_ref_id s = Some r ->
        get_ref_id w s = mkOut (Ret r) s []
        /\ forall n w', _current_ref_id (st (iterations n w' s)) = Some r).
Proof.
  cbv zeta. split.
  - intros H.
    assert (Hd := Z.mod_pos_bound (rand_raw w (rand_cursor s)) 100 ltac:(lia)).
    rewrite (get_ref_id_first w s H). cbn [res st _current_ref_id set_current_ref_id].
    split; [lia |]. split; [reflexivity |]. split; [reflexivity |].
    intros Hne Hgt Heq.
    destruct (1 + rand_raw w (rand_cursor s) mod 100 <=? 70) eqn:E.
    + apply Z.leb_le in E. lia.
    + apply Hne. congruence.
  - intros r H. split.
    + exact (get_ref_id_again w s r H).
    + intros n w'.
      destruct (iterations_keep_ref r n w' s [] (conj H (Forall_nil _))) as [Hi _].
      exact Hi.
Qed.

(** * Re-authentication *)

Lemma tr_bind_prefix {A B} (m : M A) (f : A -> M B) w s :
  exists t', tr (bind m f w s) = tr (m w s) ++ t'.
Proof.
  destruct (res (m w s)) as [a | e] eqn:E.
  - rewrite (bind_run_ret m f w s a E). cbn. eauto.
  - rewrite (bind_run_raise m f w s e E). cbn. exists []. now rewrite app_nil_r.
Qed.

Lemma tr_try_prefix {A} (m : M A) (h : exn -> M A) w s :
  exists t', tr (try_except m h w s) = tr (m w s) ++ t'.
Proof.
  destruct (res (m w s)) as [a | e] eqn:E.
  - rewrite (try_run_ret m h w s a E). exists []. now rewrite app_nil_r.
  - rewrite (try_run_raise m h w s e E). cbn. eauto.
Qed.

Lemma make_request_first m u b h w s :
  exists t', tr (make_request m u b h w s) = Call m u b :: t'.
Proof.
  unfold make_request.
  destruct (tr_bind_prefix (emit (Call m u b))
              (fun _ => s0 <- get ;;
                        if negb (_http_client s0) then raise InvalidSession
                        else request_attempts (Z.to_nat max_retries) 0 m u h) w s)
    as [t' Ht].
  rewrite Ht. cbn. eauto.
Qed.

Lemma get_tg_web_data_run w s :
  exists ref,
    tr (get_tg_web_data w s) = [WebView ref]
    /\ (res (get_tg_web_data w s) = Raise InvalidSession
        \/ exists d, res (get_tg_web_data w s) = Ret d).
Proof.
  destruct (get_ref_id_run w s) as (r & s' & Hr).
  exists r. unfold get_tg_web_data.
  match goal with
  | |- context [try_except (bind get_ref_id ?f) ?h w s] =>
      set (F := f); set (H := h);
      assert (Hb : tr (bind get_ref_id F w s) = [WebView r])
  end.
  { rewrite (bind_run_ret get_ref_id F w s r) by (rewrite Hr; reflexivity).
    rewrite Hr. cbn [tr st app]. subst F. cbv beta.
    match goal with
    | |- tr (bind (emit ?e) ?g w s') = _ =>
        rewrite (bind_run_ret (emit e) g w s' tt eq_refl); cbn [tr st emit app];
        assert (Hq : triple silent silent (g tt) w s')
    end.
    { unfold silent.
      inv_auto ltac:(intros; assumption). }
    specialize (Hq [] eq_refl). unfold silent in Hq. cbn [app] in Hq.
    rewrite Hq. reflexivity. }
  destruct (res (bind get_ref_id F w s)) as [d | e] eqn:E.
  - rewrite (try_run_ret _ H w s d E). split; [exact Hb | eauto].
  - rewrite (try_run_raise _ H w s e E). cbn. rewrite Hb. split; [reflexivity | auto].
Qed.

Lemma first_call_app_some t t' u : first_call t = Some u -> first_call (t ++ t') = Some u.
Proof.
  induction t as [| e t IH]; cbn; [discriminate |].
  destruct e; auto.
Qed.

#[local] Instance frame_fresh_inv : Frame fresh_inv.
Proof. apply keeps_frame; intros; auto. Qed.

(** With a fresh token an iteration is the poll alone. *)
Lemma iteration_fresh w s :
  token_stale s = false ->
  iteration w s =
  try_except poll
    (fun e => match e with InvalidSession => raise e | _ => sleep 3 end) w s.
Proof.
  intros H. unfold iteration, try_except. cbv zeta.
  change (res ((s0 <- get ;;
                refreshed <- (if token_stale s0 then auth_refresh else ret Proceed) ;;
                match refreshed with Next => ret tt | Proceed => poll end) w s))
    with (res ((refreshed <- (if token_stale s then auth_refresh else ret Proceed) ;;
                match refreshed with Next => ret tt | Proceed => poll end) w s)).
  change (((s0 <- get ;;
            refreshed <- (if token_stale s0 then auth_refresh else ret Proceed) ;;
            match refreshed with Next => ret tt | Proceed => poll end) w s))
    with (((refreshed <- (if token_stale s then auth_refresh else ret Proceed) ;;
            match refreshed with Next => ret tt | Proceed => poll end) w s)).
  rewrite H. reflexivity.
Qed.

Lemma iteration_stale w s :
  token_stale s = true ->
  iteration w s =
  try_except
    (refreshed <- auth_refresh ;;
     match refreshed with Next => ret tt | Proceed => poll end)
    (fun e => match e with InvalidSession => raise e | _ => sleep 3 end) w s.
Proof.
  intros H. unfold iteration, try_except. cbv zeta.
  change (res ((s0 <- get ;;
                refreshed <- (if token_stale s0 then auth_refresh else ret Proceed) ;;
                match refreshed with Next => ret tt | Proceed => poll end) w s))
    with (res ((refreshed <- (if token_stale s then auth_refresh else ret Proceed) ;;
                match refreshed with Next => ret tt | Proceed => poll end) w s)).
  change (((s0 <- get ;;
            refreshed <- (if token_stale s0 then auth_refresh else ret Proceed) ;;
            match refreshed with Next => ret tt | Proceed => poll end) w s))
    with (((refreshed <- (if token_stale s then auth_refresh else ret Proceed) ;;
            match refreshed with Next => ret tt | Proceed => poll end) w s)).
  rewrite H. reflexivity.
Qed.

(** * The referral claim *)

#[local] Instance frame_first_run_is v : Frame (first_run_is v).
Proof. apply keeps_frame; intros; auto. Qed.

#[local] Instance frame_unclaimed v : Frame (unclaimed v).
Proof. apply keeps_frame; intros; auto. Qed.

Lemma iteration_keeps_first_run v w s :
  triple (first_run_is v) (first_run_is v) iteration w s.
Proof. unfold first_run_is. inv_auto keeps_side. Qed.

Lemma iteration_unclaimed v w s :
  v <> Some true -> triple (unclaimed v) (unclaimed v) iteration w s.
Proof. intros Hv. unfold unclaimed. inv_auto keeps_side. Qed.

Lemma poll_unclaimed v w s : triple (unclaimed v) (unclaimed v) poll w s.
Proof. unfold unclaimed. inv_auto keeps_side. Qed.

Lemma authentication_keeps_first_run v d w s :
  _is_first_run s = v ->
  _is_first_run (st (login d w (st (get_tg_web_data w s)))) = v.
Proof.
  intros H.
  assert (H1 : triple (first_run_is v) (first_run_is v) get_tg_web_data w s)
    by (unfold first_run_is; inv_auto keeps_side).
  destruct (H1 [] (conj H (Forall_nil _))) as [H2 _].
  assert (H3 : triple (first_run_is v) (first_run_is v) (login d) w
                 (st (get_tg_web_data w s)))
    by (unfold first_run_is; inv_auto keeps_side).
  destruct (H3 [] (conj H2 (Forall_nil _))) as [H4 _]. exact H4.
Qed.

Lemma claim_referral_first w s :
  exists u t', tr (claim_referral w s) = Call "POST" (referral_prefix ++ u) None :: t'.
Proof.
  destruct (get_ref_id_run w s) as (r & s' & Hr). exists r.
  unfold claim_referral.
  match goal with
  | |- context [bind get_ref_id ?f w s] =>
      rewrite (bind_run_ret get_ref_id f w s r) by (rewrite Hr; reflexivity)
  end.
  rewrite Hr. cbn [tr st app].
  match goal with
  | |- context [try_except ?m ?h w s'] =>
      destruct (tr_try_prefix m h w s') as [t1 H1]; rewrite H1
  end.
  match goal with
  | |- context [tr (bind ?m ?k w s')] =>
      destruct (tr_bind_prefix m k w s') as [t2 H2]; rewrite H2
  end.
  match goal with
  | |- context [tr (make_request ?m ?u ?b ?h w s')] =>
      destruct (make_request_first m u b h w s') as [t3 H3]; rewrite H3
  end.
  cbn. eauto.
Qed.

Lemma claim_referral_total : total claim_referral.
Proof.
  intros w s. destruct (get_ref_id_run w s) as (r & s' & Hr).
  unfold claim_referral.
  match goal with
  | |- context [bind get_ref_id ?f w s] =>
      rewrite (bind_run_ret get_ref_id f w s r) by (rewrite Hr; reflexivity)
  end.
  cbn [res]. rewrite Hr. cbn [st].
  match goal with
  | |- context [try_except ?m ?h w s'] =>
      destruct (total_try m h (fun e w0 s0 => ex_intro _ tt eq_refl) w s') as [[] H]
  end.
  eauto.
Qed.

Lemma is_referral_prefix m u b : is_referral (Call m (referral_prefix ++ u) b) = true.
Proof. destruct u; reflexivity. Qed.

Lemma first_run_claims w s d token :
  _is_first_run s = Some true ->
  token_stale s = true ->
  res (get_tg_web_data w s) = Ret d ->
  res (login d w (st (get_tg_web_data w s))) = Ret token ->
  Exists (fun e => is_referral e = true) (tr (iteration w s)).
Proof.
  intros Hf Hs Hd Hl. rewrite (iteration_stale w s Hs).
  match goal with
  | |- context [try_except ?m ?h w s] =>
      destruct (tr_try_prefix m h w s) as [t1 H1]; rewrite H1
  end.
  match goal with
  | |- context [tr (bind ?m ?k w s)] =>
      destruct (tr_bind_prefix m k w s) as [t2 H2]; rewrite H2
  end.
  apply Exists_app. left. apply Exists_app. left.
  unfold auth_refresh.
  match goal with
  | |- context [bind get_tg_web_data ?f w s] =>
      rewrite (bind_run_ret get_tg_web_data f w s d Hd)
  end.
  cbn [tr]. apply Exists_app. right.
  match goal with
  | |- context [bind (login d) ?f w ?s1] =>
      rewrite (bind_run_ret (login d) f w s1 token Hl)
  end.
  cbn [tr]. apply Exists_app. right.
  rewrite bind_modify, bind_get, bind_modify.
  cbn [_is_first_run set_access_token].
  rewrite (authentication_keeps_first_run (Some true) d w s Hf).
  match goal with
  | |- context [tr (bind claim_referral ?k w ?s1)] =>
      destruct (tr_bind_prefix claim_referral k w s1) as [t3 H3]; rewrite H3;
      destruct (claim_referral_first w s1) as (u & t4 & H4); rewrite H4
  end.
  cbn [app]. apply Exists_cons_hd. apply is_referral_prefix.
Qed.

(** C9, as the code has it.  The referral claim follows the session's
    first-run flag, which the loop never clears: with the flag unset no
    iteration claims; with the flag set every iteration that authenticates
    successfully claims, and one that does not authenticate does not; the
    claim itself always returns, whatever the server answers. *)
Theorem referral_follows_first_run_flag w s :
  _is_first_run (st (iteration w s)) = _is_first_run s
  /\ (_is_first_run s <> Some true ->
      Forall (fun e => is_referral e = false) (tr (iteration w s)))
  /\ (token_stale s = false ->
      Forall (fun e => is_referral e = false) (tr (iteration w s)))
  /\ (_is_first_run s = Some true -> token_stale s = true ->
      forall d token,
        res (get_tg_web_data w s) = Ret d ->
        res (login d w (st (get_tg_web_data w s))) = Ret token ->
        Exists (fun e => is_referral e = true) (tr (iteration w s)))
  /\ (exists s' t, claim_referral w s = mkOut (Ret tt) s' t).
Proof.
  split; [| split; [| split; [| split]]].
  - destruct (iteration_keeps_first_run (_is_first_run s) w s []
                (conj eq_refl (Forall_nil _))) as [H _].
    exact H.
  - intros Hv.
    destruct (iteration_unclaimed (_is_first_run s) w s Hv []
                (conj eq_refl (Forall_nil _))) as [_ H].
    cbn [app] in H. eapply Forall_impl; [| exact H].
    cbv beta. intros e He. apply negb_true_iff. exact He.
  - intros Hs. rewrite (iteration_fresh w s Hs).
    assert (Ht : triple (unclaimed (_is_first_run s)) (unclaimed (_is_first_run s))
                   (try_except poll
                      (fun e => match e with InvalidSession => raise e | _ => sleep 3 end))
                   w s).
    { apply triple_try; [apply poll_unclaimed |].
      intros e s'. unfold unclaimed. inv_auto keeps_side. }
    destruct (Ht [] (conj eq_refl (Forall_nil _))) as [_ H].
    cbn [app] in H. eapply Forall_impl; [| exact H].
    cbv beta. intros e He. apply negb_true_iff. exact He.
  - intros Hf Hs d token Hd Hl. exact (first_run_claims w s d token Hf Hs Hd Hl).
  - destruct (claim_referral_total w s) as [[] H].
    exists (st (claim_referral w s)), (tr (claim_referral w s)).
    rewrite <- H. reflexivity.
Qed.

(** * The turbo flag *)

Lemma triple_post {A} (Pre Mid Post : State -> list Event -> Prop) (m : M A) w s :
  triple Pre Mid m w s ->
  (forall s' t, Mid s' t -> Post s' t) ->
  triple Pre Post m w s.
Proof. intros H Hsub t0 H0. apply Hsub, H, H0. Qed.

#[local] Instance frame_pending : Frame pending.
Proof. apply keeps_frame; intros; auto. Qed.

Lemma settled_event e s t :
  no_boost_no_tap e = true -> settled s t -> settled s (t ++ [e]).
Proof.
  intros He [Ht Hd]. split.
  - apply Forall_app. split; [exact Ht | repeat constructor; exact He].
  - destruct Hd as [Hd | Hd]; [left; exact Hd | right; apply Exists_app; left; exact Hd].
Qed.

Lemma settled_state s s' t :
  active_turbo s' = active_turbo s -> settled s t -> settled s' t.
Proof. intros H [Ht Hd]. split; [exact Ht |]. rewrite H. exact Hd. Qed.

#[local] Instance frame_settled : Frame settled.
Proof.
  constructor; intros.
  - eapply settled_state; [| eassumption]; reflexivity.
  - eapply settled_state; [| eassumption]; reflexivity.
  - eapply settled_state; [| eassumption]; reflexivity.
  - apply settled_event; auto.
  - apply settled_event; auto.
Qed.

Ltac settled_side :=
  intros;
  match goal with
  | H : settled _ _ |- settled _ (_ ++ [_]) =>
      apply settled_event; [reflexivity | exact H]
  | H : settled _ _ |- settled _ _ =>
      eapply settled_state; [| exact H]; reflexivity
  end.

Lemma pending_settled s t : pending s t -> settled s t.
Proof. intros [H1 H2]. split; auto. Qed.

Lemma send_taps_with_turbo_total : total send_taps_with_turbo.
Proof. apply total_try. intros e. apply total_give_back. Qed.

(** A turbo tap that reports success did send the collect request. *)
Lemma turbo_success_was_sent w s status tap_data :
  res (send_taps_with_turbo w s) = Ret (status, tap_data) ->
  truthy status = true ->
  Exists (fun e => is_call turbo_tap_url e = true) (tr (send_taps_with_turbo w s)).
Proof.
  unfold send_taps_with_turbo. intros H Ht.
  match type of H with
  | res (try_except ?m ?h w s) = _ =>
      destruct (res (m w s)) as [a | e] eqn:E;
      [ rewrite (try_run_ret m h w s a E) in *
      | rewrite (try_run_raise m h w s e E) in H; cbn in H;
        injection H as <- <-; discriminate Ht ]
  end.
  clear H.
  repeat match type of E with
         | res (bind (make_request _ _ _ _) _ _ _) = Ret _ => fail 1
         | res (bind ?m ?f ?w0 ?s0) = Ret _ =>
             let x := fresh "x" in
             let E1 := fresh "E" in
             let E2 := fresh "E" in
             let E3 := fresh "E" in
             destruct (bind_ret_inv m f w0 s0 _ E) as (x & E1 & E2 & E3 & _);
             rewrite E3; clear E E3 E1; rename E2 into E;
             apply Exists_app; right; cbv beta in E |- *
         end.
  match type of E with
  | res (bind (make_request ?m ?u ?b ?h) ?f ?w0 ?s0) = Ret _ =>
      destruct (tr_bind_prefix (make_request m u b h) f w0 s0) as [t1 H1]; rewrite H1;
      destruct (make_request_first m u b h w0 s0) as [t2 H2]; rewrite H2
  end.
  cbn [app]. apply Exists_cons_hd. reflexivity.
Qed.

Lemma send_taps_with_turbo_pending w s :
  triple pending pending send_taps_with_turbo w s.
Proof. unfold pending. inv_auto keeps_side. Qed.

(** The turbo tap, taken with the flag set: it ends with the flag cleared
    exactly when the reported status is true. *)
Lemma turbo_tap_run w s :
  active_turbo s = true ->
  exists status tap_data,
    res (send_taps_with_turbo w s) = Ret (status, tap_data)
    /\ res (turbo_tap w s) = Ret (status, tap_data)
    /\ tr (turbo_tap w s) = tr (send_taps_with_turbo w s)
    /\ active_turbo (st (turbo_tap w s)) = negb (truthy status).
Proof.
  intros Hflag.
  destruct (send_taps_with_turbo_total w s) as [[status tap_data] Hr].
  destruct (send_taps_with_turbo_pending w s [] (conj Hflag (Forall_nil _))) as [Hkeep _].
  exists status, tap_data. split; [exact Hr |].
  unfold turbo_tap.
  match goal with
  | |- context [bind send_taps_with_turbo ?f w s] =>
      rewrite (bind_run_ret send_taps_with_turbo f w s _ Hr)
  end.
  cbn [fst]. destruct (truthy status); cbn; rewrite ?app_nil_r; auto.
Qed.

Lemma turbo_tap_settles w s : triple pending settled turbo_tap w s.
Proof.
  intros t0 [Hflag Ht0].
  destruct (turbo_tap_run w s Hflag) as (status & tap_data & Hr & _ & Htr & Hst).
  destruct (send_taps_with_turbo_pending w s t0 (conj Hflag Ht0)) as [_ HF].
  rewrite Htr. split; [exact HF |].
  destruct (truthy status) eqn:E.
  - right. apply Exists_app. right.
    exact (turbo_success_was_sent w s status tap_data Hr E).
  - left. rewrite Hst. reflexivity.
Qed.

(** With the flag set the tap branch is the turbo tap and what follows it. *)
Lemma tap_branch_pending w s available_energy energy turbo_boost_count count :
  active_turbo s = true ->
  as_int turbo_boost_count = Some count ->
  tap_branch available_energy energy turbo_boost_count w s =
  (tap <- turbo_tap ;; after_tap (fst tap) (snd tap)) w s.
Proof.
  intros Hflag Hc. unfold tap_branch. rewrite Hc.
  change (must (Some count)) with (@ret Z count).
  change ((count0 <- ret count ;;
           s0 <- get ;;
           (if (count0 >? 0) && negb (active_turbo s0)
            then activated <- apply_turbo_boost ;;
                 (if activated then sleep 1 ;; modify (set_active_turbo true) else ret tt)
            else ret tt) ;;
           s1 <- get ;;
           tap <- (if active_turbo s1 then turbo_tap
                   else regular_tap available_energy energy) ;;
           after_tap (fst tap) (snd tap)) w s)
    with (((if (count >? 0) && negb (active_turbo s)
            then activated <- apply_turbo_boost ;;
                 (if activated then sleep 1 ;; modify (set_active_turbo true) else ret tt)
            else ret tt) ;;
           s1 <- get ;;
           tap <- (if active_turbo s1 then turbo_tap
                   else regular_tap available_energy energy) ;;
           after_tap (fst tap) (snd tap)) w s).
  rewrite Hflag, andb_false_r.
  change ((ret tt ;;
           s1 <- get ;;
           tap <- (if active_turbo s1 then turbo_tap
                   else regular_tap available_energy energy) ;;
           after_tap (fst tap) (snd tap)) w s)
    with ((tap <- (if active_turbo s then turbo_tap
                   else regular_tap available_energy energy) ;;
           after_tap (fst tap) (snd tap)) w s).
  rewrite Hflag. reflexivity.
Qed.

Lemma after_tap_settled status tap_data w s :
  triple settled settled (after_tap status tap_data) w s.
Proof. inv_auto settled_side. Qed.

Lemma tap_branch_settles available_energy energy turbo_boost_count w s :
  triple pending settled (tap_branch available_energy energy turbo_boost_count) w s.
Proof.
  intros t0 H0. destruct (as_int turbo_boost_count) as [count |] eqn:Hc.
  - rewrite (tap_branch_pending w s _ _ _ count (proj1 H0) Hc).
    revert t0 H0. apply (triple_bind settled).
    + apply turbo_tap_settles.
    + auto.
    + intros tap s2. apply after_tap_settled.
  - unfold tap_branch. rewrite Hc. cbn. rewrite app_nil_r.
    apply pending_settled, H0.
Qed.

(** A step of a run that is still before the turbo tap. *)
Ltac pending_step :=
  cbv beta zeta;
  lazymatch goal with
  | |- triple pending settled (bind get _) _ _ => apply triple_bind_get; intro
  | |- triple pending settled (bind ask _) _ _ => apply triple_bind_ask
  | |- triple pending settled (bind _ _) _ _ =>
      apply (triple_bind pending);
      [ solve [unfold pending; inv_auto keeps_side]
      | exact pending_settled
      | intros ? ? ]
  | |- triple pending settled (try_except _ _) _ _ =>
      apply triple_try; [ | intros ? ?; solve [inv_auto settled_side] ]
  | |- triple pending settled (match ?x with _ => _ end) _ _ => destruct x eqn:?
  end.

Lemma pending_leaf {A} (m : M A) w s :
  triple pending pending m w s -> triple pending settled m w s.
Proof. intros H. exact (triple_post _ _ _ m w s H pending_settled). Qed.

Lemma decide_settles available_energy min_energy boosts_info w s :
  triple pending settled (decide available_energy min_energy boosts_info) w s.
Proof.
  unfold decide. do 5 pending_step.
  apply (triple_bind settled).
  - match goal with
    | |- triple _ _ (if ?c then _ else _) _ _ => destruct c
    end.
    + apply tap_branch_settles.
    + apply pending_leaf, inv_ret.
  - auto.
  - intros ? ?. inv_auto settled_side.
Qed.

Lemma poll_settles w s : triple pending settled poll w s.
Proof.
  unfold poll. pending_step. pending_step. pending_step.
  - apply pending_leaf. unfold pending. inv_auto keeps_side.
  - do 6 pending_step. cbv zeta. pending_step. pending_step.
    + apply pending_leaf. unfold pending. inv_auto keeps_side.
    + apply decide_settles.
Qed.

Lemma iteration_settles w s : triple pending settled iteration w s.
Proof.
  unfold iteration. pending_step. pending_step. pending_step. pending_step.
  - apply pending_leaf, inv_ret.
  - apply poll_settles.
Qed.

(** C6. An iteration entered with the turbo flag set makes no turbo-boost
    activation and no regular tap; if it ends with the flag cleared it sent
    the turbo tap; the turbo tap clears the flag exactly when the status it
    reports is true, and so leaves it set on every failure; with the flag
    set the tap branch is that turbo tap. *)
Theorem turbo_flag_discipline w s :
  active_turbo s = true ->
  Forall (fun e => is_call turbo_boost_url e = false /\ is_call tap_url e = false)
         (tr (iteration w s))
  /\ (active_turbo (st (iteration w s)) = false ->
      Exists (fun e => is_call turbo_tap_url e = true) (tr (iteration w s)))
  /\ (exists status tap_data,
        res (send_taps_with_turbo w s) = Ret (status, tap_data)
        /\ res (turbo_tap w s) = Ret (status, tap_data)
        /\ active_turbo (st (turbo_tap w s)) = negb (truthy status)
        /\ (truthy status = true ->
            Exists (fun e => is_call turbo_tap_url e = true) (tr (turbo_tap w s))))
  /\ (forall available_energy energy turbo_boost_count count,
        as_int turbo_boost_count = Some count ->
        tap_branch available_energy energy turbo_boost_count w s =
        (tap <- turbo_tap ;; after_tap (fst tap) (snd tap)) w s).
Proof.
  intros Hflag.
  destruct (iteration_settles w s [] (conj Hflag (Forall_nil _))) as [HF Hd].
  cbn [app] in HF, Hd.
  split; [| split; [| split]].
  - eapply Forall_impl; [| exact HF]. cbv beta. intros e He.
    unfold no_boost_no_tap in He. apply andb_true_iff in He.
    destruct He as [H1 H2]. split; apply negb_true_iff; assumption.
  - intros Hc. destruct Hd as [Hd | Hd]; [congruence | exact Hd].
  - destruct (turbo_tap_run w s Hflag) as (status & tap_data & Hr & Hr' & Htr & Hst).
    exists status, tap_data. repeat split; try assumption.
    intros Ht. rewrite Htr.
    exact (turbo_success_was_sent w s status tap_data Hr Ht).
  - intros available_energy energy turbo_boost_count count Hc.
    exact (tap_branch_pending w s _ _ _ count Hflag Hc).
Qed.

(** * The upgrade pass *)

Lemma level_ups_of_app t t' : level_ups_of (t ++ t') = level_ups_of t ++ level_ups_of t'.
Proof. unfold level_ups_of. apply flat_map_app. Qed.

Lemma ups_event l b e s t :
  level_ups_of [e] = [] -> ups l b s t -> ups l b s (t ++ [e]).
Proof.
  intros He [Hl Hb]. split; [| exact Hb].
  rewrite level_ups_of_app, He, app_nil_r. exact Hl.
Qed.

Lemma ups_state l b s s' t :
  balance s' = balance s -> ups l b s t -> ups l b s' t.
Proof. intros H [Hl Hb]. split; [exact Hl | congruence]. Qed.

#[local] Instance frame_ups l b : Frame (ups l b).
Proof.
  constructor; intros.
  - eapply ups_state; [| eassumption]; reflexivity.
  - eapply ups_state; [| eassumption]; reflexivity.
  - eapply ups_state; [| eassumption]; reflexivity.
  - apply ups_event; auto.
  - apply ups_event; auto.
Qed.

Ltac ups_side :=
  intros;
  match goal with
  | H : ups _ _ _ _ |- ups _ _ _ (_ ++ [_]) =>
      apply ups_event; [reflexivity | exact H]
  | H : ups _ _ _ _ |- ups _ _ _ _ =>
      eapply ups_state; [| exact H]; reflexivity
  end.

Lemma level_up_total boost_id : total (level_up boost_id).
Proof. apply total_try. intros e. apply total_give_back. Qed.

(** [level_up] enters [make_request] once, for the level-up url, and does
    not touch the balance. *)
Lemma level_up_calls l b boost_id w s :
  triple (ups l b) (ups (l ++ [Some (JStr (py_str boost_id))]) b) (level_up boost_id) w s.
Proof.
  unfold level_up. apply triple_try.
  - apply (triple_bind (ups (l ++ [Some (JStr (py_str boost_id))]) b)).
    + unfold make_request.
      apply (triple_bind (ups (l ++ [Some (JStr (py_str boost_id))]) b)).
      * apply triple_emit. intros t [Hl Hb]. split; [| exact Hb].
        rewrite level_ups_of_app, Hl. reflexivity.
      * auto.
      * intros ? ?. inv_auto ups_side.
    + auto.
    + intros ? ?. inv_auto ups_side.
  - intros ? ?. inv_auto ups_side.
Qed.

(** One gate: the call is made exactly when the gate holds. *)
Lemma try_upgrade_calls l b price p next_level max_level boost_id upgraded w s :
  as_int price = Some p ->
  total_triple (ups l (JNum b))
    (ups (l ++ (if (b >=? p) && (next_level <=? max_level)
                then [Some (JStr (py_str boost_id))] else []))
         (JNum b))
    (try_upgrade price next_level max_level boost_id upgraded) w s.
Proof.
  intros Hp. unfold try_upgrade. apply tt_bind_get. intros [t [_ Hb]].
  rewrite Hb. unfold py_ge. cbn [as_int]. rewrite Hp. cbn [must].
  apply tt_bind_ret.
  destruct ((b >=? p) && (next_level <=? max_level)).
  - apply (tt_bind (ups (l ++ [Some (JStr (py_str boost_id))]) (JNum b))).
    + apply tt_intro; [apply level_up_total | apply level_up_calls].
    + intros ? ?. apply tt_ret. auto.
  - rewrite app_nil_r. apply tt_ret. auto.
Qed.

(** The level-up calls of a pass over a well-formed snapshot: one per gate
    that holds, in the order tap, energy, recovery; the balance the gates
    read is the one the pass started with. *)
Lemma upgrade_pass_calls boosts_info w s b l1 p1 l3 p3 l2 p2 :
  balance s = JNum b ->
  py_getitem boosts_info "singleCoinLevel" = Some (JNum l1) ->
  py_getitem boosts_info "coinPoolTotalLevel" = Some (JNum l3) ->
  py_getitem boosts_info "coinPoolRecoveryLevel" = Some (JNum l2) ->
  py_getitem boosts_info "singleCoinUpgradeCost" = Some (JNum p1) ->
  py_getitem boosts_info "coinPoolTotalUpgradeCost" = Some (JNum p3) ->
  py_getitem boosts_info "coinPoolRecoveryUpgradeCost" = Some (JNum p2) ->
  (exists f, res (upgrade_pass boosts_info w s) = Ret f)
  /\ level_ups_of (tr (upgrade_pass boosts_info w s)) =
       (if gate b p1 l1 (MAX_TAP_LEVEL (settings w)) then [Some (JStr "1")] else [])
       ++ (if gate b p3 l3 (MAX_ENERGY_LEVEL (settings w)) then [Some (JStr "3")] else [])
       ++ (if gate b p2 l2 (MAX_CHARGE_LEVEL (settings w)) then [Some (JStr "2")] else [])
  /\ balance (st (upgrade_pass boosts_info w s)) = JNum b.
Proof.
  intros Hb H1 H3 H2 P1 P3 P2.
  set (g1 := if gate b p1 l1 (MAX_TAP_LEVEL (settings w)) then [Some (JStr "1")] else []).
  set (g3 := if gate b p3 l3 (MAX_ENERGY_LEVEL (settings w)) then [Some (JStr "3")] else []).
  set (g2 := if gate b p2 l2 (MAX_CHARGE_LEVEL (settings w)) then [Some (JStr "2")] else []).
  assert (Ht : total_triple (ups [] (JNum b)) (ups ((([] ++ g1) ++ g3) ++ g2) (JNum b))
                 (upgrade_pass boosts_info) w s).
  { unfold upgrade_pass. rewrite H1, H3, H2, P1, P3, P2. cbn [must as_int].
    apply tt_try.
    do 9 apply tt_bind_ret. apply tt_bind_ask. cbv zeta.
    apply (tt_bind (ups ([] ++ g1) (JNum b))).
    { exact (try_upgrade_calls [] b (JNum p1) p1 (l1 + 1) _ 1 false w s eq_refl). }
    intros u1 s1.
    apply (tt_bind (ups (([] ++ g1) ++ g3) (JNum b))).
    { exact (try_upgrade_calls ([] ++ g1) b (JNum p3) p3 (l3 + 1) _ 3 u1 w s1 eq_refl). }
    intros u3 s3.
    apply (tt_bind (ups ((([] ++ g1) ++ g3) ++ g2) (JNum b))).
    { exact (try_upgrade_calls (([] ++ g1) ++ g3) b (JNum p2) p2 (l2 + 1) _ 2 u3 w s3
               eq_refl). }
    intros u2 s2. apply tt_intro.
    - intros w0 s0. destruct u2; eexists; reflexivity.
    - inv_auto ups_side. }
  destruct (Ht [] (conj eq_refl Hb)) as [Hr [Hl Hbal]].
  cbn [app] in Hl. rewrite <- app_assoc in Hl. auto.
Qed.

(** With no energy left and a threshold that is not negative, the decision
    is the upgrade pass, then the back-off unless the pass ran [continue]. *)
Lemma decide_zero_energy boosts_info min_energy w s turbo energy_boost amount :
  py_getitem boosts_info "specialBoxLeftRecoveryCount" = Some turbo ->
  py_getitem boosts_info "coinPoolLeftRecoveryCount" = Some energy_boost ->
  py_get boosts_info "currentAmount" (JNum 0) = Some amount ->
  0 <= min_energy ->
  decide (JNum 0) min_energy boosts_info w s =
  (upgraded <- upgrade_pass boosts_info ;;
   match upgraded with Next => ret tt | Proceed => coarse_wait end)
    w (set_balance amount s).
Proof.
  intros H1 H2 H3 Hm. unfold decide. rewrite H1, H2, H3. cbn [must as_int]. run.
  replace (0 >? min_energy) with false
    by (symmetry; rewrite Z.gtb_ltb; apply Z.ltb_ge; exact Hm).
  run. reflexivity.
Qed.

(** A gate that does not hold leaves everything as it is. *)
Lemma try_upgrade_closed b p next_level max_level boost_id upgraded w s :
  balance s = JNum b ->
  (b >=? p) && (next_level <=? max_level) = false ->
  try_upgrade (JNum p) next_level max_level boost_id upgraded w s =
  mkOut (Ret upgraded) s [].
Proof.
  intros Hb G. unfold try_upgrade. run. rewrite Hb. unfold py_ge. run.
  rewrite G. reflexivity.
Qed.

(** A gate that holds runs the level-up. *)
Lemma try_upgrade_open b p next_level max_level boost_id upgraded w s done :
  balance s = JNum b ->
  (b >=? p) && (next_level <=? max_level) = true ->
  res (level_up boost_id w s) = Ret done ->
  try_upgrade (JNum p) next_level max_level boost_id upgraded w s =
  mkOut (Ret (if done then true else upgraded))
        (st (level_up boost_id w s)) (tr (level_up boost_id w s)).
Proof.
  intros Hb G Hlu. unfold try_upgrade. run. rewrite Hb. unfold py_ge. run.
  rewrite G. rewrite (bind_run_ret (level_up boost_id) _ w s done Hlu).
  cbn [res st tr ret]. rewrite app_nil_r. reflexivity.
Qed.

(** The pass when only the tap gate holds: one level-up, then the settle
    delay and [continue] if it succeeded. *)
Lemma upgrade_pass_tap_only boosts_info w s b l1 p1 l3 p3 l2 p2 done :
  balance s = JNum b ->
  py_getitem boosts_info "singleCoinLevel" = Some (JNum l1) ->
  py_getitem boosts_info "coinPoolTotalLevel" = Some (JNum l3) ->
  py_getitem boosts_info "coinPoolRecoveryLevel" = Some (JNum l2) ->
  py_getitem boosts_info "singleCoinUpgradeCost" = Some (JNum p1) ->
  py_getitem boosts_info "coinPoolTotalUpgradeCost" = Some (JNum p3) ->
  py_getitem boosts_info "coinPoolRecoveryUpgradeCost" = Some (JNum p2) ->
  gate b p1 l1 (MAX_TAP_LEVEL (settings w)) = true ->
  gate b p3 l3 (MAX_ENERGY_LEVEL (settings w)) = false ->
  gate b p2 l2 (MAX_CHARGE_LEVEL (settings w)) = false ->
  res (level_up 1 w s) = Ret done ->
  upgrade_pass boosts_info w s =
  if done
  then mkOut (Ret Next)
             (set_now (now (st (level_up 1 w s)) + 1) (st (level_up 1 w s)))
             (tr (level_up 1 w s) ++ [Sleep 1])
  else mkOut (Ret Proceed) (st (level_up 1 w s)) (tr (level_up 1 w s)).
Proof.
  intros Hb H1 H3 H2 P1 P3 P2 G1 G3 G2 Hlu.
  destruct (level_up_calls [] (JNum b) 1 w s [] (conj eq_refl Hb)) as [_ Hb'].
  unfold gate in G1, G3, G2.
  unfold upgrade_pass. rewrite H1, H3, H2, P1, P3, P2.
  match goal with
  | |- try_except ?m ?h w s = ?rhs =>
      assert (E : m w s = rhs);
      [| rewrite <- E;
         apply try_run_ret with (a := if done then Next else Proceed);
         rewrite E; destruct done; reflexivity ]
  end.
  run.
  rewrite (bind_eq _ _ w s _ _ _
             (try_upgrade_open b p1 _ _ 1 false w s done Hb G1 Hlu)).
  rewrite (bind_eq _ _ w _ _ _ _
             (try_upgrade_closed b p3 _ _ 3 _ w _ Hb' G3)).
  rewrite (bind_eq _ _ w _ _ _ _
             (try_upgrade_closed b p2 _ _ 2 _ w _ Hb' G2)).
  destruct done; cbn [app res st tr ret].
  - rewrite bind_sleep. cbn [res st tr ret]. reflexivity.
  - rewrite app_nil_r. reflexivity.
Qed.

#[local] Instance frame_calm : Frame calm.
Proof. apply keeps_frame; intros; auto. Qed.

Lemma level_up_calm boost_id w s : triple calm calm (level_up boost_id) w s.
Proof. unfold calm. inv_auto keeps_side. Qed.

Lemma coarse_wait_no_level_up l b w s : triple (ups l b) (ups l b) coarse_wait w s.
Proof. inv_auto ups_side. Qed.

(** C7. In an upgrade pass over a well-formed snapshot the level-up calls
    are those of the gates that hold ([balance >= cost] and
    [level + 1 <= configured maximum]), in the order tap (1), energy
    capacity (3), energy recovery (2).  In the scenario of the spec (no
    energy, balance 1000, tap upgrade 3 to 4 for 500 with maximum 10, the
    other two for 5000) the iteration makes exactly one level-up call, for
    the tap; when that upgrade succeeds the iteration then sleeps the one
    second of settling and ends without any back-off. *)
Theorem upgrade_priority w s :
  (forall boosts_info b l1 p1 l3 p3 l2 p2,
     balance s = JNum b ->
     py_getitem boosts_info "singleCoinLevel" = Some (JNum l1) ->
     py_getitem boosts_info "coinPoolTotalLevel" = Some (JNum l3) ->
     py_getitem boosts_info "coinPoolRecoveryLevel" = Some (JNum l2) ->
     py_getitem boosts_info "singleCoinUpgradeCost" = Some (JNum p1) ->
     py_getitem boosts_info "coinPoolTotalUpgradeCost" = Some (JNum p3) ->
     py_getitem boosts_info "coinPoolRecoveryUpgradeCost" = Some (JNum p2) ->
     level_ups_of (tr (upgrade_pass boosts_info w s)) =
       (if gate b p1 l1 (MAX_TAP_LEVEL (settings w)) then [Some (JStr "1")] else [])
       ++ (if gate b p3 l3 (MAX_ENERGY_LEVEL (settings w)) then [Some (JStr "3")] else [])
       ++ (if gate b p2 l2 (MAX_CHARGE_LEVEL (settings w)) then [Some (JStr "2")] else []))
  /\ (forall min_energy,
        0 <= min_energy ->
        MAX_TAP_LEVEL (settings w) = 10 ->
        let lu := level_up 1 w (set_balance (JNum 1000) s) in
        let out := decide (JNum 0) min_energy scenario_boosts w s in
        level_ups_of (tr out) = [Some (JStr "1")]
        /\ (res lu = Ret true ->
            res out = Ret tt
            /\ tr out = tr lu ++ [Sleep 1]
            /\ Forall (fun e => is_waiting e = false) (tr out))).
Proof.
  split.
  - intros boosts_info b l1 p1 l3 p3 l2 p2 Hb H1 H3 H2 P1 P3 P2.
    exact (proj1 (proj2 (upgrade_pass_calls boosts_info w s b l1 p1 l3 p3 l2 p2
                           Hb H1 H3 H2 P1 P3 P2))).
  - intros min_energy Hm Hmax. cbv zeta.
    rewrite (decide_zero_energy scenario_boosts min_energy w s (JNum 0) (JNum 0)
               (JNum 1000) eq_refl eq_refl eq_refl Hm).
    set (s1 := set_balance (JNum 1000) s).
    destruct (level_up_total 1 w s1) as [done Hlu].
    assert (G1 : gate 1000 500 3 (MAX_TAP_LEVEL (settings w)) = true)
      by (rewrite Hmax; reflexivity).
    assert (Hup := upgrade_pass_tap_only scenario_boosts w s1 1000 3 500 3 5000 3 5000
                     done eq_refl eq_refl eq_refl eq_refl eq_refl eq_refl eq_refl
                     G1 eq_refl eq_refl Hlu).
    destruct (level_up_calls [] (JNum 1000) 1 w s1 [] (conj eq_refl eq_refl))
      as [Hcalls _].
    cbn [app] in Hcalls.
    destruct done.
    + rewrite (bind_eq _ _ w s1 _ _ _ Hup). cbn [res st tr ret]. rewrite app_nil_r.
      split.
      * rewrite level_ups_of_app, Hcalls. reflexivity.
      * intros _. split; [reflexivity |]. split; [reflexivity |].
        apply Forall_app. split; [| repeat constructor].
        destruct (level_up_calm 1 w s1 [] (conj Logic.I (Forall_nil _))) as [_ HF].
        cbn [app] in HF. eapply Forall_impl; [| exact HF].
        cbv beta. intros e He. apply negb_true_iff. exact He.
    + rewrite (bind_eq _ _ w s1 _ _ _ Hup). cbn [res st tr].
      split.
      * rewrite level_ups_of_app, Hcalls.
        destruct (coarse_wait_no_level_up [] (JNum 1000) w (st (level_up 1 w s1)) []
                    (conj eq_refl (proj2 (level_up_calls [] (JNum 1000) 1 w s1 []
                                            (conj eq_refl eq_refl)))))
          as [Hw _].
        cbn [app] in Hw. rewrite Hw. reflexivity.
      * intros Ht. congruence.
Qed.

#[local] Instance frame_same_snapshot b : Frame (same_snapshot b).
Proof. apply keeps_frame; intros; auto. Qed.



(** * Low energy, and taps that bring nothing *)

(** C1, as the code has it.  With the energy above zero and at most the
    threshold, the decision makes no call, and in particular no tap, but
    it does not wait either: it ends at once, having only recorded the
    balance of the snapshot. *)
Theorem low_energy_falls_through w s available_energy min_energy boosts_info
    turbo energy_boost amount energy :
  py_getitem boosts_info "specialBoxLeftRecoveryCount" = Some turbo ->
  py_getitem boosts_info "coinPoolLeftRecoveryCount" = Some energy_boost ->
  py_get boosts_info "currentAmount" (JNum 0) = Some amount ->
  as_int available_energy = Some energy ->
  0 < energy ->
  energy <= min_energy ->
  decide available_energy min_energy boosts_info w s =
  mkOut (Ret tt) (set_balance amount s) [].
Proof.
  intros H1 H2 H3 He Hpos Hle. unfold decide. rewrite H1, H2, H3, He. run.
  replace (energy >? min_energy) with false
    by (symmetry; rewrite Z.gtb_ltb; apply Z.ltb_ge; exact Hle).
  run.
  replace (energy =? 0) with false by (symmetry; apply Z.eqb_neq; lia).
  reflexivity.
Qed.

(** What follows a tap that was not collected and whose data is not [None]:
    nothing. *)
Lemma after_tap_rejected status tap_data w s :
  is_None tap_data = false ->
  truthy status = false ->
  after_tap status tap_data w s = mkOut (Ret Proceed) s [].
Proof. intros H1 H2. unfold after_tap. rewrite H1, H2. reflexivity. Qed.

(** Peeling the binds of a computation that returned. *)
Ltac peel E :=
  repeat match type of E with
         | res (bind ?m ?f ?w0 ?s0) = Ret _ =>
             let x := fresh "x" in
             let E1 := fresh "E" in
             let E2 := fresh "E" in
             destruct (bind_ret_inv m f w0 s0 _ E) as (x & E1 & E2 & _);
             clear E E1; rename E2 into E; cbv beta in E
         end.

Lemma send_taps_data_not_None taps w s status tap_data :
  res (send_taps taps w s) = Ret (status, tap_data) -> is_None tap_data = false.
Proof.
  unfold send_taps. intros H.
  match type of H with
  | res (try_except ?m ?h w s) = _ =>
      destruct (res (m w s)) as [a | e] eqn:E;
      [ rewrite (try_run_ret m h w s a E) in H; clear E; rename H into E
      | rewrite (try_run_raise m h w s e E) in H; cbn in H;
        injection H as <- <-; reflexivity ]
  end.
  peel E.
  match type of E with
  | res ((if ?c then _ else _) _ _) = _ => destruct c
  end.
  - cbn in E. injection E as <- <-. reflexivity.
  - peel E. cbn in E. injection E as <- <-. reflexivity.
Qed.

Lemma send_taps_with_turbo_data_not_None w s status tap_data :
  res (send_taps_with_turbo w s) = Ret (status, tap_data) -> is_None tap_data = false.
Proof.
  unfold send_taps_with_turbo. intros H.
  match type of H with
  | res (try_except ?m ?h w s) = _ =>
      destruct (res (m w s)) as [a | e] eqn:E;
      [ rewrite (try_run_ret m h w s a E) in H; clear E; rename H into E
      | rewrite (try_run_raise m h w s e E) in H; cbn in H;
        injection H as <- <-; reflexivity ]
  end.
  peel E.
  match type of E with
  | res ((if ?c then _ else _) _ _) = _ => destruct c
  end.
  - cbn in E. injection E as <- <-. reflexivity.
  - peel E. cbn in E. injection E as <- <-. reflexivity.
Qed.

Lemma send_taps_no_payload taps body response w s :
  py_str_json taps = Some body ->
  res (make_request "POST" tap_url (Some (JStr body)) None w s) = Ret response ->
  truthy response = false ->
  res (send_taps taps w s) = Ret (JBool false, JObj []).
Proof.
  intros Hb Hr Ht. unfold tap_url in Hr. unfold send_taps. rewrite Hb.
  match goal with
  | |- res (try_except ?m ?h w s) = _ =>
      assert (E : res (m w s) = Ret (JBool false, JObj []));
      [| rewrite (try_run_ret m h w s _ E); exact E ]
  end.
  run. rewrite (bind_run_ret _ _ w s response Hr). cbn [res].
  unfold has_data. rewrite Ht. run. reflexivity.
Qed.

(** C2, as the code has it.  A tap never hands [None] back as its data, with
    or without turbo; a tap whose request brought no payload hands back
    [(False, {})]; and after such a result the loop neither waits nor
    sleeps: the back-off written for [tap_data is None] is never taken. *)
Theorem tap_without_payload_is_not_backed_off w s taps :
  (forall status tap_data,
     res (send_taps taps w s) = Ret (status, tap_data) -> is_None tap_data = false)
  /\ (forall status tap_data,
        res (send_taps_with_turbo w s) = Ret (status, tap_data) ->
        is_None tap_data = false)
  /\ (forall body response,
        py_str_json taps = Some body ->
        res (make_request "POST" tap_url (Some (JStr body)) None w s) = Ret response ->
        truthy response = false ->
        res (send_taps taps w s) = Ret (JBool false, JObj []))
  /\ (forall s', after_tap (JBool false) (JObj []) w s' = mkOut (Ret Proceed) s' []).
Proof.
  split; [| split; [| split]].
  - intros status tap_data. apply send_taps_data_not_None.
  - intros status tap_data. apply send_taps_with_turbo_data_not_None.
  - intros body response. apply send_taps_no_payload.
  - intros s'. apply after_tap_rejected; reflexivity.
Qed.

(** * The theorems at work on concrete sessions *)

(** Energy 5 of 500, threshold 50: the iteration polls and stops, without a
    tap and without a wait. *)
Example low_energy_iteration :
  res (iteration low_energy_world running) = Ret tt
  /\ map (fun e => match e with Call _ u _ => u | _ => EmptyString end)
         (filter (fun e => match e with Call _ _ _ => true | _ => false end)
                 (tr (iteration low_energy_world running)))
     = [game_url; boosts_url]
  /\ count (fun e => match e with Sleep _ | Waiting _ => true | _ => false end)
           (tr (iteration low_energy_world running)) = 0%nat
  /\ now (st (iteration low_energy_world running)) = now running.
Proof. vm_compute. repeat split; reflexivity. Qed.

Lemma low_energy_falls_through_witness :
  0 < 5 <= int_percent 500 (MIN_AVAILABLE_ENERGY default_settings)
  /\ decide (JNum 5) 50 (build_info 0 1000 3 500 3 5000 3 5000) low_energy_world running
     = mkOut (Ret tt) (set_balance (JNum 1000) running) [].
Proof.
  split; [vm_compute; split; [reflexivity | discriminate] |].
  apply (low_energy_falls_through low_energy_world running (JNum 5) 50
           (build_info 0 1000 3 500 3 5000 3 5000) (JNum 0) (JNum 0) (JNum 1000) 5);
    [reflexivity | reflexivity | reflexivity | reflexivity | lia | lia].
Defined.

(** Full energy, the tap answered with 429: the iteration taps once and
    stops, without a wait. *)
Example limited_tap_iteration :
  res (iteration limited_tap_world running) = Ret tt
  /\ count (is_call tap_url) (tr (iteration limited_tap_world running)) = 1%nat
  /\ count (fun e => match e with Sleep _ | Waiting _ => true | _ => false end)
           (tr (iteration limited_tap_world running)) = 0%nat.
Proof. vm_compute. repeat split; reflexivity. Qed.

Lemma tap_without_payload_witness :
  res (send_taps (JNum 35) limited_tap_world running) = Ret (JBool false, JObj [])
  /\ after_tap (JBool false) (JObj []) limited_tap_world running
     = mkOut (Ret Proceed) running [].
Proof.
  destruct (tap_without_payload_is_not_backed_off limited_tap_world running (JNum 35))
    as (_ & _ & H3 & H4).
  split; [| apply H4].
  apply (H3 "35"%string JNull); [reflexivity | vm_compute; reflexivity | reflexivity].
Defined.

(** C3 as stated fails: the tap is answered with a payload that refuses it,
    and the iteration fetches no profile. *)
Lemma rejected_tap_makes_no_profile_fetch :
  count (is_call tap_url) (tr (iteration rejected_tap_world running)) = 1%nat
  /\ count (is_call profile_url) (tr (iteration rejected_tap_world running)) <> 1%nat.
Proof. vm_compute. split; [reflexivity | discriminate]. Qed.



Lemma turbo_flag_discipline_witness :
  Forall (fun e => is_call turbo_boost_url e = false /\ is_call tap_url e = false)
         (tr (iteration (turbo_world false) turbo_pending))
  /\ active_turbo (st (iteration (turbo_world false) turbo_pending)) = true
  /\ active_turbo (st (iteration (turbo_world true) turbo_pending)) = false.
Proof.
  split; [| split; vm_compute; reflexivity].
  apply (turbo_flag_discipline (turbo_world false) turbo_pending). reflexivity.
Defined.

Lemma upgrade_priority_witness :
  let lu := level_up 1 scenario_world (set_balance (JNum 1000) running) in
  let out := decide (JNum 0) 50 scenario_boosts scenario_world running in
  level_ups_of (tr out) = [Some (JStr "1")]
  /\ res out = Ret tt
  /\ tr out = tr lu ++ [Sleep 1]
  /\ Forall (fun e => is_waiting e = false) (tr out).
Proof.
  cbv zeta.
  destruct (upgrade_priority scenario_world running) as [_ H].
  destruct (H 50 ltac:(lia) eq_refl) as [H1 H2].
  split; [exact H1 |]. apply H2. vm_compute. reflexivity.
Defined.

Lemma make_request_contract_witness :
  res (make_request "GET" game_url None None flaky_world running)
  = Ret (JObj [("code"%string, JNum 0); ("data"%string, game_info 500 500)])
  /\ attempts_of (tr (make_request "GET" game_url None None flaky_world running))
     = [0; 1; 2]
  /\ sleeps_of (tr (make_request "GET" game_url None None flaky_world running))
     = [5; 10].
Proof.
  destruct (make_request_contract flaky_world running "GET" game_url None None)
    as [_ H].
  destruct (H eq_refl) as (H1 & H2 & H3 & _).
  split; [exact H1 |]. split; [exact H2 | exact H3].
Defined.

(** C9 as stated fails: a newly seen account whose loop re-authenticates
    after an hour claims the referral gift again. *)
Lemma referral_claimed_on_each_refresh :
  count (is_call login_url) (tr (process_bot_logic 2 first_hours_world newcomer)) = 2%nat
  /\ count is_referral (tr (process_bot_logic 2 first_hours_world newcomer)) = 2%nat
  /\ ~ claimed_at_most_once (tr (process_bot_logic 2 first_hours_world newcomer)).
Proof.
  assert (H : count is_referral (tr (process_bot_logic 2 first_hours_world newcomer))
              = 2%nat) by (vm_compute; reflexivity).
  split; [vm_compute; reflexivity |]. split; [exact H |].
  unfold claimed_at_most_once. rewrite H. lia.
Qed.

Lemma referral_follows_first_run_flag_witness :
  Exists (fun e => is_referral e = true) (tr (iteration first_hours_world newcomer))
  /\ _is_first_run (st (iteration first_hours_world newcomer)) = Some true.
Proof.
  destruct (referral_follows_first_run_flag first_hours_world newcomer)
    as (H1 & _ & _ & H4 & _).
  split; [| rewrite H1; reflexivity].
  apply (H4 eq_refl ltac:(vm_compute; reflexivity) "user=1"%string (JStr "fresh"));
    vm_compute; reflexivity.
Defined.

Lemma get_ref_id_cached_witness :
  res (get_ref_id own_ref_world running) = Ret "dIk9eL"%string
  /\ res (get_ref_id own_ref_world running) <> Ret (REF_ID (settings own_ref_world))
  /\ res (get_ref_id own_ref_world (st (get_ref_id own_ref_world running)))
     = Ret "dIk9eL"%string.
Proof.
  destruct (get_ref_id_cached own_ref_world running) as [H _].
  destruct (H eq_refl) as (_ & H2 & H3 & H4).
  split; [exact H2 |]. split.
  - apply H4; [discriminate | vm_compute; reflexivity].
  - destruct (get_ref_id_cached own_ref_world (st (get_ref_id own_ref_world running)))
      as [_ H'].
    destruct (H' _ H3) as [H5 _]. rewrite H5. reflexivity.
Defined.

(** * Dicts *)

Lemma dict_get_set_same k v d : dict_get k (dict_set k v d) = Some v.
Proof.
  induction d as [| [k' v'] d IH]; cbn.
  - now rewrite String.eqb_refl.
  - destruct (String.eqb k k') eqn:E; cbn; rewrite ?String.eqb_refl, ?E; auto.
Qed.

Lemma dict_get_set_other k k' v d :
  k <> k' -> dict_get k (dict_set k' v d) = dict_get k d.
Proof.
  intros Hne. induction d as [| [k2 v2] d IH]; cbn.
  - destruct (String.eqb_spec k k'); [contradiction | reflexivity].
  - destruct (String.eqb_spec k' k2) as [-> | Hn2]; cbn.
    + destruct (String.eqb_spec k k2); [contradiction | reflexivity].
    + destruct (String.eqb_spec k k2); [reflexivity | exact IH].
Qed.

Lemma keys_set_in k v d :
  In k (keys d) -> keys (dict_set k v d) = keys d.
Proof.
  induction d as [| [k' v'] d IH]; cbn; [contradiction |].
  intros [-> | H].
  - now rewrite String.eqb_refl.
  - destruct (String.eqb_spec k k') as [-> | Hn]; cbn; [reflexivity |].
    f_equal. apply IH, H.
Qed.

Lemma dict_set_new k v d :
  ~ In k (keys d) -> dict_set k v d = d ++ [(k, v)].
Proof.
  induction d as [| [k' v'] d IH]; cbn; [reflexivity |].
  intros H. destruct (String.eqb_spec k k') as [-> | Hn].
  - exfalso. apply H. now left.
  - f_equal. apply IH. intros Hin. apply H. now right.
Qed.

(** Setting, in order, the entries of [e] in a dict that has the keys of
    [e] in this order gives [e]. *)
Lemma dict_update_over x : forall d e,
  keys d = keys e -> NoDup (keys x ++ keys e) ->
  dict_update (x ++ d) e = x ++ e.
Proof.
  unfold dict_update. intros d e. revert x d.
  induction e as [| [k v] e IH]; intros x d Hk Hn.
  - destruct d; [reflexivity | discriminate].
  - destruct d as [| [k' v'] d]; [discriminate |].
    cbn in Hk. injection Hk as -> Hk. cbn [fold_left fst snd].
    assert (Hx : ~ In k (keys x)).
    { intros Hin. apply NoDup_remove_2 in Hn. apply Hn.
      apply in_or_app. now left. }
    assert (E : dict_set k v (x ++ (k, v') :: d) = (x ++ [(k, v)]) ++ d).
    { clear - Hx. induction x as [| [k2 v2] x IHx]; cbn.
      - now rewrite String.eqb_refl.
      - destruct (String.eqb_spec k k2) as [-> | Hn2].
        + exfalso. apply Hx. now left.
        + f_equal. apply IHx. intros Hin. apply Hx. now right. }
    rewrite E. rewrite (IH (x ++ [(k, v)]) d Hk).
    + now rewrite <- app_assoc.
    + unfold keys in *. rewrite map_app. cbn. rewrite <- app_assoc. exact Hn.
Qed.

Lemma dict_update_new : forall e d,
  NoDup (keys d ++ keys e) -> dict_update d e = d ++ e.
Proof.
  unfold dict_update.
  induction e as [| [k v] e IH]; intros d Hn; cbn [fold_left fst snd].
  - now rewrite app_nil_r.
  - rewrite dict_set_new.
    + rewrite IH.
      * now rewrite <- app_assoc.
      * unfold keys in *. rewrite map_app. cbn. rewrite <- app_assoc. exact Hn.
    + intros Hin. apply NoDup_remove_2 in Hn. apply Hn. apply in_or_app. now left.
Qed.

Lemma NoDup_snoc {A} (l : list A) k : NoDup l -> ~ In k l -> NoDup (l ++ [k]).
Proof.
  intros H Hk. apply NoDup_app; [exact H | repeat constructor; intros [] |].
  intros a Ha [<- | []]. contradiction.
Qed.

Lemma over_refl d : NoDup (keys d) -> over d d.
Proof. intros H. exists d, []. now rewrite app_nil_r. Qed.

Lemma over_set d r k v : over d r -> over d (dict_set k v r).
Proof.
  intros (r1 & r2 & -> & Hk & Hn).
  destruct (in_dec string_dec k (keys r1)) as [H1 | H1].
  - exists (dict_set k v r1), r2.
    assert (E : dict_set k v (r1 ++ r2) = dict_set k v r1 ++ r2).
    { clear - H1. induction r1 as [| [k' v'] r1 IH]; cbn in *; [contradiction |].
      destruct (String.eqb_spec k k') as [-> | Hne]; [reflexivity |].
      cbn. f_equal. apply IH. destruct H1; [congruence | assumption]. }
    rewrite E. split; [reflexivity |]. split.
    + rewrite keys_set_in by exact H1. exact Hk.
    + unfold keys in *. rewrite map_app. fold (keys (dict_set k v r1)).
      rewrite keys_set_in by exact H1. unfold keys. rewrite <- map_app. exact Hn.
  - destruct (in_dec string_dec k (keys r2)) as [H2 | H2].
    + exists r1, (dict_set k v r2).
      assert (E : dict_set k v (r1 ++ r2) = r1 ++ dict_set k v r2).
      { clear - H1. induction r1 as [| [k' v'] r1 IH]; cbn in *; [reflexivity |].
        destruct (String.eqb_spec k k') as [-> | Hne].
        - exfalso. apply H1. now left.
        - f_equal. apply IH. intros H. apply H1. now right. }
      rewrite E. split; [reflexivity |]. split; [exact Hk |].
      unfold keys in *. rewrite map_app. fold (keys (dict_set k v r2)).
      rewrite keys_set_in by exact H2. unfold keys. rewrite <- map_app. exact Hn.
    + exists r1, (r2 ++ [(k, v)]).
      rewrite dict_set_new.
      * split; [now rewrite <- app_assoc |]. split; [exact Hk |].
        unfold keys in *. rewrite !map_app in *. cbn.
        apply NoDup_snoc; [exact Hn |].
        intros Hin. apply in_app_or in Hin. tauto.
      * unfold keys in *. rewrite map_app. intros Hin. apply in_app_or in Hin. tauto.
Qed.

Lemma over_update d : forall e r, over d r -> over d (dict_update r e).
Proof.
  unfold dict_update. induction e as [| [k v] e IH]; intros r H; cbn [fold_left].
  - exact H.
  - apply IH, over_set, H.
Qed.

(** Updating a dict with a dict that already extends it gives the latter. *)
Lemma dict_update_idem d r : over d r -> dict_update d r = r.
Proof.
  intros (r1 & r2 & -> & Hk & Hn).
  assert (E1 : dict_update d r1 = r1).
  { apply (dict_update_over [] d r1); [now symmetry |].
    cbn. unfold keys in Hn. rewrite map_app in Hn.
    apply NoDup_app_remove_r in Hn. exact Hn. }
  unfold dict_update in *. rewrite fold_left_app, E1.
  apply dict_update_new. unfold keys in *. now rewrite <- map_app.
Qed.

Lemma HEADERS_NoDup : NoDup (keys HEADERS).
Proof.
  cbn. repeat (constructor; [cbn; intuition discriminate |]). constructor.
Qed.

(** X1. [get_auth_headers token] is a copy of [HEADERS] with two entries
    added after the others: [authorization], the token behind ['Bearer '],
    and [lang], ['en']; every other key reads as it does in [HEADERS]. *)
Theorem get_auth_headers_extends token :
  dict_get "authorization" (get_auth_headers token) = Some (JStr ("Bearer " ++ token))
  /\ dict_get "lang" (get_auth_headers token) = Some (JStr "en")
  /\ (forall k, k <> "authorization"%string -> k <> "lang"%string ->
        dict_get k (get_auth_headers token) = dict_get k HEADERS)
  /\ keys (get_auth_headers token) = keys HEADERS ++ ["authorization"; "lang"]%string.
Proof.
  unfold get_auth_headers. split; [| split; [| split]].
  - rewrite dict_get_set_other by discriminate. apply dict_get_set_same.
  - apply dict_get_set_same.
  - intros k H1 H2. rewrite !dict_get_set_other by assumption. reflexivity.
  - reflexivity.
Qed.

Lemma base_NoDup (tok : json) :
  NoDup (keys (if truthy tok then dict_set "token" tok HEADERS else HEADERS)).
Proof.
  destruct (truthy tok); [| exact HEADERS_NoDup].
  rewrite dict_set_new by (cbn; intuition discriminate).
  unfold keys. rewrite map_app. apply NoDup_snoc; [exact HEADERS_NoDup |].
  cbn; intuition discriminate.
Qed.

Lemma dict_get_update_other k : forall h d,
  ~ In k (keys h) -> dict_get k (dict_update d h) = dict_get k d.
Proof.
  unfold dict_update. induction h as [| [k1 v1] h IH]; intros d Hn; cbn [fold_left fst snd].
  - reflexivity.
  - rewrite IH by (intros H; apply Hn; now right).
    apply dict_get_set_other. intros ->. apply Hn. now left.
Qed.

(** An entry of [e] is an entry of [d.update(e)]. *)
Lemma dict_get_update k v : forall h d,
  NoDup (keys h) -> dict_get k h = Some v -> dict_get k (dict_update d h) = Some v.
Proof.
  induction h as [| [k1 v1] h IH]; intros d Hn Hg; [discriminate |].
  cbn in Hg, Hn. apply NoDup_cons_iff in Hn. destruct Hn as [Hn1 Hn2].
  change (dict_update d ((k1, v1) :: h)) with (dict_update (dict_set k1 v1 d) h).
  destruct (String.eqb_spec k k1) as [-> | Hne].
  - injection Hg as ->. rewrite dict_get_update_other by exact Hn1.
    apply dict_get_set_same.
  - apply IH; assumption.
Qed.

Lemma headers_of_app t t' : headers_of (t ++ t') = headers_of t ++ headers_of t'.
Proof. unfold headers_of. apply flat_map_app. Qed.

Lemma request_attempts_same_headers todo : forall attempt m u H w s,
  over (if truthy (_access_token s) then dict_set "token" (_access_token s) HEADERS
        else HEADERS) H ->
  Forall (fun h => h = H)
         (headers_of (tr (request_attempts todo attempt m u (Some H) w s))).
Proof.
  induction todo as [| todo IH]; intros attempt m u H w s Ho.
  - constructor.
  - rewrite request_attempts_step. cbv zeta.
    rewrite (dict_update_idem _ _ Ho).
    destruct (attempt_raises _).
    + destruct (attempt <? max_retries - 1).
      * cbn [tr headers_of flat_map app]. constructor; [reflexivity |].
        apply IH. exact Ho.
      * repeat constructor.
    + repeat constructor.
Qed.

(** X2. Every attempt of one [make_request] sends the same headers:
    [HEADERS], with [token] when the session holds a truthy access token,
    updated by the headers the caller passes.  With a transport at least
    one attempt is made; an entry the caller passes wins over the default
    under the same key, and passing [HEADERS] itself changes nothing. *)
Theorem make_request_headers w s method url body kw :
  let base := if truthy (_access_token s)
              then dict_set "token" (_access_token s) HEADERS else HEADERS in
  let sent := match kw with Some h => dict_update base h | None => base end in
  let out := make_request method url body kw w s in
  Forall (fun h => h = sent) (headers_of (tr out))
  /\ (_http_client s = true -> headers_of (tr out) <> [])
  /\ (forall k v h, kw = Some h -> dict_get k h = Some v -> NoDup (keys h) ->
        dict_get k sent = Some v)
  /\ (kw = Some HEADERS -> sent = base).
Proof.
  cbv zeta.
  set (base := if truthy (_access_token s)
               then dict_set "token" (_access_token s) HEADERS else HEADERS).
  set (sent := match kw with Some h => dict_update base h | None => base end).
  assert (Hb : over base base) by (apply over_refl, base_NoDup).
  assert (Hs : over base sent).
  { subst sent. destruct kw as [h |]; [apply over_update |]; exact Hb. }
  split; [| split; [| split]].
  - unfold make_request. rewrite bind_emit, bind_get.
    cbn [tr headers_of flat_map app].
    destruct (_http_client s); cbn [negb]; [| constructor].
    change (Z.to_nat max_retries) with 3%nat.
    rewrite request_attempts_step. cbv zeta. fold base. fold sent.
    destruct (attempt_raises _).
    + change (0 <? max_retries - 1) with true. cbv iota.
      cbn [tr headers_of flat_map app]. constructor; [reflexivity |].
      apply request_attempts_same_headers. exact Hs.
    + repeat constructor.
  - intros Hc. unfold make_request. rewrite bind_emit, bind_get.
    cbn [tr headers_of flat_map app]. rewrite Hc. cbn [negb].
    change (Z.to_nat max_retries) with 3%nat.
    rewrite request_attempts_step. cbv zeta.
    destruct (attempt_raises _); [destruct (0 <? max_retries - 1) |]; discriminate.
  - intros k v h -> Hg Hn. subst sent. apply dict_get_update; assumption.
  - intros ->. subst sent base. destruct (truthy (_access_token s)); reflexivity.
Qed.

(** * Exceptions *)

Section RaisesOnly.
Context {P : exn -> Prop}.

Lemma ro_ret {A} (a : A) : raises_only P (ret a).
Proof. intros w s e H. discriminate H. Qed.

Lemma ro_raise {A} e : P e -> raises_only P (@raise A e).
Proof. intros Hp w s e' H. injection H as <-. exact Hp. Qed.

Lemma ro_must {A} (o : option A) : P PyError -> raises_only P (must o).
Proof. intros Hp. destruct o; [apply ro_ret | apply ro_raise, Hp]. Qed.

Lemma ro_bind {A B} (m : M A) (f : A -> M B) :
  raises_only P m -> (forall a, raises_only P (f a)) -> raises_only P (bind m f).
Proof.
  intros Hm Hf w s e H. destruct (res (m w s)) as [a | e'] eqn:E.
  - rewrite (bind_run_ret m f w s a E) in H. exact (Hf a w _ e H).
  - rewrite (bind_run_raise m f w s e' E) in H. injection H as <-.
    exact (Hm w s e' E).
Qed.

Lemma ro_try {A} (Q : exn -> Prop) (m : M A) (h : exn -> M A) :
  raises_only Q m -> (forall e, Q e -> raises_only P (h e)) ->
  raises_only P (try_except m h).
Proof.
  intros Hm Hh w s e H. destruct (res (m w s)) as [a | e'] eqn:E.
  - rewrite (try_run_ret m h w s a E) in H. congruence.
  - rewrite (try_run_raise m h w s e' E) in H.
    exact (Hh e' (Hm w s e' E) w _ e H).
Qed.

Lemma ro_try_any {A} (m : M A) (h : exn -> M A) :
  (forall e, raises_only P (h e)) -> raises_only P (try_except m h).
Proof.
  intros Hh. apply (ro_try (fun _ => True)); [intros w s e _; exact I | auto].
Qed.

Lemma ro_total {A} (m : M A) : total m -> raises_only P m.
Proof. intros H w s e He. destruct (H w s) as [a Ha]. congruence. Qed.

Lemma ro_get : raises_only P get.
Proof. intros w s e H. discriminate H. Qed.

Lemma ro_ask : raises_only P ask.
Proof. intros w s e H. discriminate H. Qed.

Lemma ro_modify f : raises_only P (modify f).
Proof. intros w s e H. discriminate H. Qed.

Lemma ro_emit ev : raises_only P (emit ev).
Proof. intros w s e H. discriminate H. Qed.

Lemma ro_sleep d : raises_only P (sleep d).
Proof. intros w s e H. discriminate H. Qed.

Lemma ro_randint a b : P PyError -> raises_only P (randint a b).
Proof.
  intros Hp w s e H. unfold randint in H. destruct (b <? a); [| discriminate H].
  injection H as <-. exact Hp.
Qed.

Lemma ro_http_attempt m u : raises_only P (http_attempt m u).
Proof. intros w s e H. discriminate H. Qed.

Lemma ro_request_attempts todo : forall attempt m u h,
  raises_only P (request_attempts todo attempt m u h).
Proof.
  induction todo as [| todo IH]; intros attempt m u h w s e H.
  - discriminate H.
  - rewrite request_attempts_step in H. cbv zeta in H.
    destruct (attempt_raises _); [| discriminate H].
    destruct (attempt <? max_retries - 1); [| discriminate H].
    cbn [res] in H. exact (IH _ _ _ _ _ _ _ H).
Qed.

Lemma ro_make_request m u b h : P InvalidSession -> raises_only P (make_request m u b h).
Proof.
  intros Hp. unfold make_request.
  apply ro_bind; [apply ro_emit |]. intros _.
  apply ro_bind; [apply ro_get |]. intros s0.
  destruct (negb (_http_client s0)); [apply ro_raise, Hp | apply ro_request_attempts].
Qed.

Lemma ro_for_each {A} (l : list A) (body : A -> M loop_ctl) :
  (forall x, raises_only P (body x)) -> raises_only P (for_each l body).
Proof.
  intros Hb. induction l as [| x l IH]; cbn [for_each].
  - apply ro_ret.
  - apply ro_bind; [apply Hb |]. intros []; [exact IH | apply ro_ret].
Qed.
End RaisesOnly.

(** One step of a proof of [raises_only]. *)
Ltac ro_side :=
  first [ exact I | reflexivity | discriminate | assumption
        | unfold plain in *; congruence ].

Ltac ro_step :=
  cbv beta zeta;
  lazymatch goal with
  | |- raises_only _ (bind _ _) => apply ro_bind; [ | intros ? ]
  | |- raises_only _ (try_except _ (give_back _)) =>
      apply ro_try_any; intros ?; unfold give_back
  | |- raises_only _ (try_except _ (give_back_unless_limited _)) =>
      apply (ro_try plain); [ | intros ? ?; unfold give_back_unless_limited ]
  | |- raises_only ?P (try_except _ _) =>
      first [ apply ro_try_any; intros ?;
              solve [ repeat first [ apply ro_ret | apply ro_sleep
                                   | apply ro_raise; ro_side ] ]
            | apply (ro_try P); [ | intros ? ? ] ]
  | |- raises_only _ (ret _) => apply ro_ret
  | |- raises_only _ (raise _) => apply ro_raise; ro_side
  | |- raises_only _ (must _) => apply ro_must; ro_side
  | |- raises_only _ get => apply ro_get
  | |- raises_only _ ask => apply ro_ask
  | |- raises_only _ (modify _) => apply ro_modify
  | |- raises_only _ (emit _) => apply ro_emit
  | |- raises_only _ (sleep _) => apply ro_sleep
  | |- raises_only _ (randint _ _) => apply ro_randint; ro_side
  | |- raises_only _ (make_request _ _ _ _) => apply ro_make_request; ro_side
  | |- raises_only _ (for_each _ _) => apply ro_for_each; intros ?
  | |- raises_only _ (match ?x with _ => _ end) => destruct x eqn:?; try solve [exfalso; ro_side]
  | |- raises_only _ ?m => let hd := head_of m in unfold hd
  end.

Ltac ro_auto := repeat ro_step.

Lemma never_total {A} (m : M A) : raises_only (fun _ => False) m -> total m.
Proof.
  intros H w s. destruct (res (m w s)) as [a | e] eqn:E; [eauto |].
  destruct (H w s e E).
Qed.

Lemma get_game_data_total : total get_game_data.
Proof. apply never_total. ro_auto. Qed.

Lemma ro_mission_attempts (P : exn -> Prop) todo : forall attempt mission_id,
  P InvalidSession -> P PyError ->
  raises_only P (mission_attempts todo attempt mission_id).
Proof.
  induction todo as [| todo IH]; intros attempt mission_id H1 H2.
  - apply ro_ret.
  - cbn [mission_attempts].
    repeat first
      [ apply IH; assumption
      | apply ro_ret | apply ro_sleep | apply ro_must; assumption
      | apply ro_make_request; assumption
      | apply ro_bind; [ | intros ? ]
      | match goal with
        | |- raises_only _ (match ?x with _ => _ end) => destruct x
        | |- raises_only _ (has_data _) => unfold has_data
        end ].
Qed.

(** The three fetchers that pass [TooManyRequestsError] on never raise. *)
Lemma get_profile_data_total : total get_profile_data.
Proof. apply never_total. ro_auto. Qed.

Lemma get_boosts_info_total : total get_boosts_info.
Proof. apply never_total. ro_auto. Qed.

Lemma process_daily_mission_total mission_id : total (process_daily_mission mission_id).
Proof. apply total_try. intros e. apply total_give_back. Qed.

Lemma poll_raises : raises_only (eq PyError) poll.
Proof. ro_auto. Qed.

(** A bind that raises: its first part raised, or returned and the rest
    raised. *)
Lemma bind_raise_inv {A B} (m : M A) (f : A -> M B) w s e :
  res (bind m f w s) = Raise e ->
  res (m w s) = Raise e
  \/ exists a, res (m w s) = Ret a /\ res (f a w (st (m w s))) = Raise e.
Proof.
  intros H. destruct (res (m w s)) as [a | e'] eqn:E.
  - rewrite (bind_run_ret m f w s a E) in H. cbn in H. right. exists a. auto.
  - rewrite (bind_run_raise m f w s e' E) in H. cbn in H. injection H as <-.
    left. reflexivity.
Qed.

Lemma try_raise_inv {A} (m : M A) (h : exn -> M A) w s e :
  res (try_except m h w s) = Raise e ->
  exists e', res (m w s) = Raise e' /\ res (h e' w (st (m w s))) = Raise e.
Proof.
  intros H. destruct (res (m w s)) as [a | e'] eqn:E.
  - rewrite (try_run_ret m h w s a E) in H. congruence.
  - rewrite (try_run_raise m h w s e' E) in H. cbn in H. exists e'. auto.
Qed.

Lemma get_tg_web_data_raises : raises_only (eq InvalidSession) get_tg_web_data.
Proof. ro_auto. Qed.

Lemma login_raises d : raises_only (eq InvalidSession) (login d).
Proof. ro_auto. Qed.

(** What an iteration does after the poll or the refresh raised. *)
Lemma iteration_raise_inv w s e :
  res (iteration w s) = Raise e ->
  e = InvalidSession
  /\ res ((refreshed <- (if token_stale s then auth_refresh else ret Proceed) ;;
           match refreshed with Next => ret tt | Proceed => poll end) w s)
     = Raise InvalidSession.
Proof.
  intros H. unfold iteration in H.
  apply try_raise_inv in H. destruct H as (e' & Hb & Hh).
  rewrite bind_get in Hb.
  destruct e'; cbn in Hh; try discriminate Hh. injection Hh as <-. auto.
Qed.

(** X3. The only exception an iteration of the loop lets out is
    [InvalidSession], and only out of a re-authentication: the token was
    stale and the identity look-up or the login raised it.  With a fresh
    token the iteration returns, so [process_bot_logic] can only end by
    [InvalidSession]. *)
Theorem only_authentication_is_fatal w s :
  (forall e, res (iteration w s) = Raise e ->
     e = InvalidSession
     /\ token_stale s = true
     /\ (res (get_tg_web_data w s) = Raise InvalidSession
         \/ exists d, res (get_tg_web_data w s) = Ret d
                      /\ res (login d w (st (get_tg_web_data w s)))
                         = Raise InvalidSession))
  /\ (token_stale s = false -> res (iteration w s) = Ret tt)
  /\ (forall n e, res (process_bot_logic n w s) = Raise e -> e = InvalidSession).
Proof.
  assert (A : forall e, res (iteration w s) = Raise e ->
     e = InvalidSession
     /\ token_stale s = true
     /\ (res (get_tg_web_data w s) = Raise InvalidSession
         \/ exists d, res (get_tg_web_data w s) = Ret d
                      /\ res (login d w (st (get_tg_web_data w s)))
                         = Raise InvalidSession)).
  { intros e H. destruct (iteration_raise_inv w s e H) as [-> Hb]. clear H.
    split; [reflexivity |].
    destruct (token_stale s).
    - split; [reflexivity |].
      apply bind_raise_inv in Hb. destruct Hb as [Ea | (f & _ & Hp)].
      + unfold auth_refresh in Ea.
        apply bind_raise_inv in Ea. destruct Ea as [Eg | (d & Eg & Ea)].
        * left. exact Eg.
        * right. exists d. split; [exact Eg |].
          apply bind_raise_inv in Ea. destruct Ea as [El | (token & _ & Ea)].
          -- exact El.
          -- exfalso.
             match type of Ea with
             | res (?k ?w0 ?s0) = _ =>
                 assert (Hk : raises_only (eq PyError) k) by ro_auto;
                 discriminate (Hk _ _ _ Ea)
             end.
      + destruct f; [discriminate Hp | discriminate (poll_raises _ _ _ Hp)].
    - rewrite bind_ret in Hb. discriminate (poll_raises _ _ _ Hb). }
  split; [exact A |]. split.
  - intros Hs. specialize (A). revert A.
    destruct (res (iteration w s)) as [[] | e]; [reflexivity |].
    intros A. destruct (A e eq_refl) as (_ & Hs' & _). congruence.
  - intros n e. unfold process_bot_logic. rewrite !bind_modify.
    generalize (set_balance (JNum 0) (set_active_turbo false (set_created_time 0 s))).
    induction n as [| n IH]; intros s0 H; cbn [iterations] in H.
    + discriminate H.
    + apply bind_raise_inv in H. destruct H as [H | ([] & _ & H)].
      * destruct (iteration_raise_inv w s0 e H) as [-> _]. reflexivity.
      * exact (IH _ H).
Qed.

(** * Login *)

#[local] Instance frame_token_is v :
  Frame (keeps (fun s => _access_token s = v) (fun _ => true)).
Proof. apply keeps_frame; intros; auto. Qed.

Lemma make_request_keeps_token m u b h w s :
  _access_token (st (make_request m u b h w s)) = _access_token s.
Proof.
  assert (H : triple (keeps (fun s0 => _access_token s0 = _access_token s) (fun _ => true))
                     (keeps (fun s0 => _access_token s0 = _access_token s) (fun _ => true))
                     (make_request m u b h) w s) by (inv_auto keeps_side).
  destruct (H [] (conj eq_refl (Forall_nil _))) as [H1 _]. exact H1.
Qed.

(** X4. [login] returns a token only for an answer with code 0 and a
    [data.token]; it stores that token and adds nothing to the trace of its
    one request.  In every other case it raises [InvalidSession], after a
    sleep of 3 seconds, and leaves the stored token as it was.  An answer
    that is a dict with code 0 and a token in a dict [data] makes it
    return. *)
Theorem login_outcome d w s :
  let reply := make_request "POST" login_url
                 (Some (JObj [("code"%string, JStr d)])) (Some HEADERS) w s in
  let out := login d w s in
  (forall token, res out = Ret token ->
     _access_token (st out) = token
     /\ tr out = tr reply
     /\ exists response code data,
          res reply = Ret response
          /\ py_get response "code" JNull = Some code /\ py_eq_int code 0 = true
          /\ py_getitem response "data" = Some data
          /\ py_getitem data "token" = Some token)
  /\ (forall e, res out = Raise e ->
        e = InvalidSession
        /\ _access_token (st out) = _access_token s
        /\ tr out = tr reply ++ [Sleep 3])
  /\ (forall kv dkv code token,
        res reply = Ret (JObj kv) ->
        dict_get "code" kv = Some code -> py_eq_int code 0 = true ->
        dict_get "data" kv = Some (JObj dkv) -> dict_get "token" dkv = Some token ->
        res out = Ret token).
Proof.
  cbv zeta. unfold login. fold login_url.
  set (reply := make_request "POST" login_url
                  (Some (JObj [("code"%string, JStr d)])) (Some HEADERS)).
  assert (Hk := make_request_keeps_token "POST" login_url
                  (Some (JObj [("code"%string, JStr d)])) (Some HEADERS) w s).
  fold reply in Hk.
  match goal with
  | |- context [try_except (bind reply ?k) ?h] => set (K := k); set (H := h)
  end.
  (* what the checks of the response do *)
  assert (HK : forall response s1 o, K response w s1 = o ->
             (exists token code data,
                o = mkOut (Ret token) (set_access_token token s1) []
                /\ py_get response "code" JNull = Some code /\ py_eq_int code 0 = true
                /\ py_getitem response "data" = Some data
                /\ py_getitem data "token" = Some token)
             \/ (exists e, o = mkOut (Raise e) s1 [])).
  { intros response s1 o Ho. subst K. cbv beta in Ho.
    destruct (truthy response); cbn [negb] in Ho;
      [| right; eexists; rewrite <- Ho; reflexivity].
    destruct (py_get response "code" JNull) as [code |] eqn:Ec; cbn [must] in Ho;
      [rewrite bind_ret in Ho | right; eexists; rewrite <- Ho; reflexivity].
    destruct (py_eq_int code 0) eqn:E0; cbn [negb] in Ho.
    2:{ right. destruct (py_get response "message" (JStr "unknown error"));
          cbn [must] in Ho; eexists; rewrite <- Ho; reflexivity. }
    destruct (py_in "data" response) as [[] |]; cbn [must negb] in Ho;
      [ rewrite bind_ret in Ho
      | right; eexists; rewrite <- Ho; reflexivity
      | right; eexists; rewrite <- Ho; reflexivity ].
    cbn [negb] in Ho.
    destruct (py_getitem response "data") as [data |] eqn:Ed; cbn [must] in Ho;
      [rewrite bind_ret in Ho | right; eexists; rewrite <- Ho; reflexivity].
    destruct (py_in "token" data) as [[] |]; cbn [must negb] in Ho;
      [ rewrite bind_ret in Ho
      | right; eexists; rewrite <- Ho; reflexivity
      | right; eexists; rewrite <- Ho; reflexivity ].
    cbn [negb] in Ho.
    destruct (py_getitem data "token") as [token |] eqn:Et; cbn [must] in Ho;
      [rewrite bind_ret in Ho | right; eexists; rewrite <- Ho; reflexivity].
    left. exists token, code, data. rewrite <- Ho. repeat split; auto. }
  destruct (res (reply w s)) as [response | e0] eqn:Er.
  - destruct (HK response (st (reply w s)) _ eq_refl)
      as [(token & code & data & EK & Hc & H0 & Hd & Ht) | [e EK]].
    + assert (Eb : bind reply K w s
                   = mkOut (Ret token) (set_access_token token (st (reply w s)))
                           (tr (reply w s))).
      { rewrite (bind_run_ret reply K w s response Er), EK. cbn [res st tr].
        now rewrite app_nil_r. }
      rewrite (try_run_ret (bind reply K) H w s token) by (rewrite Eb; reflexivity).
      rewrite Eb. cbn [res st tr]. split; [| split].
      * intros token' Heq. injection Heq as <-. split; [reflexivity |].
        split; [reflexivity |]. exists response, code, data. auto.
      * intros e Heq. discriminate Heq.
      * intros kv dkv code' token' Hrr Hc' H0' Hd' Ht'. injection Hrr as ->.
        cbn in Hd, Hd'. rewrite Hd' in Hd. injection Hd as <-.
        cbn in Ht. rewrite Ht' in Ht. now injection Ht as <-.
    + assert (Eb : bind reply K w s = mkOut (Raise e) (st (reply w s)) (tr (reply w s))).
      { rewrite (bind_run_ret reply K w s response Er), EK. cbn [res st tr].
        now rewrite app_nil_r. }
      rewrite (try_run_raise (bind reply K) H w s e) by (rewrite Eb; reflexivity).
      rewrite Eb. subst H. cbn [res st tr]. rewrite bind_sleep. cbn [res st tr raise].
      split; [| split].
      * intros token Heq. discriminate Heq.
      * intros e' Heq. injection Heq as <-. auto.
      * intros kv dkv code token Hrr Hc H0 Hd Ht. exfalso. injection Hrr as ->.
        revert EK. subst K. cbv beta. cbn [truthy].
        destruct kv as [| p kv]; [discriminate Hc |]. cbn [negb].
        cbn [py_get]. rewrite Hc. cbn [must]. rewrite bind_ret, H0. cbn [negb py_in].
        rewrite Hd. cbn [must]. rewrite bind_ret. cbn [negb py_getitem]. rewrite Hd.
        cbn [must]. rewrite bind_ret. cbn [py_in]. rewrite Ht. cbn [must].
        rewrite bind_ret. cbn [negb py_getitem]. rewrite Ht. cbn [must].
        rewrite bind_ret, bind_modify. discriminate.
  - assert (Eb : bind reply K w s = mkOut (Raise e0) (st (reply w s)) (tr (reply w s)))
      by (apply bind_run_raise; exact Er).
    rewrite (try_run_raise (bind reply K) H w s e0) by (rewrite Eb; reflexivity).
    rewrite Eb. subst H. cbn [res st tr]. rewrite bind_sleep. cbn [res st tr raise].
    split; [| split].
    + intros token Heq. discriminate Heq.
    + intros e' Heq. injection Heq as <-. auto.
    + intros kv dkv code token Hrr. discriminate Hrr.
Qed.

(** * Strings *)

Lemma append_nil_r (s : string) : (s ++ EmptyString)%string = s.
Proof. induction s as [| c s IH]; cbn; [reflexivity | now rewrite IH]. Qed.

Lemma append_assoc (a b c : string) : ((a ++ b) ++ c)%string = (a ++ b ++ c)%string.
Proof. induction a as [| x a IH]; cbn; [reflexivity | now rewrite IH]. Qed.

Lemma length_append (a b : string) :
  String.length (a ++ b) = (String.length a + String.length b)%nat.
Proof. induction a as [| x a IH]; cbn; [reflexivity | now rewrite IH]. Qed.

Lemma prefix_append (p s : string) : String.prefix p (p ++ s) = true.
Proof.
  induction p as [| c p IH]; cbn.
  - destruct s; reflexivity.
  - destruct (ascii_dec c c); [exact IH | contradiction].
Qed.

(** Whether [p] is a prefix is decided by the first [length p] characters. *)
Lemma prefix_app_long (p : string) : forall u v,
  (String.length p <= String.length u)%nat ->
  String.prefix p (u ++ v) = String.prefix p u.
Proof.
  induction p as [| c p IH]; intros u v H.
  - destruct u; cbn; destruct v; reflexivity.
  - destruct u as [| b u]; cbn in H; [lia |]. cbn.
    destruct (ascii_dec c b); [apply IH; lia | reflexivity].
Qed.

Lemma index_cons_none sep b s :
  String.index 0 sep (String b s) = None ->
  String.prefix sep (String b s) = false /\ String.index 0 sep s = None.
Proof.
  cbn [String.index]. destruct (String.prefix sep (String b s)); [discriminate |].
  destruct (String.index 0 sep s); [discriminate | auto].
Qed.

Lemma prefix_index sep s : String.prefix sep s = true -> String.index 0 sep s = Some 0%nat.
Proof.
  destruct s as [| b s]; cbn [String.index].
  - destruct sep; [reflexivity | discriminate].
  - intros ->. reflexivity.
Qed.

(** A longer needle occurs only where its tail occurs. *)
Lemma index_none_cons c sep : forall s,
  String.index 0 sep s = None -> String.index 0 (String c sep) s = None.
Proof.
  induction s as [| b s IH]; intros H.
  - reflexivity.
  - apply index_cons_none in H. destruct H as [Hp Hi].
    cbn [String.index]. rewrite (IH Hi).
    replace (String.prefix (String c sep) (String b s)) with false; [reflexivity |].
    symmetry. cbn. destruct (ascii_dec c b); [| reflexivity].
    destruct (String.prefix sep s) eqn:E; [| reflexivity].
    apply prefix_index in E. congruence.
Qed.

(** No separator, one piece. *)
Lemma split_go_none sep : forall s cur,
  String.index 0 sep s = None -> split_go sep 0 cur s = [(cur ++ s)%string].
Proof.
  induction s as [| b s IH]; intros cur H.
  - cbn. now rewrite append_nil_r.
  - apply index_cons_none in H. destruct H as [Hp Hi].
    cbn [split_go]. rewrite Hp, (IH _ Hi), append_assoc. reflexivity.
Qed.

Lemma split_none sep s : contains sep s = false -> split sep s = [s].
Proof.
  unfold contains, split. destruct (String.index 0 sep s) eqn:E; [discriminate |].
  intros _. now rewrite (split_go_none sep s EmptyString E).
Qed.

Lemma replace_none old new s : contains old s = false -> replace old new s = s.
Proof. intros H. unfold replace. now rewrite (split_none old s H). Qed.

(** Dropping the rest of a separator. *)
Lemma split_go_skip sep : forall x cur s,
  split_go sep (String.length x) cur (x ++ s) = split_go sep 0 cur s.
Proof.
  induction x as [| b x IH]; intros cur s.
  - reflexivity.
  - cbn [String.length append split_go]. apply IH.
Qed.

Lemma split_go_hit sep y cur :
  sep <> EmptyString ->
  split_go sep 0 cur (sep ++ y) = cur :: split_go sep 0 EmptyString y.
Proof.
  intros Hne. assert (Hp := prefix_append sep y).
  destruct sep as [| a rest]; [contradiction |].
  cbn [append split_go]. cbn [append] in Hp. rewrite Hp.
  cbn [String.length]. rewrite Nat.sub_succ, Nat.sub_0_r.
  now rewrite split_go_skip.
Qed.

(** The pieces around the first separator [p ++ c]: it does not start
    earlier when it does not occur in [x ++ p]. *)
Lemma split_go_first p c y : forall x cur,
  String.index 0 (p ++ String c EmptyString) (x ++ p) = None ->
  split_go (p ++ String c EmptyString) 0 cur (x ++ (p ++ String c EmptyString) ++ y)
  = (cur ++ x)%string :: split_go (p ++ String c EmptyString) 0 EmptyString y.
Proof.
  set (sep := (p ++ String c EmptyString)%string).
  assert (Hne : sep <> EmptyString) by (subst sep; destruct p; discriminate).
  induction x as [| b x IH]; intros cur H.
  - cbn [append]. rewrite append_nil_r. apply split_go_hit, Hne.
  - cbn [append] in H. apply index_cons_none in H. destruct H as [Hp Hi].
    cbn [append split_go].
    assert (E : String.prefix sep (String b (x ++ sep ++ y)) = false).
    { rewrite <- Hp. subst sep.
      change (String b (x ++ (p ++ String c EmptyString) ++ y))
        with (String b x ++ (p ++ String c EmptyString) ++ y)%string.
      change (String b (x ++ p)) with (String b x ++ p)%string.
      rewrite (append_assoc p), <- (append_assoc (String b x) p).
      apply prefix_app_long. rewrite !length_append. cbn. lia. }
    rewrite E, (IH _ Hi), append_assoc. reflexivity.
Qed.

Lemma split_first p c x y :
  contains (p ++ String c EmptyString) (x ++ p) = false ->
  split (p ++ String c EmptyString) (x ++ (p ++ String c EmptyString) ++ y)
  = x :: split (p ++ String c EmptyString) y.
Proof.
  unfold contains, split.
  destruct (String.index 0 (p ++ String c EmptyString) (x ++ p)) eqn:E; [discriminate |].
  intros _. now rewrite (split_go_first p c y x EmptyString E).
Qed.

Lemma split_go_nonempty sep : forall s skip cur, split_go sep skip cur s <> [].
Proof.
  induction s as [| b s IH]; intros skip cur; cbn [split_go]; [discriminate |].
  destruct skip; [| apply IH].
  destruct (String.prefix sep (String b s)); [discriminate | apply IH].
Qed.

(** [s.split(sep)[0]] is always there. *)
Lemma split_head sep s : exists a l, split sep s = a :: l.
Proof.
  unfold split. destruct (split_go sep 0 EmptyString s) as [| a l] eqn:E.
  - destruct (split_go_nonempty sep s 0%nat EmptyString E).
  - eauto.
Qed.

(** [s.split(sep)[1]] is there when [sep] occurs in [s]. *)
Lemma split_go_second sep : forall s cur,
  String.index 0 sep s <> None ->
  sep <> EmptyString ->
  exists a b l, split_go sep 0 cur s = a :: b :: l.
Proof.
  induction s as [| b s IH]; intros cur H Hne.
  - cbn in H. destruct sep; contradiction.
  - cbn [String.index] in H. cbn [split_go].
    destruct (String.prefix sep (String b s)) eqn:Ep.
    + destruct (split_go sep (String.length sep - 1) EmptyString s) as [| x l] eqn:E.
      * destruct (split_go_nonempty _ _ _ _ E).
      * eauto.
    + apply IH; [| exact Hne].
      destruct (String.index 0 sep s); [discriminate | contradiction].
Qed.

Lemma split_second sep s :
  contains sep s = true -> sep <> EmptyString ->
  exists a b l, split sep s = a :: b :: l.
Proof.
  unfold contains, split. intros H Hne. apply split_go_second; [| exact Hne].
  destruct (String.index 0 sep s); [discriminate | discriminate H].
Qed.

(** * The launch payload *)

Lemma try_raise_run {A} (m : M A) e' w s :
  try_except m (fun _ => raise e') w s =
  match res (m w s) with
  | Ret _ => m w s
  | Raise _ => mkOut (Raise e') (st (m w s)) (tr (m w s))
  end.
Proof.
  destruct (res (m w s)) as [a | e] eqn:E.
  - apply (try_run_ret m _ w s a E).
  - rewrite (try_run_raise m _ w s e E). cbn. now rewrite app_nil_r.
Qed.

Lemma get_ref_id_sets w s :
  exists r s', get_ref_id w s = mkOut (Ret r) s' []
               /\ _current_ref_id s' = Some r
               /\ webview_cursor s' = webview_cursor s
               /\ _init_data s' = _init_data s.
Proof.
  destruct (_current_ref_id s) as [r |] eqn:E.
  - rewrite (get_ref_id_again w s r E). eauto 6.
  - rewrite (get_ref_id_first w s E). eauto 6.
Qed.

(** What [get_tg_web_data] does after the referral id is known: one
    look-up, then the payload is stored and returned, or the session is
    declared invalid. *)
Lemma get_tg_web_data_cases w s ref s1 :
  get_ref_id w s = mkOut (Ret ref) s1 [] ->
  let s2 := set_webview_cursor (S (webview_cursor s1)) s1 in
  get_tg_web_data w s = mkOut (Raise InvalidSession) s2 [WebView ref]
  \/ exists dd, get_tg_web_data w s
                = mkOut (Ret dd) (set_init_data (Some dd) s2) [WebView ref].
Proof.
  intros Href. cbv zeta. unfold get_tg_web_data. rewrite try_raise_run.
  match goal with
  | |- context [bind get_ref_id ?f w s] =>
      rewrite (bind_eq get_ref_id f w s ref s1 [] Href)
  end.
  cbn [app]. rewrite bind_emit, bind_get, bind_ask, bind_modify.
  cbn [res st tr].
  set (s2 := set_webview_cursor (S (webview_cursor s1)) s1).
  match goal with
  | |- context [res (?m w s2)] =>
      assert (Hm : (exists e, m w s2 = mkOut (Raise e) s2 [])
                   \/ (exists dd, m w s2 = mkOut (Ret dd) (set_init_data (Some dd) s2) []));
      [ | destruct Hm as [[e Hm] | [dd Hm]]; rewrite Hm; cbn [res st tr];
          [left; reflexivity | right; exists dd; reflexivity] ]
  end.
  destruct (get_app_webview_url w (webview_cursor s1) ref) as [url |];
    [| left; eexists; reflexivity].
  destruct (String.eqb url EmptyString); [left; eexists; reflexivity |].
  cbv zeta.
  match goal with
  | |- context [must (nth_error ?l 1)] => destruct (nth_error l 1) as [tail |]
  end; cbn [must]; [rewrite bind_ret | left; eexists; reflexivity].
  match goal with
  | |- context [must (nth_error ?l 0)] => destruct (nth_error l 0) as [enc |]
  end; cbn [must]; [rewrite bind_ret | left; eexists; reflexivity].
  cbv zeta.
  destruct (contains "start_param" (unquote w (unquote w enc))).
  - match goal with
    | |- context [must (nth_error ?l 1)] => destruct (nth_error l 1) as [tl |]
    end; cbn [must]; [| left; eexists; reflexivity].
    rewrite bind_assoc, bind_ret.
    match goal with
    | |- context [must (nth_error ?l 0)] => destruct (nth_error l 0) as [x |]
    end; cbn [must]; [| left; eexists; reflexivity].
    rewrite bind_assoc, bind_ret, bind_ret, bind_modify. right. eexists. reflexivity.
  - rewrite bind_ret, bind_modify. right. eexists. reflexivity.
Qed.

(** X6. [get_tg_web_data] asks for one web view, with the referral id
    of [get_ref_id], which it caches; it then either returns the init data
    and stores them, or raises [InvalidSession] and leaves the stored init
    data as they were. *)
Theorem get_tg_web_data_outcome w s :
  let out := get_tg_web_data w s in
  exists ref,
    res (get_ref_id w s) = Ret ref
    /\ tr out = [WebView ref]
    /\ _current_ref_id (st out) = Some ref
    /\ ((exists d, res out = Ret d /\ _init_data (st out) = Some d)
        \/ (res out = Raise InvalidSession /\ _init_data (st out) = _init_data s)).
Proof.
  cbv zeta. destruct (get_ref_id_sets w s) as (ref & s1 & Href & Hc & _ & Hi).
  exists ref. split; [rewrite Href; reflexivity |].
  destruct (get_tg_web_data_cases w s ref s1 Href) as [E | [dd E]]; rewrite E;
    cbn [res st tr _current_ref_id _init_data set_webview_cursor set_init_data].
  - split; [reflexivity |]. split; [exact Hc |]. right. auto.
  - split; [reflexivity |]. split; [exact Hc |]. left. eauto.
Qed.

(** The first steps of [get_tg_web_data], up to the look-up. *)
Ltac tg_start Href :=
  unfold get_tg_web_data; rewrite try_raise_run;
  match goal with
  | |- context [bind get_ref_id ?f ?w ?s] =>
      rewrite (bind_eq get_ref_id f w s _ _ [] Href)
  end;
  cbn [app]; rewrite bind_emit, bind_get, bind_ask, bind_modify;
  cbn [res st tr].

(** X7. Without a web-view url, or with one that has no
    [tgWebAppData=], [get_tg_web_data] raises [InvalidSession] and stores
    nothing. *)
Theorem get_tg_web_data_without_payload w s ref :
  res (get_ref_id w s) = Ret ref ->
  (get_app_webview_url w (webview_cursor s) ref = None
   \/ exists url, get_app_webview_url w (webview_cursor s) ref = Some url
                  /\ contains "tgWebAppData=" url = false) ->
  res (get_tg_web_data w s) = Raise InvalidSession
  /\ _init_data (st (get_tg_web_data w s)) = _init_data s.
Proof.
  intros Hr Hu.
  destruct (get_ref_id_sets w s) as (ref' & s1 & Href & Hc & Hw & Hi).
  rewrite Href in Hr. injection Hr as ->.
  assert (E : res (get_tg_web_data w s) = Raise InvalidSession).
  { tg_start Href. rewrite Hw.
    destruct Hu as [-> | (url & -> & Hn)]; [reflexivity |].
    destruct (String.eqb url EmptyString); [reflexivity |].
    cbv zeta.
    assert (Hh : contains "#tgWebAppData=" url = false).
    { unfold contains in *.
      destruct (String.index 0 "tgWebAppData=" url) eqn:E1; [discriminate |].
      change "#tgWebAppData="%string with (String "#" "tgWebAppData=").
      now rewrite (index_none_cons "#" _ url E1). }
    rewrite (replace_none _ _ url Hh).
    match goal with
    | |- context [if ?c then url else url] =>
        replace (if c then url else url) with url by (destruct c; reflexivity)
    end.
    rewrite (split_none _ url Hn). reflexivity. }
  split; [exact E |].
  destruct (get_tg_web_data_cases w s ref s1 Href) as [E' | [dd E']]; rewrite E' in *.
  - exact Hi.
  - discriminate E.
Qed.

Lemma contains_hash sub s :
  contains sub s = false -> contains (String "#" sub) s = false.
Proof.
  unfold contains. destruct (String.index 0 sub s) eqn:E; [discriminate |].
  intros _. now rewrite (index_none_cons "#" sub s E).
Qed.

(** X8. For a url [a#tgWebAppData=d&tgWebAppVersion...] in which
    these are the first occurrences of the two markers, [get_tg_web_data]
    returns and stores [d] unquoted twice, whether or not it had to insert
    the [startapp] parameter; but decoded data that mention [start_param]
    without [start_param=] make it raise [InvalidSession]. *)
Theorem get_tg_web_data_extracts w s ref a d r :
  let url := (a ++ "#tgWebAppData=" ++ d ++ "&tgWebAppVersion" ++ r)%string in
  let decoded := unquote w (unquote w d) in
  let out := get_tg_web_data w s in
  res (get_ref_id w s) = Ret ref ->
  get_app_webview_url w (webview_cursor s) ref = Some url ->
  contains "tgWebAppData=" (a ++ "#tgWebAppData") = false ->
  contains "tgWebAppData=" (a ++ "?startapp=" ++ ref ++ "#tgWebAppData") = false ->
  contains "tgWebAppData=" (d ++ "&tgWebAppVersion" ++ r) = false ->
  contains "&tgWebAppVersion" (d ++ "&tgWebAppVersio") = false ->
  (contains "start_param" decoded = false \/ contains "start_param=" decoded = true ->
   res out = Ret decoded /\ _init_data (st out) = Some decoded)
  /\ (contains "start_param" decoded = true -> contains "start_param=" decoded = false ->
      res out = Raise InvalidSession).
Proof.
  cbv zeta. intros Hr Hu H1 H2 H3 H4.
  destruct (get_ref_id_sets w s) as (ref' & s1 & Href & Hc & Hw & Hi).
  rewrite Href in Hr. injection Hr as ->.
  set (rest := (d ++ "&tgWebAppVersion" ++ r)%string) in *.
  (* the url after the optional injection of a start parameter *)
  assert (Hsplit : forall c : bool,
            nth_error
              (split "tgWebAppData="
                 (if c
                  then replace "#tgWebAppData="
                         ("?startapp=" ++ ref ++ "#tgWebAppData=")
                         (a ++ "#tgWebAppData=" ++ rest)
                  else (a ++ "#tgWebAppData=" ++ rest)%string)) 1
            = Some rest).
  { intros c.
    assert (Hrest : split "tgWebAppData=" rest = [rest]) by (apply split_none, H3).
    assert (S1 : split "#tgWebAppData=" (a ++ "#tgWebAppData=" ++ rest)
                 = a :: split "#tgWebAppData=" rest)
      by exact (split_first "#tgWebAppData" "=" a rest
                  (contains_hash "tgWebAppData=" _ H1)).
    assert (S2 : split "tgWebAppData=" ((a ++ "#") ++ "tgWebAppData=" ++ rest)
                 = (a ++ "#")%string :: split "tgWebAppData=" rest).
    { apply (split_first "tgWebAppData" "=" (a ++ "#") rest).
      rewrite append_assoc. exact H1. }
    assert (S3 : split "tgWebAppData="
                   ((a ++ "?startapp=" ++ ref ++ "#") ++ "tgWebAppData=" ++ rest)
                 = (a ++ "?startapp=" ++ ref ++ "#")%string :: split "tgWebAppData=" rest).
    { apply (split_first "tgWebAppData" "=" (a ++ "?startapp=" ++ ref ++ "#") rest).
      rewrite !append_assoc. exact H2. }
    destruct c.
    - unfold replace. rewrite S1.
      rewrite (split_none "#tgWebAppData=" rest)
        by (apply (contains_hash "tgWebAppData="), H3).
      cbn [String.concat].
      replace (a ++ ("?startapp=" ++ ref ++ "#tgWebAppData=") ++ rest)%string
        with ((a ++ "?startapp=" ++ ref ++ "#") ++ "tgWebAppData=" ++ rest)%string
        by (rewrite !append_assoc; reflexivity).
      rewrite S3, Hrest. reflexivity.
    - replace (a ++ "#tgWebAppData=" ++ rest)%string
        with ((a ++ "#") ++ "tgWebAppData=" ++ rest)%string
        by (rewrite !append_assoc; reflexivity).
      rewrite S2, Hrest. reflexivity. }
  assert (Henc : nth_error (split "&tgWebAppVersion" rest) 0 = Some d).
  { subst rest.
    assert (S4 : split "&tgWebAppVersion" (d ++ "&tgWebAppVersion" ++ r)
                 = d :: split "&tgWebAppVersion" r)
      by exact (split_first "&tgWebAppVersio" "n" d r H4).
    rewrite S4. reflexivity. }
  assert (Hne : String.eqb (a ++ "#tgWebAppData=" ++ rest) EmptyString = false)
    by (destruct a; reflexivity).
  (* the run up to the check of the start parameter *)
  assert (Hrun : forall o,
            get_tg_web_data w s = o ->
            let s2 := set_webview_cursor (S (webview_cursor s1)) s1 in
            let dd := unquote w (unquote w d) in
            let m : M string :=
              (if contains "start_param" dd
               then tail <- must (nth_error (split "start_param=" dd) 1) ;;
                    _ <- must (nth_error (split "&" tail) 0) ;;
                    ret tt
               else ret tt) ;;
              modify (set_init_data (Some dd)) ;;
              ret dd in
            o = match res (m w s2) with
                | Ret _ => mkOut (res (m w s2)) (st (m w s2)) (WebView ref :: tr (m w s2))
                | Raise _ => mkOut (Raise InvalidSession) (st (m w s2))
                                   (WebView ref :: tr (m w s2))
                end).
  { intros o <-. cbv zeta. tg_start Href. rewrite Hw, Hu, Hne. cbv zeta.
    rewrite Hsplit. cbn [must]. rewrite bind_ret, Henc. cbn [must].
    rewrite bind_ret. reflexivity. }
  specialize (Hrun _ eq_refl). cbv zeta in Hrun.
  split.
  - intros H5. rewrite Hrun. clear Hrun.
    destruct (contains "start_param" (unquote w (unquote w d))) eqn:Es.
    + destruct H5 as [H5 | H5]; [discriminate |].
      destruct (split_second "start_param=" _ H5 ltac:(discriminate))
        as (x & y & l & ->).
      cbn [nth_error must]. rewrite bind_assoc, bind_ret.
      destruct (split_head "&" y) as (x' & l' & ->).
      cbn [nth_error must]. rewrite bind_assoc, bind_ret, bind_ret, bind_modify.
      cbn. auto.
    + rewrite bind_ret, bind_modify. cbn. auto.
  - intros Hs Hn. rewrite Hrun. clear Hrun. rewrite Hs.
    rewrite (split_none "start_param=" _ Hn). cbn [nth_error must].
    cbv iota. rewrite bind_assoc, bind_raise. reflexivity.
Qed.

(** * Back-offs *)

Lemma backoffs_ok_app lo hi t' : forall t a,
  backoffs_ok lo hi a t = true -> backoffs_ok lo hi None t' = true ->
  backoffs_ok lo hi a (t ++ t') = true.
Proof.
  induction t as [| e t IH]; intros a H H'.
  - destruct a; [discriminate H | exact H'].
  - cbn [app backoffs_ok] in *. destruct a as [d |].
    + destruct e; try discriminate H.
      apply andb_true_iff in H. destruct H as [H1 H2]. rewrite H1. cbn.
      apply IH; assumption.
    + destruct e; try (apply IH; assumption).
      apply andb_true_iff in H. destruct H as [H1 H2]. rewrite H1. cbn.
      apply IH; assumption.
Qed.

Lemma backed_off_event w e s t :
  is_waiting e = false -> backed_off w s t -> backed_off w s (t ++ [e]).
Proof.
  unfold backed_off. intros He H. apply backoffs_ok_app; [exact H |].
  destruct e; try reflexivity. discriminate He.
Qed.

#[local] Instance frame_backed_off w : Frame (backed_off w).
Proof.
  constructor; intros; try assumption; apply backed_off_event; auto.
Qed.

Ltac bo_side :=
  intros;
  match goal with
  | H : backed_off _ _ _ |- backed_off _ _ (_ ++ [_]) =>
      apply backed_off_event; [reflexivity | exact H]
  | H : backed_off _ _ _ |- backed_off _ _ _ => exact H
  end.

(** The back-off of the loop, in closed form. *)
Lemma coarse_wait_run w s :
  let lo := fst (SLEEP_BY_MIN_ENERGY (settings w)) in
  let hi := snd (SLEEP_BY_MIN_ENERGY (settings w)) in
  let d := lo + rand_raw w (rand_cursor s) mod (hi - lo + 1) in
  coarse_wait w s =
  if hi <? lo then mkOut (Raise PyError) s []
  else mkOut (Ret tt) (set_now (now s + Z.max 0 d) (set_rand_cursor (S (rand_cursor s)) s))
             [Waiting d; Sleep d].
Proof.
  cbv zeta. unfold coarse_wait. rewrite bind_ask.
  destruct (snd (SLEEP_BY_MIN_ENERGY (settings w)) <? fst (SLEEP_BY_MIN_ENERGY (settings w)))
    eqn:E.
  - unfold bind, randint. cbv zeta. rewrite E. reflexivity.
  - rewrite bind_randint by exact E. rewrite bind_emit. reflexivity.
Qed.

Lemma randint_range a b x : a <= b -> a <= a + x mod (b - a + 1) <= b.
Proof. intros H. assert (Hm := Z.mod_pos_bound x (b - a + 1) ltac:(lia)). lia. Qed.

Lemma coarse_wait_backed_off w s : triple (backed_off w) (backed_off w) coarse_wait w s.
Proof.
  intros t0 H0. rewrite coarse_wait_run. cbv zeta.
  destruct (Z.ltb_spec (snd (SLEEP_BY_MIN_ENERGY (settings w)))
                       (fst (SLEEP_BY_MIN_ENERGY (settings w)))) as [Hlt | Hle].
  - cbn. rewrite app_nil_r. exact H0.
  - cbn [st tr]. unfold backed_off in *. apply backoffs_ok_app; [exact H0 |].
    cbn [backoffs_ok].
    destruct (randint_range _ _ (rand_raw w (rand_cursor s)) Hle) as [H1 H2].
    apply Z.leb_le in H1, H2. rewrite H1, H2, Z.eqb_refl. reflexivity.
Qed.

Ltac bo_auto := repeat first [ apply coarse_wait_backed_off | inv_step bo_side ].

Lemma iteration_backed_off w s : triple (backed_off w) (backed_off w) iteration w s.
Proof. bo_auto. Qed.

(** X11. Every back-off the loop announces lies within
    [SLEEP_BY_MIN_ENERGY] and is slept at once, for exactly the announced
    time. *)
Theorem backoffs_within_bounds n w s :
  backoffs_ok (fst (SLEEP_BY_MIN_ENERGY (settings w)))
              (snd (SLEEP_BY_MIN_ENERGY (settings w))) None
              (tr (process_bot_logic n w s)) = true.
Proof.
  unfold process_bot_logic. rewrite !bind_modify.
  generalize (set_balance (JNum 0) (set_active_turbo false (set_created_time 0 s))).
  intros s0.
  assert (H : triple (backed_off w) (backed_off w) (iterations n) w s0).
  { revert s0. induction n as [| n IH]; intros s0; cbn [iterations].
    - apply inv_ret.
    - apply inv_bind; [apply iteration_backed_off |]. intros _ s'. apply IH. }
  exact (H [] eq_refl).
Qed.

(** * Where the requests go *)

#[local] Instance frame_expected : Frame (keeps (fun _ => True) expected_call).
Proof. apply keeps_frame; intros; auto. Qed.

Lemma iteration_expected w s :
  triple (keeps (fun _ => True) expected_call) (keeps (fun _ => True) expected_call)
         iteration w s.
Proof. inv_auto keeps_side. Qed.

Lemma calls_of_app t t' : calls_of (t ++ t') = calls_of t ++ calls_of t'.
Proof. unfold calls_of. apply flat_map_app. Qed.

Lemma called_event l e s t :
  calls_of [e] = [] -> called l s t -> called l s (t ++ [e]).
Proof.
  unfold called. intros He H. now rewrite calls_of_app, He, app_nil_r.
Qed.

#[local] Instance frame_called l : Frame (called l).
Proof.
  constructor; intros; try assumption; apply called_event; auto.
Qed.

Ltac called_side :=
  intros;
  match goal with
  | H : called _ _ _ |- called _ _ (_ ++ [_]) =>
      apply called_event; [reflexivity | exact H]
  | H : called _ _ _ |- called _ _ _ => exact H
  end.

(** [make_request] is entered once. *)
Lemma make_request_called l m u b h w s :
  triple (called l) (called (l ++ [u])) (make_request m u b h) w s.
Proof.
  unfold make_request. apply (triple_bind (called (l ++ [u]))).
  - apply triple_emit. intros t H. unfold called in *.
    rewrite calls_of_app, H. reflexivity.
  - auto.
  - intros ? ?. inv_auto called_side.
Qed.

(** A primitive that wraps one request. *)
Ltac one_call :=
  intros;
  match goal with
  | |- calls_of (tr (?m ?w ?s)) = [?u] =>
      let H := fresh in
      assert (H : triple (called []) (called ([] ++ [u])) m w s);
      [ let hd := head_of m in unfold hd;
        apply triple_try;
        [ apply (triple_bind (called ([] ++ [u])));
          [ apply make_request_called | auto | intros ? ?; inv_auto called_side ]
        | intros ? ?; inv_auto called_side ]
      | exact (H [] eq_refl) ]
  end.

Lemma apply_energy_boost_calls w s :
  calls_of (tr (apply_energy_boost w s)) = [api "/game/recoverCoinPool"].
Proof. one_call. Qed.

Lemma expected_calls t :
  Forall (fun e => expected_call e = true) t ->
  Forall (fun u => String.prefix host u = true /\ ~ In u idle_urls) (calls_of t).
Proof.
  induction 1 as [| e t He Ht IH]; [constructor |].
  change (e :: t) with ([e] ++ t). rewrite calls_of_app.
  apply Forall_app. split; [| exact IH].
  destruct e as [m u b | | | | |]; cbn [calls_of flat_map app]; try solve [constructor].
  constructor; [| constructor].
  cbn [expected_call] in He. apply andb_true_iff in He. destruct He as [H1 H2].
  split; [exact H1 |].
  apply negb_true_iff in H2. intros Hin.
  assert (E : existsb (String.eqb u) idle_urls = true).
  { apply existsb_exists. exists u. split; [exact Hin | apply String.eqb_refl]. }
  congruence.
Qed.

(** X12. Every request of the loop goes to a url under
    [https://bi.yescoin.gold/], and none of them is a request of
    [apply_energy_boost], [get_user_info], [get_user_active_level],
    [get_stop_bonus] or [claim_stop_bonus], each of which makes exactly
    one request, to a url of its own. *)
Theorem requests_stay_on_the_game_server n w s :
  Forall (fun u => String.prefix host u = true /\ ~ In u idle_urls)
         (calls_of (tr (process_bot_logic n w s)))
  /\ calls_of (tr (apply_energy_boost w s)) ++ calls_of (tr (get_user_info w s))
     ++ calls_of (tr (get_user_active_level w s)) ++ calls_of (tr (get_stop_bonus w s))
     ++ calls_of (tr (claim_stop_bonus w s)) = idle_urls.
Proof.
  split.
  - apply expected_calls.
    unfold process_bot_logic. rewrite !bind_modify.
    generalize (set_balance (JNum 0) (set_active_turbo false (set_created_time 0 s))).
    intros s0.
    assert (H : triple (keeps (fun _ => True) expected_call)
                       (keeps (fun _ => True) expected_call) (iterations n) w s0).
    { revert s0. induction n as [| n IH]; intros s0; cbn [iterations].
      - apply inv_ret.
      - apply inv_bind; [apply iteration_expected |]. intros _ s'. apply IH. }
    exact (proj2 (H [] (conj I (Forall_nil _)))).
  - assert (H1 : calls_of (tr (apply_energy_boost w s)) = [api "/game/recoverCoinPool"])
      by one_call.
    assert (H2 : calls_of (tr (get_user_info w s)) = [api "/user/info"]) by one_call.
    assert (H3 : calls_of (tr (get_user_active_level w s))
                 = [api "/activity/userActiveLevel"]) by one_call.
    assert (H4 : calls_of (tr (get_stop_bonus w s)) = [api "/account/getUserStopBonus"])
      by one_call.
    assert (H5 : calls_of (tr (claim_stop_bonus w s)) = [api "/account/claimStopBonus"])
      by one_call.
    rewrite H1, H2, H3, H4, H5. reflexivity.
Qed.

(** * Taps *)

Lemma triple_bind_ret {A B} (Pre Post : State -> list Event -> Prop)
    (a : A) (k : A -> M B) w s :
  triple Pre Post (k a) w s -> triple Pre Post (bind (ret a) k) w s.
Proof. intros H. exact H. Qed.

Lemma send_taps_calls taps w s :
  py_str_json taps <> None -> calls_of (tr (send_taps taps w s)) = [tap_url].
Proof.
  intros Hn.
  assert (H : triple (called []) (called ([] ++ [tap_url])) (send_taps taps) w s).
  { unfold send_taps. destruct (py_str_json taps) as [body |]; [| contradiction].
    cbn [must]. apply triple_try.
    - apply triple_bind_ret. apply (triple_bind (called ([] ++ [tap_url]))).
      + apply make_request_called.
      + auto.
      + intros ? ?. inv_auto called_side.
    - intros ? ?. inv_auto called_side. }
  exact (H [] eq_refl).
Qed.

Lemma send_taps_first n w s :
  exists t, tr (send_taps (JNum n) w s)
            = Call "POST" tap_url (Some (JStr (py_str n))) :: t
            /\ calls_of t = [].
Proof.
  assert (Hc := send_taps_calls (JNum n) w s ltac:(discriminate)).
  assert (H : exists t, tr (send_taps (JNum n) w s)
                        = Call "POST" tap_url (Some (JStr (py_str n))) :: t).
  { unfold send_taps. cbn [py_str_json must].
    match goal with
    | |- context [try_except ?m ?h w s] =>
        destruct (tr_try_prefix m h w s) as [t1 H1]; rewrite H1
    end.
    rewrite bind_ret.
    match goal with
    | |- context [tr (bind ?m ?k w s)] =>
        destruct (tr_bind_prefix m k w s) as [t2 H2]; rewrite H2
    end.
    match goal with
    | |- context [tr (make_request ?m ?u ?b ?h w s)] =>
        destruct (make_request_first m u b h w s) as [t3 H3]; rewrite H3
    end.
    cbn [app]. eauto. }
  destruct H as [t Ht]. exists t. split; [exact Ht |].
  rewrite Ht in Hc. cbn in Hc. injection Hc as Hc. exact Hc.
Qed.

(** X14. A regular tap makes one collect request, whose body is the
    number of taps as a string: the smaller of the energy and a draw
    within [RANDOM_TAPS_COUNT], so never more than the energy.  With the
    bounds of [RANDOM_TAPS_COUNT] in the wrong order it raises before any
    request. *)
Theorem regular_tap_within_energy w s e :
  let lo := fst (RANDOM_TAPS_COUNT (settings w)) in
  let hi := snd (RANDOM_TAPS_COUNT (settings w)) in
  let out := regular_tap (JNum e) e w s in
  (lo <= hi ->
   exists taps t,
     tr out = Call "POST" tap_url (Some (JStr (py_str taps))) :: t
     /\ calls_of t = []
     /\ taps <= e /\ taps <= hi /\ (lo <= taps \/ taps = e))
  /\ (hi < lo -> res out = Raise PyError /\ tr out = []).
Proof.
  cbv zeta. unfold regular_tap. rewrite bind_ask. split.
  - intros Hle.
    rewrite bind_randint by (apply Z.ltb_ge; exact Hle). cbv zeta.
    destruct (randint_range _ _ (rand_raw w (rand_cursor s)) Hle) as [H1 H2].
    set (drawn := fst (RANDOM_TAPS_COUNT (settings w)) + _) in *.
    destruct (Z.ltb_spec drawn e) as [Hlt | Hge].
    + destruct (send_taps_first drawn w (set_rand_cursor (S (rand_cursor s)) s))
        as (t & Ht & Hc).
      exists drawn, t. repeat split; auto; lia.
    + destruct (send_taps_first e w (set_rand_cursor (S (rand_cursor s)) s))
        as (t & Ht & Hc).
      exists e, t. repeat split; auto; lia.
  - intros Hlt. unfold bind, randint. cbv zeta.
    replace (snd (RANDOM_TAPS_COUNT (settings w)) <? fst (RANDOM_TAPS_COUNT (settings w)))
      with true by (symmetry; apply Z.ltb_lt; exact Hlt).
    cbn. auto.
Qed.

(** * A failed poll *)

Lemma get_game_data_refused w s status body :
  _http_client s = true ->
  http w (http_cursor s) "GET" game_url = Responded status body ->
  status <> 200 ->
  exists hdrs,
    get_game_data w s =
    mkOut (Ret (JObj [])) (set_http_cursor (S (http_cursor s)) s)
          [Call "GET" game_url None; Attempt 0 hdrs].
Proof.
  intros Hc Hh Hs. eexists. unfold get_game_data. fold game_url.
  assert (E : make_request "GET" game_url None None w s =
              mkOut (Ret JNull) (set_http_cursor (S (http_cursor s)) s)
                    [Call "GET" game_url None;
                     Attempt 0 (if truthy (_access_token s)
                                then dict_set "token" (_access_token s) HEADERS
                                else HEADERS)]).
  { unfold make_request. rewrite bind_emit, bind_get, Hc. cbn [negb].
    change (Z.to_nat max_retries) with 3%nat.
    rewrite request_attempts_step. cbv zeta. rewrite Hh.
    assert (H2 : (status =? 200) = false) by (apply Z.eqb_neq; exact Hs).
    destruct body; cbn [attempt_raises answer_of]; rewrite H2; reflexivity. }
  rewrite (try_run_ret _ _ w s (JObj [])).
  - rewrite (bind_eq _ _ w s _ _ _ E). cbn. reflexivity.
  - rewrite (bind_eq _ _ w s _ _ _ E). reflexivity.
Qed.

(** X13. A poll whose game-state fetch comes back falsy only
    announces and sleeps one back-off within [SLEEP_BY_MIN_ENERGY] and
    returns; with a first answer other than 200 the fetch makes one
    attempt and the back-off follows at once. *)
Theorem failed_fetch_backs_off w s :
  let lo := fst (SLEEP_BY_MIN_ENERGY (settings w)) in
  let hi := snd (SLEEP_BY_MIN_ENERGY (settings w)) in
  lo <= hi ->
  (forall j, res (get_game_data w s) = Ret j -> truthy j = false ->
     exists d,
       lo <= d <= hi
       /\ res (poll w s) = Ret tt
       /\ tr (poll w s) = tr (get_game_data w s) ++ [Waiting d; Sleep d])
  /\ (forall status body,
        _http_client s = true ->
        http w (http_cursor s) "GET" game_url = Responded status body ->
        status <> 200 ->
        exists hdrs d,
          lo <= d <= hi
          /\ res (poll w s) = Ret tt
          /\ tr (poll w s)
             = [Call "GET" game_url None; Attempt 0 hdrs; Waiting d; Sleep d]).
Proof.
  cbv zeta. intros Hle.
  assert (A : forall j, res (get_game_data w s) = Ret j -> truthy j = false ->
     exists d,
       fst (SLEEP_BY_MIN_ENERGY (settings w)) <= d <= snd (SLEEP_BY_MIN_ENERGY (settings w))
       /\ res (poll w s) = Ret tt
       /\ tr (poll w s) = tr (get_game_data w s) ++ [Waiting d; Sleep d]).
  { intros j Hj Ht.
    exists (fst (SLEEP_BY_MIN_ENERGY (settings w))
            + rand_raw w (rand_cursor (st (get_game_data w s)))
              mod (snd (SLEEP_BY_MIN_ENERGY (settings w))
                   - fst (SLEEP_BY_MIN_ENERGY (settings w)) + 1)).
    split; [apply randint_range; exact Hle |].
    unfold poll.
    match goal with
    | |- context [try_except ?m ?h w s] =>
        assert (E : m w s =
                    mkOut (Ret tt) (st (coarse_wait w (st (get_game_data w s))))
                          (tr (get_game_data w s)
                           ++ tr (coarse_wait w (st (get_game_data w s)))));
        [ | rewrite (try_run_ret m h w s tt) by (rewrite E; reflexivity); rewrite E ]
    end.
    { rewrite (bind_run_ret get_game_data _ w s j Hj). rewrite Ht. cbn [negb].
      rewrite coarse_wait_run. cbv zeta.
      replace (snd (SLEEP_BY_MIN_ENERGY (settings w)) <? fst (SLEEP_BY_MIN_ENERGY (settings w)))
        with false by (symmetry; apply Z.ltb_ge; exact Hle).
      reflexivity. }
    cbn [res tr]. rewrite coarse_wait_run. cbv zeta.
    replace (snd (SLEEP_BY_MIN_ENERGY (settings w)) <? fst (SLEEP_BY_MIN_ENERGY (settings w)))
      with false by (symmetry; apply Z.ltb_ge; exact Hle).
    auto. }
  split; [exact A |].
  intros status body Hc Hh Hs.
  destruct (get_game_data_refused w s status body Hc Hh Hs) as [hdrs E].
  destruct (A (JObj [])) as (d & Hd & Hr & Htr); [rewrite E; reflexivity | reflexivity |].
  exists hdrs, d. rewrite Htr, E. auto.
Qed.

(** * An accepted tap *)

(** A primitive that wraps one request, started after the calls [l]. *)
Ltac wrapper_called :=
  match goal with
  | |- triple (called ?l) (called (?l ++ [?u])) ?m ?w ?s =>
      let hd := head_of m in unfold hd;
      apply triple_try;
      [ apply (triple_bind (called (l ++ [u])));
        [ apply make_request_called | auto | intros ? ?; inv_auto called_side ]
      | intros ? ?; inv_auto called_side ]
  end.

Lemma get_game_data_called l w s :
  triple (called l) (called (l ++ [game_url])) get_game_data w s.
Proof. wrapper_called. Qed.

Lemma get_profile_data_called l w s :
  triple (called l) (called (l ++ [profile_url])) get_profile_data w s.
Proof. wrapper_called. Qed.

#[local] Instance frame_balance_is b :
  Frame (keeps (fun s => balance s = b) (fun e => negb (is_waiting e))).
Proof. apply keeps_frame; intros; auto. Qed.

(** X17. After an accepted tap whose answer carries the amounts, the
    loop takes the balance from the answer, fetches the game state once
    and announces no back-off; when the answer has no current amount it
    fetches the profile first, and the game state only if the profile came
    back. *)
Theorem accepted_tap_resyncs w s status tap_data :
  let out := after_tap status tap_data w s in
  truthy status = true ->
  (forall current total collected,
     py_getitem tap_data "current_amount" = Some current ->
     is_None current = false ->
     py_getitem tap_data "total_amount" = Some total ->
     py_getitem tap_data "collect_amount" = Some collected ->
     calls_of (tr out) = [game_url]
     /\ balance (st out) = current
     /\ Forall (fun e => is_waiting e = false) (tr out))
  /\ (py_get tap_data "current_amount" JNull = Some JNull ->
      exists l, calls_of (tr out) = profile_url :: l /\ (l = [] \/ l = [game_url])).
Proof.
  cbv zeta. intros Hs. split.
  - intros current total collected Hc Hn Ht Hk.
    destruct tap_data as [| | | | | kv]; try discriminate Hc.
    unfold after_tap. cbn [is_None py_get py_getitem] in *. rewrite Hs, Hc.
    cbn [must]. rewrite bind_ret, Hn. cbn [negb]. rewrite Ht. cbn [must].
    rewrite bind_assoc, bind_ret, bind_assoc, bind_ret, bind_ret.
    rewrite Hk. cbn [must]. rewrite bind_ret, bind_modify.
    match goal with
    | |- context [tr (?m w ?s0)] =>
        assert (H1 : triple (called []) (called ([] ++ [game_url])) m w s0);
        [ apply (triple_bind (called ([] ++ [game_url])));
          [ apply get_game_data_called | auto | intros ? ?; inv_auto called_side ] | ];
        assert (H2 : triple (keeps (fun s => balance s = current)
                                   (fun e => negb (is_waiting e)))
                            (keeps (fun s => balance s = current)
                                   (fun e => negb (is_waiting e))) m w s0);
        [ inv_auto keeps_side | ]
    end.
    specialize (H1 [] eq_refl).
    destruct (H2 [] (conj eq_refl (Forall_nil _))) as [H3 H4].
    cbn [app] in *. split; [exact H1 |]. split; [exact H3 |].
    eapply Forall_impl; [| exact H4]. cbv beta. intros e He.
    apply negb_true_iff. exact He.
  - intros Hc.
    destruct tap_data as [| | | | | kv]; try discriminate Hc.
    unfold after_tap. cbn [is_None]. rewrite Hs, Hc.
    cbn [must]. rewrite bind_ret. cbn [is_None negb].
    match goal with
    | |- context [tr (bind ?m ?k w s)] =>
        assert (H1 : triple (called []) (called ([] ++ [profile_url])) m w s);
        [ apply (triple_bind (called ([] ++ [profile_url])));
          [ apply get_profile_data_called | auto | intros ? ?; inv_auto called_side ] | ];
        specialize (H1 [] eq_refl); cbn [app] in H1; unfold called in H1;
        destruct (res (m w s)) as [[nb |] | e] eqn:E;
        [ rewrite (bind_run_ret m k w s _ E)
        | rewrite (bind_run_ret m k w s _ E)
        | rewrite (bind_run_raise m k w s _ E) ]
    end; cbn [tr]; rewrite ?calls_of_app, ?H1.
    + destruct (py_getitem (JObj kv) "collect_amount"); cbn [must].
      * rewrite bind_ret, bind_modify.
        match goal with
        | |- context [tr (?m w ?s0)] =>
            assert (H2 : triple (called []) (called ([] ++ [game_url])) m w s0);
            [ apply (triple_bind (called ([] ++ [game_url])));
              [ apply get_game_data_called | auto | intros ? ?; inv_auto called_side ] | ];
            specialize (H2 [] eq_refl); cbn [app] in H2; unfold called in H2; rewrite H2
        end.
        eexists. split; [reflexivity | auto].
      * rewrite bind_raise. cbn. eexists. split; [reflexivity | auto].
    + cbn. eexists. split; [reflexivity | auto].
    + eexists. split; [reflexivity | auto].
Qed.

(** * The side activities *)

(** The calls of a bind. *)
Lemma calls_bind_ret {A B} (m : M A) (f : A -> M B) w s a :
  res (m w s) = Ret a ->
  calls_of (tr (bind m f w s))
  = calls_of (tr (m w s)) ++ calls_of (tr (f a w (st (m w s)))).
Proof. intros H. rewrite (bind_run_ret m f w s a H). cbn [tr]. apply calls_of_app. Qed.

Lemma calls_bind_raise {A B} (m : M A) (f : A -> M B) w s e :
  res (m w s) = Raise e ->
  calls_of (tr (bind m f w s)) = calls_of (tr (m w s)).
Proof. intros H. now rewrite (bind_run_raise m f w s e H). Qed.

(** A loop whose body makes the call [u] at most once, and leaves the loop
    when it does. *)
Lemma for_each_once {A} (u : string) (items : list A) (body : A -> M loop_ctl) w :
  (forall x s, calls_of (tr (body x w s)) = []
               \/ (calls_of (tr (body x w s)) = [u] /\ res (body x w s) <> Ret Continue)) ->
  forall s, calls_of (tr (for_each items body w s)) = []
            \/ calls_of (tr (for_each items body w s)) = [u].
Proof.
  intros Hb. induction items as [| x items IH]; intros s; cbn [for_each].
  - left. reflexivity.
  - destruct (res (body x w s)) as [[] | e] eqn:E.
    + rewrite (calls_bind_ret _ _ w s Continue E).
      destruct (Hb x s) as [H0 | [_ Hn]]; [| congruence].
      rewrite H0. cbn [app]. apply IH.
    + rewrite (calls_bind_ret _ _ w s Break E). cbn [tr calls_of flat_map ret].
      rewrite app_nil_r. destruct (Hb x s) as [H0 | [H1 _]]; auto.
    + rewrite (calls_bind_raise _ _ w s e E).
      destruct (Hb x s) as [H0 | [H1 _]]; auto.
Qed.

(** A loop whose body makes the call [u] at most once. *)
Lemma for_each_repeat {A} (u : string) (items : list A) (body : A -> M loop_ctl) w :
  (forall x s, calls_of (tr (body x w s)) = [] \/ calls_of (tr (body x w s)) = [u]) ->
  forall s, exists k, (k <= List.length items)%nat
                      /\ calls_of (tr (for_each items body w s)) = repeat u k.
Proof.
  intros Hb. induction items as [| x items IH]; intros s; cbn [for_each].
  - exists 0%nat. split; [lia | reflexivity].
  - destruct (res (body x w s)) as [[] | e] eqn:E.
    + rewrite (calls_bind_ret _ _ w s Continue E).
      destruct (IH (st (body x w s))) as (k & Hk & ->).
      destruct (Hb x s) as [-> | ->].
      * exists k. split; [cbn; lia | reflexivity].
      * exists (S k). split; [cbn; lia | reflexivity].
    + rewrite (calls_bind_ret _ _ w s Break E). cbn [tr calls_of flat_map ret].
      rewrite app_nil_r.
      destruct (Hb x s) as [-> | ->].
      * exists 0%nat. split; [cbn; lia | reflexivity].
      * exists 1%nat. split; [cbn; lia | reflexivity].
    + rewrite (calls_bind_raise _ _ w s e E).
      destruct (Hb x s) as [-> | ->].
      * exists 0%nat. split; [cbn; lia | reflexivity].
      * exists 1%nat. split; [cbn; lia | reflexivity].
Qed.

Lemma calls_of_wrapper {A} (m : M A) u w s :
  triple (called []) (called ([] ++ [u])) m w s -> calls_of (tr (m w s)) = [u].
Proof. intros H. exact (H [] eq_refl). Qed.

Lemma claim_signin_calls signin_id create_at signin_type w s :
  calls_of (tr (claim_signin signin_id create_at signin_type w s)) = [signin_claim_url].
Proof. apply calls_of_wrapper. wrapper_called. Qed.

Lemma claim_signin_total signin_id create_at signin_type :
  total (claim_signin signin_id create_at signin_type).
Proof. apply total_try. intros e. apply total_give_back. Qed.

Lemma get_signin_list_calls w s : calls_of (tr (get_signin_list w s)) = [signin_list_url].
Proof. apply calls_of_wrapper. wrapper_called. Qed.

Lemma get_signin_list_total : total get_signin_list.
Proof. apply total_try. intros e. apply total_give_back. Qed.

(** The calls of a [try] whose handler makes none. *)
Lemma calls_try_quiet {A} (m : M A) (h : exn -> M A) w s :
  (forall e s', calls_of (tr (h e w s')) = []) ->
  calls_of (tr (try_except m h w s)) = calls_of (tr (m w s)).
Proof.
  intros Hh. destruct (res (m w s)) as [a | e] eqn:E.
  - now rewrite (try_run_ret m h w s a E).
  - rewrite (try_run_raise m h w s e E). cbn [tr].
    now rewrite calls_of_app, Hh, app_nil_r.
Qed.

(** X18. [process_signin] always returns, after the sign-in list
    request and at most one claim. *)
Theorem one_checkin_per_pass w s :
  res (process_signin w s) = Ret tt
  /\ (calls_of (tr (process_signin w s)) = [signin_list_url]
      \/ calls_of (tr (process_signin w s)) = [signin_list_url; signin_claim_url]).
Proof.
  split.
  - unfold process_signin.
    match goal with
    | |- res (try_except ?m ?h w s) = _ =>
        destruct (total_try m h (fun e w0 s0 => ex_intro _ tt eq_refl) w s) as [[] H]
    end.
    exact H.
  - unfold process_signin. rewrite calls_try_quiet by reflexivity.
    destruct (get_signin_list_total w s) as [signin_list Hl].
    rewrite (calls_bind_ret _ _ w s signin_list Hl), get_signin_list_calls.
    destruct (truthy signin_list); cbn [negb]; [| left; reflexivity].
    destruct (py_iter signin_list) as [items |]; cbn [must];
      [rewrite bind_ret | left; reflexivity].
    match goal with
    | |- context [for_each items ?body] =>
        destruct (for_each_once signin_claim_url items body w) with
          (s := st (get_signin_list w s)) as [H | H];
        [ | rewrite H; left; reflexivity | rewrite H; right; reflexivity ]
    end.
    intros x s0.
    destruct (py_getitem x "status") as [status |]; cbn [must];
      [rewrite bind_ret | left; reflexivity].
    destruct (py_eq_int status 1).
    + destruct (py_getitem x "checkIn") as [check_in |]; cbn [must];
        [| left; reflexivity].
      rewrite bind_assoc, bind_ret, bind_ret.
      destruct (py_eq_int check_in 0); [| left; reflexivity].
      rewrite bind_get.
      destruct (py_getitem x "id") as [signin_id |]; cbn [must];
        [rewrite bind_ret | left; reflexivity].
      right.
      destruct (claim_signin_total signin_id (now s0) 1 w s0) as [b Hb].
      rewrite (calls_bind_ret _ _ w s0 b Hb), claim_signin_calls.
      rewrite (bind_run_ret _ _ w s0 b Hb). cbn. split; [reflexivity | discriminate].
    + rewrite bind_ret. left. reflexivity.
Qed.

(** * The squad *)

Lemma get_squad_info_calls w s : calls_of (tr (get_squad_info w s)) = [squad_url].
Proof. apply calls_of_wrapper. wrapper_called. Qed.

Lemma get_squad_info_total : total get_squad_info.
Proof. apply total_try. intros e. apply total_give_back. Qed.

Lemma get_recommended_squads_calls w s :
  calls_of (tr (get_recommended_squads w s)) = [squad_list_url].
Proof. apply calls_of_wrapper. wrapper_called. Qed.

Lemma get_recommended_squads_total : total get_recommended_squads.
Proof. apply total_try. intros e. apply total_give_back. Qed.

Lemma join_squad_calls a b w s : calls_of (tr (join_squad a b w s)) = [squad_join_url].
Proof. apply calls_of_wrapper. wrapper_called. Qed.

Lemma join_squad_total a b : total (join_squad a b).
Proof. apply total_try. intros e. apply total_give_back. Qed.

Lemma length_chars s : List.length (chars s) = String.length s.
Proof. induction s as [| c s IH]; cbn; [reflexivity | now rewrite IH]. Qed.

Lemma length_substring n : forall s, (String.length (String.substring 0 n s) <= n)%nat.
Proof.
  induction n as [| n IH]; intros s.
  - destruct s; cbn; lia.
  - destruct s as [| c s]; cbn; [lia |]. specialize (IH s). lia.
Qed.

(** [x[:3]] has at most three items. *)
Lemma slice3_short j first3 items :
  py_slice3 j = Some first3 -> py_iter first3 = Some items ->
  (List.length items <= 3)%nat.
Proof.
  destruct j; cbn [py_slice3]; intros H; try discriminate H; injection H as <-;
    cbn [py_iter]; intros H; injection H as <-.
  - rewrite length_chars. apply length_substring.
  - exact (firstn_le_length 3 l).
Qed.

(** X19. [process_squad] always returns; it asks for the squad, then
    for the recommended squads only when the account has none, and then
    tries to join at most three of them; an account that is in a squad
    makes the first request only. *)
Theorem squad_join_attempts w s :
  let out := process_squad w s in
  res out = Ret tt
  /\ (calls_of (tr out) = [squad_url]
      \/ calls_of (tr out) = [squad_url; squad_list_url]
      \/ exists k, (1 <= k <= 3)%nat
                   /\ calls_of (tr out)
                      = squad_url :: squad_list_url :: repeat squad_join_url k)
  /\ (forall info joined,
        res (get_squad_info w s) = Ret info ->
        py_get info "isJoinSquad" JNull = Some joined -> truthy joined = true ->
        calls_of (tr out) = [squad_url]).
Proof.
  cbv zeta.
  destruct (get_squad_info_total w s) as [info Hi].
  split; [| split].
  - unfold process_squad.
    match goal with
    | |- res (try_except ?m ?h w s) = _ =>
        destruct (total_try m h (fun e w0 s0 => ex_intro _ tt eq_refl) w s) as [[] H]
    end.
    exact H.
  - unfold process_squad. rewrite calls_try_quiet by reflexivity.
    rewrite (calls_bind_ret _ _ w s info Hi), get_squad_info_calls.
    destruct (py_get info "isJoinSquad" JNull) as [joined |]; cbn [must];
      [rewrite bind_ret | left; reflexivity].
    destruct (truthy joined); [left; reflexivity |].
    destruct (get_recommended_squads_total w (st (get_squad_info w s))) as [squads Hq].
    rewrite (calls_bind_ret _ _ w _ squads Hq), get_recommended_squads_calls.
    destruct (truthy squads); cbn [negb]; [| right; left; reflexivity].
    destruct (py_slice3 squads) as [first3 |] eqn:E3; cbn [must];
      [rewrite bind_ret | right; left; reflexivity].
    destruct (py_iter first3) as [items |] eqn:Ei; cbn [must];
      [rewrite bind_ret | right; left; reflexivity].
    assert (Hlen := slice3_short squads first3 items E3 Ei).
    match goal with
    | |- context [for_each items ?body] =>
        destruct (for_each_repeat squad_join_url items body w) with
          (s := st (get_recommended_squads w (st (get_squad_info w s))))
          as (k & Hk & H)
    end.
    + intros x s0.
      destruct (py_getitem x "squadIdStr") as [a |]; cbn [must];
        [rewrite bind_ret | left; reflexivity].
      destruct (py_getitem x "squadTgLink") as [b |]; cbn [must];
        [rewrite bind_ret | left; reflexivity].
      destruct (py_getitem x "squadTitle") as [c |]; cbn [must];
        [rewrite bind_ret | left; reflexivity].
      destruct (py_getitem x "squadMembers") as [d |]; cbn [must];
        [rewrite bind_ret | left; reflexivity].
      right.
      destruct (join_squad_total a b w s0) as [j Hj].
      rewrite (calls_bind_ret _ _ w s0 j Hj), join_squad_calls.
      destruct j; reflexivity.
    + rewrite H. destruct k as [| k].
      * right. left. reflexivity.
      * right. right. exists (S k). split; [lia | reflexivity].
  - intros info' joined Hi' Hg Ht. rewrite Hi in Hi'. injection Hi' as <-.
    unfold process_squad. rewrite calls_try_quiet by reflexivity.
    rewrite (calls_bind_ret _ _ w s info Hi), get_squad_info_calls.
    rewrite Hg. cbn [must]. rewrite bind_ret, Ht. reflexivity.
Qed.

(** * The offline bonus *)

Lemma get_offline_bonus_info_calls w s :
  calls_of (tr (get_offline_bonus_info w s)) = [offline_info_url].
Proof. apply calls_of_wrapper. wrapper_called. Qed.

Lemma claim_offline_bonus_calls a b c w s :
  calls_of (tr (claim_offline_bonus a b c w s)) = [offline_claim_url].
Proof. apply calls_of_wrapper. wrapper_called. Qed.

Lemma claim_offline_bonus_total a b c : total (claim_offline_bonus a b c).
Proof. apply total_try. intros e. apply total_give_back. Qed.

(** A loop whose body always asks for the next item. *)
Lemma for_each_all {A} (f : A -> list string) (items : list A)
    (body : A -> M loop_ctl) w :
  (forall x, In x items -> forall s,
     res (body x w s) = Ret Continue /\ calls_of (tr (body x w s)) = f x) ->
  forall s, res (for_each items body w s) = Ret tt
            /\ calls_of (tr (for_each items body w s)) = flat_map f items.
Proof.
  induction items as [| x items IH]; intros Hb s; cbn [for_each flat_map].
  - auto.
  - destruct (Hb x (or_introl eq_refl) s) as [Hr Hc].
    rewrite (calls_bind_ret _ _ w s Continue Hr), Hc.
    rewrite (bind_run_ret _ _ w s Continue Hr). cbn [res].
    destruct (IH (fun y Hy => Hb y (or_intror Hy)) (st (body x w s))) as [H1 H2].
    rewrite H1, H2. auto.
Qed.

Lemma flat_map_repeat {A} (p : A -> bool) (u : string) (items : list A) :
  flat_map (fun x => if p x then [u] else []) items
  = repeat u (List.length (filter p items)).
Proof.
  induction items as [| x items IH]; cbn; [reflexivity |].
  destruct (p x); cbn; now rewrite IH.
Qed.

(** X20. When the offline-bonus info is a list of well-formed
    entries, [process_offline_bonus] returns after one claim request for
    each entry whose [collectStatus] is truthy, and none for the others. *)
Theorem offline_bonuses_claimed w s items :
  let out := process_offline_bonus w s in
  res (get_offline_bonus_info w s) = Ret (JArr items) ->
  Forall bonus_entry items ->
  res out = Ret tt
  /\ calls_of (tr out)
     = offline_info_url
       :: repeat offline_claim_url (List.length (filter collectable items)).
Proof.
  cbv zeta. intros Hi Hw. unfold process_offline_bonus.
  match goal with
  | |- context [for_each _ ?body] =>
      assert (Hf := for_each_all
                      (fun x => if collectable x then [offline_claim_url] else [])
                      items body w)
  end.
  match type of Hf with
  | ?P -> _ => assert (Hb : P); [ | specialize (Hf Hb); clear Hb ]
  end.
  { intros x Hx s0. rewrite Forall_forall in Hw.
    destruct (Hw x Hx) as (H1 & H2 & H3). unfold collectable.
    destruct (py_getitem x "collectStatus") as [c |]; [| contradiction].
    cbn [must]. rewrite bind_ret. destruct (truthy c); [| auto].
    rewrite bind_get.
    destruct (py_getitem x "transactionId") as [a |]; [| contradiction].
    destruct (py_getitem x "claimType") as [b |]; [| contradiction].
    cbn [must]. rewrite !bind_ret.
    destruct (claim_offline_bonus_total a b (now s0) w s0) as [j Hj].
    rewrite (calls_bind_ret _ _ w s0 j Hj), claim_offline_bonus_calls.
    rewrite (bind_run_ret _ _ w s0 j Hj). cbn [res].
    rewrite bind_sleep. cbn. auto. }
  destruct (Hf (st (get_offline_bonus_info w s))) as [Hr Hc].
  match goal with
  | |- context [try_except ?m ?h w s] =>
      assert (E : res (m w s) = Ret tt
                  /\ calls_of (tr (m w s))
                     = offline_info_url
                       :: repeat offline_claim_url
                            (List.length (filter collectable items)));
      [ | destruct E as [E1 E2];
          rewrite (try_run_ret m h w s tt E1); auto ]
  end.
  rewrite (calls_bind_ret _ _ w s _ Hi), get_offline_bonus_info_calls.
  rewrite (bind_run_ret _ _ w s _ Hi). cbn [res].
  destruct items as [| x0 items0].
  - cbn. auto.
  - cbn [truthy negb py_iter must]. rewrite bind_ret.
    rewrite Hr, Hc, flat_map_repeat. auto.
Qed.

(** * Daily missions *)

Lemma make_request_called_more l r m u b h w s :
  triple (called (l ++ r)) (called (l ++ r ++ [u])) (make_request m u b h) w s.
Proof. rewrite app_assoc. apply make_request_called. Qed.

Lemma called_in_rounds n l r s t :
  In r mission_rounds -> called (l ++ r) s t -> in_rounds (S n) l s t.
Proof.
  intros Hr H. exists [r]. cbn [List.concat]. rewrite app_nil_r.
  split; [exact H |]. split; [cbn; lia | constructor; [exact Hr | constructor]].
Qed.

Lemma in_rounds_next n l r s t :
  In r mission_rounds -> in_rounds n (l ++ r) s t -> in_rounds (S n) l s t.
Proof.
  intros Hr (rs & Hc & Hl & Hf). exists (r :: rs). cbn [List.concat].
  split; [rewrite Hc; now rewrite app_assoc |].
  split; [cbn; lia | constructor; assumption].
Qed.

Lemma mission_attempts_rounds todo : forall l attempt mission_id w s,
  triple (called l) (in_rounds todo l) (mission_attempts todo attempt mission_id) w s.
Proof.
  induction todo as [| todo IH]; intros l attempt mission_id w s.
  - cbn [mission_attempts]. apply triple_ret. intros t H. exists [].
    cbn [List.concat]. rewrite app_nil_r. split; [exact H |]. split; [cbn; lia | constructor].
  - cbn [mission_attempts].
    assert (R1 : In [mission_click_url] mission_rounds) by (cbn; auto).
    assert (R2 : In [mission_click_url; mission_check_url] mission_rounds)
      by (cbn; auto).
    assert (R3 : In [mission_click_url; mission_check_url; mission_claim_url]
                    mission_rounds) by (cbn; auto).
    assert (Hnext : forall r a s0,
              In r mission_rounds ->
              triple (called (l ++ r)) (in_rounds (S todo) l)
                     (mission_attempts todo a mission_id) w s0).
    { intros r a s0 Hr. eapply triple_post; [apply IH |].
      intros s' t. apply in_rounds_next, Hr. }
    apply (triple_bind (called l)).
    { destruct (0 <? attempt); inv_auto called_side. }
    { intros s' t H. exists []. cbn [List.concat]. rewrite app_nil_r.
      split; [exact H |]. split; [cbn; lia | constructor]. }
    intros _ s1.
    apply (triple_bind (called (l ++ [mission_click_url]))).
    { apply make_request_called. }
    { intros s' t. apply called_in_rounds, R1. }
    intros click_response s2.
    apply (triple_bind (called (l ++ [mission_click_url]))).
    { inv_auto called_side. }
    { intros s' t. apply called_in_rounds, R1. }
    intros clicked s3.
    destruct (negb clicked); [apply Hnext, R1 |].
    apply (triple_bind (called (l ++ [mission_click_url]))).
    { inv_auto called_side. }
    { intros s' t. apply called_in_rounds, R1. }
    intros _ s4.
    apply (triple_bind (called (l ++ [mission_click_url; mission_check_url]))).
    { apply (make_request_called_more l [mission_click_url]). }
    { intros s' t. apply called_in_rounds, R2. }
    intros check_response s5.
    apply (triple_bind (called (l ++ [mission_click_url; mission_check_url]))).
    { inv_auto called_side. }
    { intros s' t. apply called_in_rounds, R2. }
    intros checked s6.
    destruct (negb checked); [apply Hnext, R2 |].
    apply (triple_bind (called (l ++ [mission_click_url; mission_check_url]))).
    { inv_auto called_side. }
    { intros s' t. apply called_in_rounds, R2. }
    intros _ s7.
    apply (triple_bind
             (called (l ++ [mission_click_url; mission_check_url; mission_claim_url]))).
    { apply (make_request_called_more l [mission_click_url; mission_check_url]). }
    { intros s' t. apply called_in_rounds, R3. }
    intros claim_response s8.
    apply (triple_bind
             (called (l ++ [mission_click_url; mission_check_url; mission_claim_url]))).
    { inv_auto called_side. }
    { intros s' t. apply called_in_rounds, R3. }
    intros claimed s9.
    destruct (negb claimed); [apply Hnext, R3 |].
    eapply triple_post; [| intros s' t; apply called_in_rounds, R3].
    inv_auto called_side.
Qed.

(** X21. [process_daily_mission] never raises and plays at most two
    rounds; a round is click, then check, then claim, and stops at the
    first step the server does not confirm. *)
Theorem mission_rounds_bounded mission_id w s :
  let out := process_daily_mission mission_id w s in
  (exists b, res out = Ret b)
  /\ exists rs, calls_of (tr out) = List.concat rs
                /\ (List.length rs <= 2)%nat
                /\ Forall (fun r => In r mission_rounds) rs.
Proof.
  cbv zeta. split; [apply process_daily_mission_total |].
  unfold process_daily_mission. rewrite calls_try_quiet by reflexivity.
  exact (mission_attempts_rounds 2 [] 0 mission_id w s [] eq_refl).
Qed.

(** * Session start *)

Lemma iterations_unclaimed v n : forall w s,
  v <> Some true -> triple (unclaimed v) (unclaimed v) (iterations n) w s.
Proof.
  induction n as [| n IH]; intros w s Hv; cbn [iterations].
  - apply inv_ret.
  - apply inv_bind; [apply iteration_unclaimed, Hv |]. intros _ s'. apply IH, Hv.
Qed.

(** X9. [initialize_session] never raises: it returns [True] when
    the first-run check answered and, for a first run, the session was
    recorded, else [False].  It records the session only on a first run
    and keeps the answer of the check as the first-run flag; after a
    check that answered [False], no iteration of the loop claims the
    referral gift. *)
Theorem recurring_session_never_claims w s :
  let out := initialize_session w s in
  (exists b, res out = Ret b)
  /\ (res out = Ret true <->
      check_is_first_run w = Some false
      \/ (check_is_first_run w = Some true /\ append_recurring_session w = true))
  /\ (tr out = [AppendRecurring] <->
      check_is_first_run w = Some true /\ append_recurring_session w = true)
  /\ (forall v, check_is_first_run w = Some v -> _is_first_run (st out) = Some v)
  /\ (check_is_first_run w = Some false ->
      forall n, Forall (fun e => is_referral e = false)
                       (tr (process_bot_logic n w (st out)))).
Proof.
  cbv zeta.
  assert (E : initialize_session w s =
              match check_is_first_run w with
              | None => mkOut (Ret false) s []
              | Some false => mkOut (Ret true) (set_is_first_run (Some false) s) []
              | Some true =>
                  if append_recurring_session w
                  then mkOut (Ret true) (set_is_first_run (Some true) s) [AppendRecurring]
                  else mkOut (Ret false) (set_is_first_run (Some true) s) []
              end).
  { unfold initialize_session, try_except. cbv zeta. rewrite bind_ask.
    destruct (check_is_first_run w) as [[] |]; cbn [must].
    - rewrite bind_ret, bind_modify.
      destruct (append_recurring_session w); reflexivity.
    - reflexivity.
    - reflexivity. }
  split; [| split; [| split; [| split]]].
  - rewrite E. destruct (check_is_first_run w) as [[] |];
      [destruct (append_recurring_session w) | |]; eexists; reflexivity.
  - rewrite E. destruct (check_is_first_run w) as [[] |];
      [destruct (append_recurring_session w) | |]; cbn [res];
      (split; [intros H; try discriminate H; auto | intros [H | [H1 H2]]; congruence]).
  - rewrite E. destruct (check_is_first_run w) as [[] |];
      [destruct (append_recurring_session w) | |]; cbn [tr];
      (split; [intros H; try discriminate H; auto | intros [H1 H2]; congruence]).
  - intros v Hv. rewrite E, Hv.
    destruct v; [destruct (append_recurring_session w) |]; reflexivity.
  - intros Hv n.
    assert (Hf : _is_first_run (st (initialize_session w s)) = Some false)
      by (rewrite E, Hv; reflexivity).
    unfold process_bot_logic. rewrite !bind_modify.
    match goal with
    | |- context [iterations n w ?s0] =>
        assert (H : triple (unclaimed (Some false)) (unclaimed (Some false))
                           (iterations n) w s0)
          by (apply iterations_unclaimed; discriminate);
        destruct (H [] (conj Hf (Forall_nil _))) as [_ HF]
    end.
    cbn [app] in HF. eapply Forall_impl; [| exact HF]. cbv beta.
    intros e He. apply negb_true_iff. exact He.
Qed.

(** * The fetchers *)

(** X10. [get_profile_data], [get_game_data] and [get_boosts_info]
    never raise, and no [TooManyRequestsError] ever comes out of them: a
    session without transport gets the empty dict back from each, after
    one request entered and a sleep of 3 seconds. *)
Theorem fetchers_never_raise w s :
  (exists j, res (get_profile_data w s) = Ret j)
  /\ (exists j, res (get_game_data w s) = Ret j)
  /\ (exists j, res (get_boosts_info w s) = Ret j)
  /\ (_http_client s = false ->
      get_profile_data w s
      = mkOut (Ret (JObj [])) (set_now (now s + 3) s)
              [Call "GET" profile_url None; Sleep 3]
      /\ get_game_data w s
         = mkOut (Ret (JObj [])) (set_now (now s + 3) s)
                 [Call "GET" game_url None; Sleep 3]
      /\ get_boosts_info w s
         = mkOut (Ret (JObj [])) (set_now (now s + 3) s)
                 [Call "GET" boosts_url None; Sleep 3]).
Proof.
  split; [apply get_profile_data_total |].
  split; [apply get_game_data_total |].
  split; [apply get_boosts_info_total |].
  intros Hc.
  assert (E : forall u, make_request "GET" u None None w s
                        = mkOut (Raise InvalidSession) s [Call "GET" u None]).
  { intros u. unfold make_request. rewrite bind_emit, bind_get, Hc. reflexivity. }
  unfold get_profile_data, get_game_data, get_boosts_info.
  repeat split;
    (rewrite (try_run_raise _ _ w s InvalidSession)
       by (rewrite bind_run_raise with (e := InvalidSession);
           [reflexivity | rewrite E; reflexivity]);
     rewrite bind_run_raise with (e := InvalidSession) by (rewrite E; reflexivity);
     rewrite E; reflexivity).
Qed.

(** * Wallet files *)

Lemma path_eqb_refl p : Wallet.path_eqb p p = true.
Proof. unfold Wallet.path_eqb. now rewrite !String.eqb_refl. Qed.

Lemma path_eqb_eq p q : Wallet.path_eqb p q = true <-> p = q.
Proof.
  unfold Wallet.path_eqb. destruct p as [a b], q as [c d]. cbn.
  rewrite andb_true_iff, !String.eqb_eq. split; [intros [-> ->] | intros [= -> ->]]; auto.
Qed.

Lemma path_eqb_name dir a b :
  String.eqb a b = false -> Wallet.path_eqb (dir, a) (dir, b) = false.
Proof. intros H. unfold Wallet.path_eqb. cbn. now rewrite H, andb_false_r. Qed.

Lemma write_file_same p c d : Wallet.write_file p c d p = Some c.
Proof. unfold Wallet.write_file. now rewrite path_eqb_refl. Qed.

Lemma write_file_other p q c d : q <> p -> Wallet.write_file p c d q = d q.
Proof.
  intros H. unfold Wallet.write_file.
  destruct (Wallet.path_eqb q p) eqn:E; [| reflexivity].
  apply path_eqb_eq in E. contradiction.
Qed.

Lemma remove_file_same p d : Wallet.remove_file p d p = None.
Proof. unfold Wallet.remove_file. now rewrite path_eqb_refl. Qed.

(** The configuration file of the wallets. *)
Lemma load_wallet_config_run config_path o d :
  let p := (Wallet.parent o config_path, "wallet_config.json"%string) in
  Wallet.load_wallet_config config_path o d =
  match d p with
  | None => (Ret (JObj []), Wallet.write_file p (Wallet.Doc (JObj [])) d)
  | Some (Wallet.Doc j) => (Ret j, d)
  | Some Wallet.Garbage => (Raise PyError, d)
  end.
Proof.
  cbv zeta. unfold Wallet.load_wallet_config, Wallet.bind, Wallet.sibling,
    Wallet.path_exists, Wallet.json_dump, Wallet.json_load, Wallet.ret.
  destruct (d (Wallet.parent o config_path, "wallet_config.json"%string))
    as [[j |] |] eqn:E; cbn [negb]; rewrite ?E; reflexivity.
Qed.

(** X22. [load_wallet_config] creates [wallet_config.json] with
    the empty dict when the file is missing, returns the empty dict and
    touches no other file; an existing file is left as it is, and loading
    a second time gives the same answer and changes nothing. *)
Theorem wallet_config_is_created_once config_path o d :
  let p := (Wallet.parent o config_path, "wallet_config.json"%string) in
  let out := Wallet.load_wallet_config config_path o d in
  (d p = None ->
     fst out = Ret (JObj [])
     /\ snd out p = Some (Wallet.Doc (JObj []))
     /\ forall q, q <> p -> snd out q = d q)
  /\ (d p <> None -> snd out = d)
  /\ Wallet.load_wallet_config config_path o (snd out) = out.
Proof.
  cbv zeta. rewrite load_wallet_config_run. cbv zeta.
  destruct (d (Wallet.parent o config_path, "wallet_config.json"%string))
    as [[j |] |] eqn:E; cbn [fst snd].
  - split; [discriminate |]. split; [reflexivity |].
    rewrite load_wallet_config_run. cbv zeta. now rewrite E.
  - split; [discriminate |]. split; [reflexivity |].
    rewrite load_wallet_config_run. cbv zeta. now rewrite E.
  - split.
    + intros _. split; [reflexivity |]. split; [apply write_file_same |].
      intros q Hq. apply write_file_other, Hq.
    + split; [intros H; contradiction |].
      rewrite load_wallet_config_run. cbv zeta. now rewrite write_file_same.
Qed.

(** X23. After [save_wallet_config], [load_wallet_config] returns
    what was saved and [get_wallet_data] the entry of the session in it;
    saving writes [wallet_config.json] only. *)
Theorem wallet_config_round_trip config_path session_name wallet_data o d :
  let p := (Wallet.parent o config_path, "wallet_config.json"%string) in
  let saved := snd (Wallet.save_wallet_config config_path wallet_data o d) in
  Wallet.load_wallet_config config_path o saved = (Ret wallet_data, saved)
  /\ Wallet.get_wallet_data config_path session_name o saved
     = (match py_get wallet_data session_name JNull with
        | Some wallet => Ret wallet
        | None => Raise PyError
        end, saved)
  /\ forall q, q <> p -> saved q = d q.
Proof.
  cbv zeta.
  assert (E : Wallet.save_wallet_config config_path wallet_data o d
              = (Ret tt, Wallet.write_file
                           (Wallet.parent o config_path, "wallet_config.json"%string)
                           (Wallet.Doc wallet_data) d)) by reflexivity.
  rewrite E. cbn [snd].
  assert (L : Wallet.load_wallet_config config_path o
                (Wallet.write_file
                   (Wallet.parent o config_path, "wallet_config.json"%string)
                   (Wallet.Doc wallet_data) d)
              = (Ret wallet_data,
                 Wallet.write_file
                   (Wallet.parent o config_path, "wallet_config.json"%string)
                   (Wallet.Doc wallet_data) d)).
  { rewrite load_wallet_config_run. cbv zeta. now rewrite write_file_same. }
  split; [exact L |]. split.
  - unfold Wallet.get_wallet_data, Wallet.bind. rewrite L.
    destruct (py_get wallet_data session_name JNull); reflexivity.
  - intros q Hq. apply write_file_other, Hq.
Qed.

(** Unfolding the file actions. *)
Ltac io_unfold :=
  unfold Wallet.must;
  unfold Wallet.bind, Wallet.sibling, Wallet.path_exists, Wallet.json_dump,
    Wallet.json_load, Wallet.os_remove, Wallet.ret, Wallet.raise;
  cbv beta iota zeta.

Ltac io_step := cbv beta iota zeta; cbn [negb fst snd].

(** [update_accounts_config_wallet] leaves every other file as it is. *)
Lemma update_accounts_elsewhere config_path session_name wallet_address o d q :
  q <> (Wallet.parent o config_path, "accounts_config.json"%string) ->
  snd (Wallet.update_accounts_config_wallet config_path session_name wallet_address o d) q
  = d q.
Proof.
  intros Hq. unfold Wallet.update_accounts_config_wallet. io_unfold.
  destruct (d (Wallet.parent o config_path, "accounts_config.json"%string))
    as [[acc |] |] eqn:E; io_step; rewrite ?E; io_step; try reflexivity.
  destruct (py_in session_name acc) as [[] |]; io_step; try reflexivity.
  destruct (py_getitem acc session_name) as [account |]; io_step; try reflexivity.
  destruct (py_in "ton_address" account) as [[] |]; io_step; try reflexivity.
  destruct (Wallet.py_setitem account "ton_address" wallet_address) as [account' |];
    io_step; try reflexivity.
  destruct (Wallet.py_setitem acc session_name account') as [acc' |]; io_step;
    try reflexivity.
  apply write_file_other, Hq.
Qed.

(** X24. [update_accounts_config_wallet] writes nothing but
    [accounts_config.json], and that only to add a [ton_address] to an
    account that is listed and has none: the other keys of the account
    and the other accounts are kept.  A missing file, an unlisted session
    and an address already there are each left alone. *)
Theorem accounts_config_keeps_address config_path session_name wallet_address o d :
  let p := (Wallet.parent o config_path, "accounts_config.json"%string) in
  let out :=
    Wallet.update_accounts_config_wallet config_path session_name wallet_address o d in
  (forall q, q <> p -> snd out q = d q)
  /\ (d p = None -> out = (Ret tt, d))
  /\ (forall acc, d p = Some (Wallet.Doc (JObj acc)) ->
        dict_get session_name acc = None -> out = (Ret tt, d))
  /\ (forall acc account old,
        d p = Some (Wallet.Doc (JObj acc)) ->
        dict_get session_name acc = Some (JObj account) ->
        dict_get "ton_address" account = Some old ->
        out = (Ret tt, d))
  /\ (forall acc account,
        d p = Some (Wallet.Doc (JObj acc)) ->
        dict_get session_name acc = Some (JObj account) ->
        dict_get "ton_address" account = None ->
        fst out = Ret tt
        /\ exists acc' account',
             snd out p = Some (Wallet.Doc (JObj acc'))
             /\ dict_get session_name acc' = Some (JObj account')
             /\ dict_get "ton_address" account' = Some wallet_address
             /\ (forall k, k <> "ton_address"%string ->
                   dict_get k account' = dict_get k account)
             /\ (forall other, other <> session_name ->
                   dict_get other acc' = dict_get other acc)).
Proof.
  cbv zeta. split; [| split; [| split; [| split]]].
  - intros q Hq. apply update_accounts_elsewhere, Hq.
  - intros E. unfold Wallet.update_accounts_config_wallet. io_unfold. now rewrite E.
  - intros acc E Hs. unfold Wallet.update_accounts_config_wallet. io_unfold.
    rewrite E. io_step. rewrite E. cbn [py_in]. rewrite Hs. reflexivity.
  - intros acc account old E Hs Ht.
    unfold Wallet.update_accounts_config_wallet. io_unfold.
    rewrite E. io_step. rewrite E. cbn [py_in py_getitem]. rewrite Hs. io_step.
    cbn [py_in]. rewrite Ht. reflexivity.
  - intros acc account E Hs Ht.
    unfold Wallet.update_accounts_config_wallet. io_unfold.
    rewrite E. io_step. rewrite E. cbn [py_in py_getitem]. rewrite Hs. io_step.
    cbn [py_in]. rewrite Ht. io_step. cbn [Wallet.py_setitem]. io_step.
    split; [reflexivity |].
    exists (dict_set session_name
              (JObj (dict_set "ton_address" wallet_address account)) acc),
           (dict_set "ton_address" wallet_address account).
    split; [apply write_file_same |].
    split; [apply dict_get_set_same |].
    split; [apply dict_get_set_same |].
    split; intros k Hk; apply dict_get_set_other, Hk.
Qed.

(** The clean-up of [create_and_save_wallet] leaves no temporary file. *)
Lemma cleanup_removes {A} (m : Wallet.IO A) p o d :
  snd (Wallet.try_finally m
         (Wallet.bind (Wallet.path_exists p)
            (fun there => if there then Wallet.os_remove p else Wallet.ret tt)) o d) p
  = None.
Proof.
  unfold Wallet.try_finally. destruct (m o d) as [r d']. io_unfold.
  destruct (d' p) eqn:E; io_step; rewrite ?E; io_step; [apply remove_file_same | rewrite ?E; reflexivity].
Qed.

(** The clean-up touches the temporary file only, and passes on what the
    body did. *)
Lemma cleanup_elsewhere {A} (m : Wallet.IO A) p o d :
  fst (Wallet.try_finally m
         (Wallet.bind (Wallet.path_exists p)
            (fun there => if there then Wallet.os_remove p else Wallet.ret tt)) o d)
  = fst (m o d)
  /\ forall q, q <> p ->
       snd (Wallet.try_finally m
              (Wallet.bind (Wallet.path_exists p)
                 (fun there => if there then Wallet.os_remove p else Wallet.ret tt)) o d) q
       = snd (m o d) q.
Proof.
  unfold Wallet.try_finally. destruct (m o d) as [r d']. io_unfold.
  destruct (d' p) eqn:E; io_step; rewrite ?E; io_step; split; try reflexivity.
  intros q Hq. unfold Wallet.remove_file.
  destruct (Wallet.path_eqb q p) eqn:Eq; [| reflexivity].
  apply path_eqb_eq in Eq. contradiction.
Qed.

Lemma temp_wallet_is_removed_aux config_path session_name o d wallet_config :
  fst (Wallet.load_wallet_config config_path o d) = Ret wallet_config ->
  py_in session_name wallet_config = Some false ->
  snd (Wallet.create_and_save_wallet config_path session_name o d)
      (Wallet.parent o config_path, ("temp_wallet_" ++ session_name ++ ".json")%string)
  = None.
Proof.
  intros Hl Hk. unfold Wallet.create_and_save_wallet.
  unfold Wallet.bind at 1.
  destruct (Wallet.load_wallet_config config_path o d) as [r d1]. cbn [fst] in Hl.
  subst r. rewrite Hk. unfold Wallet.must at 1. unfold Wallet.bind at 1.
  unfold Wallet.ret at 1. cbv iota. unfold Wallet.bind at 1.
  unfold Wallet.sibling at 1. apply cleanup_removes.
Qed.

Lemma contains_app sep y : forall x, contains sep (x ++ sep ++ y) = true.
Proof.
  unfold contains. induction x as [| c x IH]; cbn [append].
  - now rewrite (prefix_index sep (sep ++ y) (prefix_append sep y)).
  - cbn [String.index]. destruct (String.prefix sep (String c (x ++ sep ++ y)));
      [reflexivity |].
    destruct (String.index 0 sep (x ++ sep ++ y)); [reflexivity | discriminate IH].
Qed.

(** [a, b = s.split(':')] for an address with one colon. *)
Lemma split_colon workchain raw :
  contains ":" workchain = false -> contains ":" raw = false ->
  split ":" (workchain ++ ":" ++ raw) = [workchain; raw].
Proof.
  intros H1 H2.
  assert (S1 : split ":" (workchain ++ ":" ++ raw) = workchain :: split ":" raw).
  { apply (split_first EmptyString ":" workchain raw). now rewrite append_nil_r. }
  rewrite S1, (split_none ":" raw H2). reflexivity.
Qed.

Lemma load_wallet_config_elsewhere config_path o d q :
  q <> (Wallet.parent o config_path, "wallet_config.json"%string) ->
  snd (Wallet.load_wallet_config config_path o d) q = d q.
Proof.
  intros Hq. rewrite load_wallet_config_run. cbv zeta.
  destruct (d (Wallet.parent o config_path, "wallet_config.json"%string)) as [[j |] |];
    try reflexivity.
  cbn [snd]. apply write_file_other, Hq.
Qed.

Lemma temp_is_not_config (dir : string) session_name :
  (dir, ("temp_wallet_" ++ session_name ++ ".json")%string)
  <> (dir, "wallet_config.json"%string).
Proof. intros H. injection H as H. discriminate H. Qed.

Lemma temp_is_not_accounts (dir : string) session_name :
  (dir, ("temp_wallet_" ++ session_name ++ ".json")%string)
  <> (dir, "accounts_config.json"%string).
Proof. intros H. injection H as H. discriminate H. Qed.

Lemma config_is_not_accounts (dir : string) :
  (dir, "wallet_config.json"%string) <> (dir, "accounts_config.json"%string).
Proof. intros H. discriminate H. Qed.

(** X25. For a session without wallet,
    [create_and_save_wallet] stores the generated key file under the
    session name in [wallet_config.json], with [raw_address] the address
    without its workchain prefix; [get_wallet_data] then returns that
    wallet, the temporary file is gone, and without an accounts file the
    call returns the wallet. *)
Theorem created_wallet_is_stored config_path session_name o d cfg wd addr raw :
  let cfgp := (Wallet.parent o config_path, "wallet_config.json"%string) in
  let accp := (Wallet.parent o config_path, "accounts_config.json"%string) in
  let temp := (Wallet.parent o config_path,
               ("temp_wallet_" ++ session_name ++ ".json")%string) in
  let wallet := JObj (dict_set "raw_address" (JStr raw) wd) in
  let out := Wallet.create_and_save_wallet config_path session_name o d in
  fst (Wallet.load_wallet_config config_path o d) = Ret (JObj cfg) ->
  dict_get session_name cfg = None ->
  Wallet.generate_wallet o config_path temp
  = (Some (Wallet.Doc (JObj wd)), Some addr) ->
  ((contains ":" addr = false /\ raw = addr)
   \/ exists workchain,
        addr = (workchain ++ ":" ++ raw)%string
        /\ contains ":" workchain = false /\ contains ":" raw = false) ->
  snd out cfgp = Some (Wallet.Doc (JObj (dict_set session_name wallet cfg)))
  /\ Wallet.get_wallet_data config_path session_name o (snd out) = (Ret wallet, snd out)
  /\ snd out temp = None
  /\ (d accp = None -> fst out = Ret wallet).
Proof.
  cbv zeta. intros Hl Hk Hg Ha.
  set (cfgp := (Wallet.parent o config_path, "wallet_config.json"%string)) in *.
  set (accp := (Wallet.parent o config_path, "accounts_config.json"%string)) in *.
  set (temp := (Wallet.parent o config_path,
                ("temp_wallet_" ++ session_name ++ ".json")%string)) in *.
  set (wallet := JObj (dict_set "raw_address" (JStr raw) wd)).
  set (d1 := snd (Wallet.load_wallet_config config_path o d)).
  set (d3 := Wallet.write_file cfgp
               (Wallet.Doc (JObj (dict_set session_name wallet cfg)))
               (Wallet.write_file temp (Wallet.Doc (JObj wd)) d1)).
  set (upd := Wallet.update_accounts_config_wallet config_path session_name
                (JStr addr) o d3).
  (* the wallet data with its raw address *)
  assert (Hraw :
            (if contains ":" addr
             then match split ":" addr with
                  | [_; address] =>
                      Wallet.must (Wallet.py_setitem (JObj wd) "raw_address" (JStr address))
                  | _ => Wallet.raise PyError
                  end
             else Wallet.must (Wallet.py_setitem (JObj wd) "raw_address" (JStr addr)))
            = Wallet.ret wallet).
  { destruct Ha as [[Hc ->] | (wc & -> & H1 & H2)].
    - rewrite Hc. reflexivity.
    - rewrite (contains_app ":" raw wc), (split_colon wc raw H1 H2). reflexivity. }
  (* the run, up to the clean-up *)
  assert (E : Wallet.create_and_save_wallet config_path session_name o d
              = Wallet.try_finally
                  (fun o0 d0 =>
                     match fst upd with
                     | Ret _ => (Ret wallet, snd upd)
                     | Raise e => (Raise e, snd upd)
                     end)
                  (Wallet.bind (Wallet.path_exists temp)
                     (fun there => if there then Wallet.os_remove temp
                                   else Wallet.ret tt)) o d1).
  { unfold Wallet.create_and_save_wallet.
    unfold Wallet.bind at 1.
    destruct (Wallet.load_wallet_config config_path o d) as [r d1'] eqn:El.
    cbn [fst] in Hl. subst r. subst d1. cbn [snd] in *.
    cbn [py_in]. rewrite Hk. unfold Wallet.must at 1. unfold Wallet.bind at 1.
    unfold Wallet.ret at 1. cbv iota. unfold Wallet.bind at 1.
    unfold Wallet.sibling at 1. fold temp.
    unfold Wallet.try_finally.
    assert (Eb : Wallet.bind (Wallet.run_generate_wallet config_path temp)
                   (fun wallet_address =>
                      Wallet.bind (Wallet.json_load temp)
                        (fun wallet_data =>
                           Wallet.bind
                             (if contains ":" wallet_address
                              then match split ":" wallet_address with
                                   | [_; address] =>
                                       Wallet.must
                                         (Wallet.py_setitem wallet_data "raw_address"
                                            (JStr address))
                                   | _ => Wallet.raise PyError
                                   end
                              else Wallet.must
                                     (Wallet.py_setitem wallet_data "raw_address"
                                        (JStr wallet_address)))
                             (fun wallet_data0 =>
                                Wallet.bind
                                  (Wallet.must
                                     (Wallet.py_setitem (JObj cfg) session_name
                                        wallet_data0))
                                  (fun wallet_config0 =>
                                     Wallet.bind
                                       (Wallet.save_wallet_config config_path
                                          wallet_config0)
                                       (fun _ =>
                                          Wallet.bind
                                            (Wallet.update_accounts_config_wallet
                                               config_path session_name
                                               (JStr wallet_address))
                                            (fun _ =>
                                               Wallet.must
                                                 (py_getitem wallet_config0
                                                    session_name))))))) o d1'
                 = match fst upd with
                   | Ret _ => (Ret wallet, snd upd)
                   | Raise e => (Raise e, snd upd)
                   end).
    { unfold Wallet.bind at 1. unfold Wallet.run_generate_wallet. rewrite Hg.
      cbn [fst snd]. unfold Wallet.bind at 1. unfold Wallet.json_load.
      rewrite write_file_same. unfold Wallet.bind at 1. rewrite Hraw.
      unfold Wallet.ret at 1. unfold Wallet.bind at 1.
      cbn [Wallet.py_setitem Wallet.must]. unfold Wallet.ret at 1.
      unfold Wallet.bind at 1. unfold Wallet.save_wallet_config, Wallet.bind at 1.
      unfold Wallet.sibling, Wallet.json_dump. fold cfgp. unfold Wallet.bind at 1.
      fold d3. fold upd. destruct upd as [[u | e] d4]; cbn [fst snd]; [| reflexivity].
      cbn [py_getitem]. rewrite dict_get_set_same. reflexivity. }
    rewrite Eb. reflexivity. }
  assert (Hcfg : snd (Wallet.create_and_save_wallet config_path session_name o d) cfgp
                 = Some (Wallet.Doc (JObj (dict_set session_name wallet cfg)))).
  { rewrite E.
    match goal with
    | |- snd (Wallet.try_finally ?m ?c o d1) cfgp = _ =>
        destruct (cleanup_elsewhere m temp o d1) as [_ Hc];
        rewrite (Hc cfgp) by (intros H; symmetry in H; revert H; apply temp_is_not_config)
    end.
    assert (Hu : snd upd cfgp = d3 cfgp)
      by (apply update_accounts_elsewhere, config_is_not_accounts).
    destruct (fst upd); cbn [snd]; rewrite Hu; apply write_file_same. }
  split; [exact Hcfg |]. split; [| split].
  - unfold Wallet.get_wallet_data, Wallet.bind.
    rewrite load_wallet_config_run. cbv zeta. fold cfgp. rewrite Hcfg.
    cbn [py_get Wallet.must]. rewrite dict_get_set_same. reflexivity.
  - apply (temp_wallet_is_removed_aux config_path session_name o d (JObj cfg) Hl).
    cbn [py_in]. now rewrite Hk.
  - intros Hacc. rewrite E.
    match goal with
    | |- fst (Wallet.try_finally ?m ?c o d1) = _ =>
        destruct (cleanup_elsewhere m temp o d1) as [Hf _]; rewrite Hf
    end.
    assert (Hd3 : d3 accp = None).
    { subst d3. rewrite write_file_other by (apply not_eq_sym, config_is_not_accounts).
      rewrite write_file_other by (apply not_eq_sym, temp_is_not_accounts).
      subst d1. rewrite load_wallet_config_elsewhere
        by (apply not_eq_sym, config_is_not_accounts).
      exact Hacc. }
    assert (Hu : upd = (Ret tt, d3)).
    { subst upd. unfold Wallet.update_accounts_config_wallet. io_unfold.
      fold accp. now rewrite Hd3. }
    rewrite Hu. reflexivity.
Qed.

(** A file that neither part of a bind touches. *)
Lemma bind_elsewhere {A B} (m : Wallet.IO A) (f : A -> Wallet.IO B) o q :
  (forall d, snd (m o d) q = d q) ->
  (forall a d, snd (f a o d) q = d q) ->
  forall d, snd (Wallet.bind m f o d) q = d q.
Proof.
  intros Hm Hf d. unfold Wallet.bind. specialize (Hm d).
  destruct (m o d) as [[a | e] d']; cbn [snd] in *; [| exact Hm].
  rewrite Hf. exact Hm.
Qed.

Lemma must_elsewhere {A} (x : option A) o q d : snd (Wallet.must x o d) q = d q.
Proof. destruct x; reflexivity. Qed.

(** X26. Whatever happens while a wallet is created, by return or
    by exception, the temporary key file is not there afterwards, and no
    file other than the temporary one and the two configuration files is
    touched. *)
Theorem temp_wallet_is_removed config_path session_name o d wallet_config :
  let temp := (Wallet.parent o config_path,
               ("temp_wallet_" ++ session_name ++ ".json")%string) in
  let out := Wallet.create_and_save_wallet config_path session_name o d in
  fst (Wallet.load_wallet_config config_path o d) = Ret wallet_config ->
  py_in session_name wallet_config = Some false ->
  snd out temp = None
  /\ forall q, q <> temp ->
       q <> (Wallet.parent o config_path, "wallet_config.json"%string) ->
       q <> (Wallet.parent o config_path, "accounts_config.json"%string) ->
       snd out q = d q.
Proof.
  cbv zeta. intros Hl Hk.
  split; [exact (temp_wallet_is_removed_aux config_path session_name o d _ Hl Hk) |].
  intros q Ht Hc Ha.
  assert (Hd1 := load_wallet_config_elsewhere config_path o d q Hc).
  unfold Wallet.create_and_save_wallet. unfold Wallet.bind at 1.
  destruct (Wallet.load_wallet_config config_path o d) as [r d1].
  cbn [fst snd] in *. subst r. rewrite Hk.
  unfold Wallet.must at 1. unfold Wallet.bind at 1. unfold Wallet.ret at 1. cbv iota.
  unfold Wallet.bind at 1. unfold Wallet.sibling at 1.
  match goal with
  | |- snd (Wallet.try_finally ?m ?c o d1) q = _ =>
      destruct (cleanup_elsewhere m
                  (Wallet.parent o config_path,
                   ("temp_wallet_" ++ session_name ++ ".json")%string) o d1) as [_ H];
      rewrite (H q Ht); clear H
  end.
  rewrite <- Hd1. revert d1 Hd1. intros d1 _. revert d1.
  apply bind_elsewhere.
  { intros d0. unfold Wallet.run_generate_wallet.
    destruct (Wallet.generate_wallet o config_path _) as [[c |] [a |]]; cbn [fst snd];
      try reflexivity; apply write_file_other, Ht. }
  intros wallet_address. apply bind_elsewhere.
  { intros d0. unfold Wallet.json_load. destruct (d0 _) as [[j |] |]; reflexivity. }
  intros wallet_data. apply bind_elsewhere.
  { intros d0. destruct (contains ":" wallet_address); [| apply must_elsewhere].
    destruct (split ":" wallet_address) as [| x [| y [| z l]]]; try reflexivity.
    apply must_elsewhere. }
  intros wallet_data0. apply bind_elsewhere; [intros d0; apply must_elsewhere |].
  intros wallet_config0. apply bind_elsewhere.
  { intros d0. cbn. apply write_file_other, Hc. }
  intros _. apply bind_elsewhere.
  { intros d0. apply update_accounts_elsewhere, Ha. }
  intros _ d0. apply must_elsewhere.
Qed.

(** X27. For a session whose wallet is on file,
    [create_and_save_wallet] generates nothing: it changes at most
    [accounts_config.json] and returns the stored wallet; without an
    accounts file it changes nothing at all. *)
Theorem existing_wallet_is_returned config_path session_name o d cfg wallet address :
  let cfgp := (Wallet.parent o config_path, "wallet_config.json"%string) in
  let accp := (Wallet.parent o config_path, "accounts_config.json"%string) in
  let out := Wallet.create_and_save_wallet config_path session_name o d in
  d cfgp = Some (Wallet.Doc (JObj cfg)) ->
  dict_get session_name cfg = Some wallet ->
  py_getitem wallet "wallet_address" = Some address ->
  (forall q, q <> accp -> snd out q = d q)
  /\ (fst out = Ret wallet \/ fst out = Raise PyError)
  /\ (d accp = None -> out = (Ret wallet, d)).
Proof.
  cbv zeta. intros Hc Hk Ha.
  assert (E : Wallet.create_and_save_wallet config_path session_name o d
              = match Wallet.update_accounts_config_wallet config_path session_name
                        address o d with
                | (Ret _, d') => (Ret wallet, d')
                | (Raise e, d') => (Raise e, d')
                end).
  { unfold Wallet.create_and_save_wallet. unfold Wallet.bind at 1.
    rewrite load_wallet_config_run. cbv zeta. rewrite Hc.
    cbn [py_in py_getitem]. rewrite Hk. cbn [Wallet.must].
    unfold Wallet.bind at 1. unfold Wallet.ret at 1. cbv iota.
    unfold Wallet.bind at 1. unfold Wallet.ret at 1.
    unfold Wallet.bind at 1. rewrite Ha. cbn [Wallet.must]. unfold Wallet.ret at 1.
    unfold Wallet.bind at 1.
    destruct (Wallet.update_accounts_config_wallet config_path session_name address o d)
      as [[u | e] d']; reflexivity. }
  rewrite E. split; [| split].
  - intros q Hq.
    assert (H := update_accounts_elsewhere config_path session_name address o d q Hq).
    destruct (Wallet.update_accounts_config_wallet config_path session_name address o d)
      as [[u | e] d']; exact H.
  - assert (H : forall e, fst (Wallet.update_accounts_config_wallet config_path
                                 session_name address o d) = Raise e -> e = PyError).
    { intros e. unfold Wallet.update_accounts_config_wallet. io_unfold.
      destruct (d (Wallet.parent o config_path, "accounts_config.json"%string))
        as [[acc |] |] eqn:Ed; io_step; rewrite ?Ed; io_step;
        try (intros [= <-]; reflexivity); try discriminate.
      destruct (py_in session_name acc) as [[] |]; io_step;
        try (intros [= <-]; reflexivity); try discriminate.
      destruct (py_getitem acc session_name) as [account |]; io_step;
        try (intros [= <-]; reflexivity); try discriminate.
      destruct (py_in "ton_address" account) as [[] |]; io_step;
        try (intros [= <-]; reflexivity); try discriminate.
      destruct (Wallet.py_setitem account "ton_address" address) as [account' |];
        io_step; try (intros [= <-]; reflexivity); try discriminate.
      destruct (Wallet.py_setitem acc session_name account') as [acc' |]; io_step;
        try (intros [= <-]; reflexivity); try discriminate. }
    destruct (Wallet.update_accounts_config_wallet config_path session_name address o d)
      as [[u | e] d']; cbn [fst] in *; [left; reflexivity | right].
    now rewrite (H e eq_refl).
  - intros Hacc.
    assert (Hu : Wallet.update_accounts_config_wallet config_path session_name address o d
                 = (Ret tt, d)).
    { unfold Wallet.update_accounts_config_wallet. io_unfold. now rewrite Hacc. }
    rewrite Hu. reflexivity.
Qed.

(** * The black list of sessions *)

Lemma prefix_empty s : String.prefix EmptyString s = true.
Proof. destruct s; reflexivity. Qed.

Lemma contains_char c s : contains (String c EmptyString) s = occurs c s.
Proof.
  unfold contains. induction s as [| b s IH]; [reflexivity |].
  cbn [String.index String.prefix occurs].
  destruct (ascii_dec c b) as [-> | Hne].
  - now rewrite prefix_empty, Ascii.eqb_refl.
  - replace (Ascii.eqb c b) with false
      by (symmetry; apply Ascii.eqb_neq; exact Hne).
    cbn [orb]. rewrite <- IH.
    destruct (String.index 0 (String c EmptyString) s); reflexivity.
Qed.

Lemma occurs_app c a b : occurs c (a ++ b) = occurs c a || occurs c b.
Proof.
  induction a as [| x a IH]; cbn; [reflexivity |]. now rewrite IH, orb_assoc.
Qed.

Lemma occurs_lstrip c s : occurs c s = false -> occurs c (lstrip s) = false.
Proof.
  induction s as [| b s IH]; cbn; [auto |]. intros H.
  apply orb_false_iff in H. destruct H as [H1 H2].
  destruct (is_space b); [apply IH, H2 | cbn; now rewrite H1, H2].
Qed.

Lemma occurs_rstrip c s : occurs c s = false -> occurs c (rstrip s) = false.
Proof.
  induction s as [| b s IH]; cbn; [auto |]. intros H.
  apply orb_false_iff in H. destruct H as [H1 H2]. specialize (IH H2).
  destruct (rstrip s) as [| x r].
  - destruct (is_space b); cbn; [reflexivity | now rewrite H1].
  - cbn [occurs] in *. now rewrite H1, IH.
Qed.

Lemma rstrip_idem s : rstrip (rstrip s) = rstrip s.
Proof.
  induction s as [| b s IH]; [reflexivity |]. cbn [rstrip].
  destruct (rstrip s) as [| x r] eqn:E.
  - destruct (is_space b) eqn:Eb; [reflexivity |]. cbn [rstrip]. now rewrite Eb.
  - cbn [rstrip]. cbn [rstrip] in IH. rewrite IH. reflexivity.
Qed.

(** [lstrip] leaves nothing to strip on the left. *)
Lemma lstrip_head s :
  lstrip s = EmptyString
  \/ exists c s', lstrip s = String c s' /\ is_space c = false.
Proof.
  induction s as [| b s IH]; cbn; [auto |].
  destruct (is_space b) eqn:E; [exact IH | right; eauto].
Qed.

Lemma rstrip_head c s :
  is_space c = false -> exists r, rstrip (String c s) = String c r.
Proof.
  intros H. cbn [rstrip]. destruct (rstrip s); [rewrite H |]; eauto.
Qed.

Lemma strip_idem s : strip (strip s) = strip s.
Proof.
  unfold strip. destruct (lstrip_head s) as [-> | (c & s' & -> & Hc)]; [reflexivity |].
  destruct (rstrip_head c s' Hc) as [r Hr]. rewrite Hr.
  cbn [lstrip]. rewrite Hc, <- Hr. apply rstrip_idem.
Qed.

(** The pieces between commas hold no comma. *)
Lemma split_comma_pieces : forall s cur,
  occurs "," cur = false ->
  Forall (fun p => occurs "," p = false) (split_go "," 0 cur s).
Proof.
  induction s as [| b s IH]; intros cur H; cbn [split_go].
  - repeat constructor. exact H.
  - cbn [String.prefix]. destruct (ascii_dec "," b) as [<- | Hne].
    + rewrite prefix_empty. constructor; [exact H |]. cbn [String.length Nat.sub].
      apply IH. reflexivity.
    + apply IH. rewrite occurs_app, H. cbn [occurs orb].
      replace (Ascii.eqb "," b) with false
        by (symmetry; apply Ascii.eqb_neq; exact Hne).
      reflexivity.
Qed.

(** X28. [blacklisted_sessions] lists the comma-separated names
    stripped of surrounding white space, and drops the blank ones: no
    entry is empty, has white space around it or contains a comma; the
    empty setting gives the empty list, and a setting without comma gives
    its one name. *)
Theorem blacklisted_sessions_are_clean listed :
  Forall (fun name => name <> EmptyString
                      /\ strip name = name
                      /\ contains "," name = false)
         (blacklisted_sessions listed)
  /\ blacklisted_sessions EmptyString = []
  /\ (contains "," listed = false -> strip listed <> EmptyString ->
      blacklisted_sessions listed = [strip listed]).
Proof.
  split; [| split].
  - unfold blacklisted_sessions. apply Forall_map.
    assert (Hp := split_comma_pieces listed EmptyString eq_refl).
    fold (split "," listed) in Hp.
    induction Hp as [| p l Hc Hl IH]; cbn [filter]; [constructor |].
    destruct (String.eqb_spec (strip p) EmptyString) as [E | E]; cbn [negb];
      [exact IH |].
    constructor; [| exact IH].
    split; [exact E |]. split; [apply strip_idem |].
    change (contains "," (strip p)) with (contains (String "," EmptyString) (strip p)).
    rewrite contains_char. unfold strip. apply occurs_rstrip, occurs_lstrip, Hc.
  - reflexivity.
  - intros Hc Hs. unfold blacklisted_sessions. rewrite (split_none "," listed Hc).
    cbn [filter]. destruct (String.eqb_spec (strip listed) EmptyString); [contradiction |].
    reflexivity.
Qed.

(** * The token and its time stamp *)

#[local] Instance frame_stamped tok T :
  Frame (keeps (fun s => _access_token s = tok /\ access_token_created_time s = T)
               (fun _ => true)).
Proof. apply keeps_frame; intros; auto. Qed.

(** X5. After a re-authentication whose login returned, the session
    holds the token the login returned and the time stamp is the clock at
    the return of the login, whatever the rest of the block does.  An
    iteration entered with a fresh token changes neither the token nor the
    stamp. *)
Theorem token_is_stamped_at_login w s :
  (forall d token,
     res (get_tg_web_data w s) = Ret d ->
     res (login d w (st (get_tg_web_data w s))) = Ret token ->
     _access_token (st (auth_refresh w s)) = token
     /\ access_token_created_time (st (auth_refresh w s))
        = now (st (login d w (st (get_tg_web_data w s)))))
  /\ (token_stale s = false ->
      _access_token (st (iteration w s)) = _access_token s
      /\ access_token_created_time (st (iteration w s)) = access_token_created_time s).
Proof.
  split.
  - intros d token Hd Hl. unfold auth_refresh.
    rewrite (bind_run_ret get_tg_web_data _ w s d Hd). cbn [st].
    rewrite (bind_run_ret (login d) _ w _ token Hl). cbn [st].
    rewrite bind_modify, bind_get, bind_modify.
    match goal with
    | |- context [st (?m w ?s0)] =>
        assert (H : triple
                      (keeps (fun s1 => _access_token s1 = token
                                        /\ access_token_created_time s1
                                           = now (st (login d w (st (get_tg_web_data w s)))))
                             (fun _ => true))
                      (keeps (fun s1 => _access_token s1 = token
                                        /\ access_token_created_time s1
                                           = now (st (login d w (st (get_tg_web_data w s)))))
                             (fun _ => true)) m w s0)
          by (inv_auto keeps_side);
        destruct (H [] (conj (conj eq_refl eq_refl) (Forall_nil _))) as [H1 _]
    end.
    exact H1.
  - intros Hs. rewrite (iteration_fresh w s Hs).
    match goal with
    | |- context [st (?m w s)] =>
        assert (H : triple
                      (keeps (fun s1 => _access_token s1 = _access_token s
                                        /\ access_token_created_time s1
                                           = access_token_created_time s)
                             (fun _ => true))
                      (keeps (fun s1 => _access_token s1 = _access_token s
                                        /\ access_token_created_time s1
                                           = access_token_created_time s)
                             (fun _ => true)) m w s)
          by (inv_auto keeps_side);
        destruct (H [] (conj (conj eq_refl eq_refl) (Forall_nil _))) as [H1 _]
    end.
    exact H1.
Qed.

(** * The turbo tap *)

(** The collect request of the turbo tap and what follows it. *)
Lemma turbo_collect_first (box_type taps : json) (k : json -> M (json * json)) w s :
  (forall response s', triple (called [turbo_tap_url]) (called [turbo_tap_url])
                              (k response) w s') ->
  let body := Some (JObj [("boxType"%string, box_type); ("coinCount"%string, taps)]) in
  exists t,
    tr (bind (make_request "POST" turbo_tap_url body None) k w s)
    = Call "POST" turbo_tap_url body :: t
    /\ calls_of t = [].
Proof.
  intros Hk body.
  assert (Hc : calls_of (tr (bind (make_request "POST" turbo_tap_url body None) k w s))
               = [turbo_tap_url]).
  { assert (H : triple (called []) (called ([] ++ [turbo_tap_url]))
                       (bind (make_request "POST" turbo_tap_url body None) k) w s).
    { apply (triple_bind (called ([] ++ [turbo_tap_url]))).
      - apply make_request_called.
      - auto.
      - intros response s'. apply Hk. }
    exact (H [] eq_refl). }
  destruct (tr_bind_prefix (make_request "POST" turbo_tap_url body None) k w s)
    as [t2 H2].
  destruct (make_request_first "POST" turbo_tap_url body None w s) as [t3 H3].
  rewrite H3 in H2. cbn [app] in H2.
  exists (t3 ++ t2). split; [exact H2 |].
  rewrite H2 in Hc. cbn in Hc. injection Hc as Hc. exact Hc.
Qed.

(** X16. [send_taps_with_turbo] never raises.  With a box in the
    special-box info it sleeps 10 seconds and then collects with the type
    and the count of that box, in one request; without a box, a type or a
    count it makes no collect request, sleeps 3 seconds and reports
    [(False, {})], the turbo flag untouched. *)
Theorem turbo_tap_sends_the_box w s :
  let out := send_taps_with_turbo w s in
  let box_out := get_special_box_info w s in
  (exists r, res out = Ret r)
  /\ (forall info box box_type taps,
        res box_out = Ret info ->
        py_getitem info "recoveryBox" = Some box ->
        py_getitem box "boxType" = Some box_type ->
        py_getitem box "specialBoxTotalCount" = Some taps ->
        exists t,
          tr out
          = tr box_out
            ++ Sleep 10
            :: Call "POST" turbo_tap_url
                 (Some (JObj [("boxType"%string, box_type); ("coinCount"%string, taps)]))
            :: t
          /\ calls_of t = [])
  /\ (forall info,
        res box_out = Ret info ->
        (py_getitem info "recoveryBox" = None
         \/ exists box, py_getitem info "recoveryBox" = Some box
                        /\ (py_getitem box "boxType" = None
                            \/ py_getitem box "specialBoxTotalCount" = None)) ->
        res out = Ret (JBool false, JObj [])
        /\ tr out = tr box_out ++ [Sleep 3]
        /\ active_turbo (st out) = active_turbo (st box_out)).
Proof.
  cbv zeta. split; [apply send_taps_with_turbo_total |]. split.
  - intros info box box_type taps Hi Hb Ht Hn.
    unfold send_taps_with_turbo. fold turbo_tap_url.
    match goal with
    | |- context [try_except ?m ?h w s] =>
        assert (Hm : exists t, tr (m w s)
                               = tr (get_special_box_info w s)
                                 ++ Sleep 10
                                 :: Call "POST" turbo_tap_url
                                      (Some (JObj [("boxType"%string, box_type);
                                                   ("coinCount"%string, taps)]))
                                 :: t
                               /\ calls_of t = []);
        [| destruct Hm as (t & Hm & Hc);
           destruct (res (m w s)) as [r | e] eqn:E;
           [ rewrite (try_run_ret m h w s r E); exists t; split; [exact Hm | exact Hc]
           | rewrite (try_run_raise m h w s e E); cbn [tr]; rewrite Hm;
             exists (t ++ [Sleep 3]); split;
             [ rewrite <- app_assoc; reflexivity
             | rewrite calls_of_app, Hc; reflexivity ] ] ]
    end.
    rewrite (bind_run_ret get_special_box_info _ w s info Hi). cbn [tr].
    rewrite Hb. cbn [must]. rewrite bind_ret.
    rewrite Ht. cbn [must]. rewrite bind_ret.
    rewrite Hn. cbn [must]. rewrite bind_ret.
    rewrite bind_sleep. cbn [tr].
    match goal with
    | |- context [tr (bind (make_request _ _ _ _) ?k w ?s0)] =>
        destruct (turbo_collect_first box_type taps k w s0) as (t & Ht' & Hc)
    end.
    { intros response s'. inv_auto called_side. }
    exists t. rewrite Ht'. split; [reflexivity | exact Hc].
  - intros info Hi Hmiss.
    unfold send_taps_with_turbo.
    match goal with
    | |- context [try_except ?m ?h w s] =>
        assert (Hm : m w s = mkOut (Raise PyError) (st (get_special_box_info w s))
                                   (tr (get_special_box_info w s)));
        [| rewrite (try_run_raise m h w s PyError) by (rewrite Hm; reflexivity);
           rewrite Hm; cbn; auto ]
    end.
    rewrite (bind_run_ret get_special_box_info _ w s info Hi).
    destruct Hmiss as [Hb | (box & Hb & [Ht | Hn])].
    + rewrite Hb. cbn [must]. rewrite bind_raise. cbn. rewrite app_nil_r. reflexivity.
    + rewrite Hb. cbn [must]. rewrite bind_ret, Ht. cbn [must]. rewrite bind_raise.
      cbn. rewrite app_nil_r. reflexivity.
    + rewrite Hb. cbn [must]. rewrite bind_ret.
      destruct (py_getitem box "boxType") as [bt |]; cbn [must].
      * rewrite bind_ret, Hn. cbn [must]. rewrite bind_raise.
        cbn. rewrite app_nil_r. reflexivity.
      * rewrite bind_raise. cbn. rewrite app_nil_r. reflexivity.
Qed.

Lemma turbo_tap_sends_the_box_witness :
  exists t,
    tr (send_taps_with_turbo (turbo_world true) turbo_pending)
    = tr (get_special_box_info (turbo_world true) turbo_pending)
      ++ Sleep 10
      :: Call "POST" turbo_tap_url
           (Some (JObj [("boxType"%string, JNum 2); ("coinCount"%string, JNum 200)]))
      :: t
    /\ calls_of t = [].
Proof.
  pose proof (turbo_tap_sends_the_box (turbo_world true) turbo_pending) as H.
  cbv zeta in H. destruct H as (_ & H & _).
  apply (H (JObj [("recoveryBox"%string,
                   JObj [("boxType"%string, JNum 2);
                         ("specialBoxTotalCount"%string, JNum 200)])])
           (JObj [("boxType"%string, JNum 2); ("specialBoxTotalCount"%string, JNum 200)]));
    vm_compute; reflexivity.
Defined.

(** * Activating the turbo boost *)

#[local] Instance frame_not_activated :
  Frame (keeps (fun _ => True) (fun e => negb (is_call turbo_boost_url e))).
Proof. apply keeps_frame; intros; auto. Qed.

#[local] Instance frame_turbo_is v :
  Frame (keeps (fun s => active_turbo s = v) (fun _ => true)).
Proof. apply keeps_frame; intros; auto. Qed.

Lemma not_activated_run {A} (m : M A) w s :
  triple (keeps (fun _ => True) (fun e => negb (is_call turbo_boost_url e)))
         (keeps (fun _ => True) (fun e => negb (is_call turbo_boost_url e))) m w s ->
  Forall (fun ev => is_call turbo_boost_url ev = false) (tr (m w s)).
Proof.
  intros H. destruct (H [] (conj I (Forall_nil _))) as [_ HF]. cbn [app] in HF.
  eapply Forall_impl; [| exact HF]. intros ev He. apply negb_true_iff. exact He.
Qed.

Lemma no_calls_no_call u t :
  calls_of t = [] -> Forall (fun ev => is_call u ev = false) t.
Proof.
  induction t as [| ev t IH]; intros H; [constructor |].
  destruct ev; cbn in H; try discriminate H; constructor; auto.
Qed.

Lemma first_call_skip t r : calls_of t = [] -> first_call (t ++ r) = first_call r.
Proof.
  induction t as [| ev t IH]; intros H; [reflexivity |].
  destruct ev; cbn in H; try discriminate H; cbn; auto.
Qed.

Lemma apply_turbo_boost_first w s :
  exists t, tr (apply_turbo_boost w s) = Call "POST" turbo_boost_url None :: t
            /\ calls_of t = [].
Proof.
  assert (Hc : calls_of (tr (apply_turbo_boost w s)) = [turbo_boost_url]) by one_call.
  assert (H : exists t, tr (apply_turbo_boost w s)
                        = Call "POST" turbo_boost_url None :: t).
  { unfold apply_turbo_boost. fold turbo_boost_url.
    match goal with
    | |- context [try_except ?m ?h w s] =>
        destruct (tr_try_prefix m h w s) as [t1 H1]; rewrite H1
    end.
    match goal with
    | |- context [tr (bind ?m ?k w s)] =>
        destruct (tr_bind_prefix m k w s) as [t2 H2]; rewrite H2
    end.
    match goal with
    | |- context [tr (make_request ?m ?u ?b ?h w s)] =>
        destruct (make_request_first m u b h w s) as [t3 H3]; rewrite H3
    end.
    cbn [app]. eauto. }
  destruct H as [t Ht]. exists t. split; [exact Ht |].
  rewrite Ht in Hc. cbn in Hc. injection Hc as Hc. exact Hc.
Qed.

Lemma apply_turbo_boost_total : total apply_turbo_boost.
Proof.
  unfold apply_turbo_boost. apply total_try. intros e w s. eexists. reflexivity.
Qed.

Lemma apply_turbo_boost_keeps_flag w s :
  active_turbo (st (apply_turbo_boost w s)) = active_turbo s.
Proof.
  assert (H : triple (keeps (fun s' => active_turbo s' = active_turbo s) (fun _ => true))
                     (keeps (fun s' => active_turbo s' = active_turbo s) (fun _ => true))
                     apply_turbo_boost w s) by (inv_auto keeps_side).
  exact (proj1 (H [] (conj eq_refl (Forall_nil _)))).
Qed.

Lemma turbo_tap_first {B} (k : json * json -> M B) w s :
  first_call (tr (bind turbo_tap k w s)) = Some (api "/game/getSpecialBoxInfo").
Proof.
  destruct (tr_bind_prefix turbo_tap k w s) as [t1 H1]. rewrite H1.
  unfold turbo_tap.
  match goal with
  | |- context [tr (bind send_taps_with_turbo ?k' w s)] =>
      destruct (tr_bind_prefix send_taps_with_turbo k' w s) as [t2 H2]; rewrite H2
  end.
  unfold send_taps_with_turbo.
  match goal with
  | |- context [try_except ?m ?h w s] =>
      destruct (tr_try_prefix m h w s) as [t3 H3]; rewrite H3
  end.
  match goal with
  | |- context [tr (bind get_special_box_info ?k' w s)] =>
      destruct (tr_bind_prefix get_special_box_info k' w s) as [t4 H4]; rewrite H4
  end.
  unfold get_special_box_info.
  match goal with
  | |- context [try_except ?m ?h w s] =>
      destruct (tr_try_prefix m h w s) as [t5 H5]; rewrite H5
  end.
  match goal with
  | |- context [tr (bind ?m ?k' w s)] =>
      destruct (tr_bind_prefix m k' w s) as [t6 H6]; rewrite H6
  end.
  match goal with
  | |- context [tr (make_request ?m ?u ?b ?h w s)] =>
      destruct (make_request_first m u b h w s) as [t7 H7]; rewrite H7
  end.
  reflexivity.
Qed.

Lemma regular_tap_first {B} e (k : json * json -> M B) w s :
  fst (RANDOM_TAPS_COUNT (settings w)) <= snd (RANDOM_TAPS_COUNT (settings w)) ->
  first_call (tr (bind (regular_tap (JNum e) e) k w s)) = Some tap_url.
Proof.
  intros Hle.
  destruct (tr_bind_prefix (regular_tap (JNum e) e) k w s) as [t1 H1]. rewrite H1.
  unfold regular_tap. rewrite bind_ask.
  rewrite bind_randint by (apply Z.ltb_ge; exact Hle). cbv zeta.
  match goal with
  | |- context [if ?c then _ else _] => destruct c
  end.
  - match goal with
    | |- context [send_taps (JNum ?n) w ?s0] =>
        destruct (send_taps_first n w s0) as (t & Ht & _); rewrite Ht
    end.
    reflexivity.
  - match goal with
    | |- context [send_taps (JNum ?n) w ?s0] =>
        destruct (send_taps_first n w s0) as (t & Ht & _); rewrite Ht
    end.
    reflexivity.
Qed.

Lemma tap_branch_idle w s e count c :
  as_int count = Some c ->
  (c >? 0) && negb (active_turbo s) = false ->
  tap_branch (JNum e) e count w s
  = bind (if active_turbo s then turbo_tap else regular_tap (JNum e) e)
         (fun tap => after_tap (fst tap) (snd tap)) w s.
Proof.
  intros Hc Hno. unfold tap_branch. rewrite Hc. cbn [must].
  rewrite bind_ret, bind_get, Hno, bind_ret, bind_get. reflexivity.
Qed.

Lemma tap_branch_activating w s e count c :
  as_int count = Some c ->
  (c >? 0) && negb (active_turbo s) = true ->
  tap_branch (JNum e) e count w s
  = bind apply_turbo_boost
         (fun activated =>
            bind (if activated : bool
                  then sleep 1 ;; modify (set_active_turbo true) else ret tt)
                 (fun _ =>
                    s' <- get ;;
                    tap <- (if active_turbo s' then turbo_tap
                            else regular_tap (JNum e) e) ;;
                    after_tap (fst tap) (snd tap))) w s.
Proof.
  intros Hc Hyes. unfold tap_branch. rewrite Hc. cbn [must].
  rewrite bind_ret, bind_get, Hyes, bind_assoc. reflexivity.
Qed.

Lemma after_activation w s e :
  bind (sleep 1 ;; modify (set_active_turbo true))
       (fun _ =>
          s' <- get ;;
          tap <- (if active_turbo s' then turbo_tap else regular_tap (JNum e) e) ;;
          after_tap (fst tap) (snd tap)) w s
  = let o := bind turbo_tap (fun tap => after_tap (fst tap) (snd tap)) w
                  (set_active_turbo true (set_now (now s + Z.max 0 1) s)) in
    mkOut (res o) (st o) (Sleep 1 :: tr o).
Proof.
  rewrite bind_assoc, bind_sleep, bind_modify, bind_get. reflexivity.
Qed.

Lemma without_activation w s e :
  active_turbo s = false ->
  bind (ret tt)
       (fun _ =>
          s' <- get ;;
          tap <- (if active_turbo s' then turbo_tap else regular_tap (JNum e) e) ;;
          after_tap (fst tap) (snd tap)) w s
  = bind (regular_tap (JNum e) e) (fun tap => after_tap (fst tap) (snd tap)) w s.
Proof. intros H. rewrite bind_ret, bind_get, H. reflexivity. Qed.

Lemma tap_not_activated w s e (turbo : bool) :
  Forall (fun ev => is_call turbo_boost_url ev = false)
         (tr (bind (if turbo then turbo_tap else regular_tap (JNum e) e)
                   (fun tap => after_tap (fst tap) (snd tap)) w s)).
Proof. apply not_activated_run. inv_auto keeps_side. Qed.

(** X15. The tap branch asks for a turbo boost only when boosts are
    left and none is pending, and then exactly once, as its first request.
    When the activation succeeds it sleeps one second and the turbo tap
    follows in the same cycle; when it fails the regular tap follows. *)
Theorem activation_needs_a_boost w s e count c :
  let out := tap_branch (JNum e) e count w s in
  let boost := apply_turbo_boost w s in
  as_int count = Some c ->
  (c <= 0 \/ active_turbo s = true ->
   Forall (fun ev => is_call turbo_boost_url ev = false) (tr out))
  /\ (0 < c -> active_turbo s = false ->
      exists t,
        tr out = Call "POST" turbo_boost_url None :: t
        /\ Forall (fun ev => is_call turbo_boost_url ev = false) t
        /\ (res boost = Ret true ->
            In (Sleep 1) t /\ first_call t = Some (api "/game/getSpecialBoxInfo"))
        /\ (res boost = Ret false ->
            fst (RANDOM_TAPS_COUNT (settings w)) <= snd (RANDOM_TAPS_COUNT (settings w)) ->
            first_call t = Some tap_url)).
Proof.
  cbv zeta. intros Hc. split.
  - intros Hno.
    rewrite (tap_branch_idle w s e count c Hc).
    + apply tap_not_activated.
    + destruct Hno as [Hle | Ha].
      * replace (c >? 0) with false; [reflexivity |].
        symmetry. rewrite Z.gtb_ltb. apply Z.ltb_ge. exact Hle.
      * rewrite Ha. apply andb_false_r.
  - intros Hpos Hoff.
    rewrite (tap_branch_activating w s e count c Hc).
    2:{ rewrite Hoff. cbn [negb]. rewrite andb_true_r.
        rewrite Z.gtb_ltb. apply Z.ltb_lt. exact Hpos. }
    destruct (apply_turbo_boost_first w s) as (t3 & H3 & Hc3).
    destruct (apply_turbo_boost_total w s) as [activated Ha].
    assert (Hflag := apply_turbo_boost_keeps_flag w s). rewrite Hoff in Hflag.
    rewrite (bind_run_ret apply_turbo_boost _ w s activated Ha).
    generalize dependent (st (apply_turbo_boost w s)). intros s1 Hflag.
    cbn [tr]. rewrite H3.
    destruct activated.
    + rewrite after_activation. cbv zeta. cbn [tr].
      eexists. split; [reflexivity |]. split; [| split].
      * apply Forall_app. split; [apply no_calls_no_call; exact Hc3 |].
        constructor; [reflexivity |]. apply (tap_not_activated w _ e true).
      * intros _. split; [apply in_or_app; right; left; reflexivity |].
        rewrite (first_call_skip t3 _ Hc3). cbn [first_call]. apply turbo_tap_first.
      * intros Hf. rewrite Ha in Hf. discriminate Hf.
    + rewrite (without_activation w s1 e Hflag).
      eexists. split; [reflexivity |]. split; [| split].
      * apply Forall_app. split; [apply no_calls_no_call; exact Hc3 |].
        apply (tap_not_activated w _ e false).
      * intros Hf. rewrite Ha in Hf. discriminate Hf.
      * intros _ Hle. rewrite (first_call_skip t3 _ Hc3).
        apply regular_tap_first. exact Hle.
Qed.

Lemma activation_needs_a_boost_witness :
  Forall (fun ev => is_call turbo_boost_url ev = false)
         (tr (tap_branch (JNum 500) 500 (JNum 0) rejected_tap_world running))
  /\ exists t,
       tr (tap_branch (JNum 500) 500 (JNum 1) (turbo_world true) running)
       = Call "POST" turbo_boost_url None :: t
       /\ Forall (fun ev => is_call turbo_boost_url ev = false) t.
Proof.
  split.
  - pose proof (activation_needs_a_boost rejected_tap_world running 500 (JNum 0) 0) as H.
    cbv zeta in H. destruct (H eq_refl) as [H1 _]. apply H1. left. lia.
  - pose proof (activation_needs_a_boost (turbo_world true) running 500 (JNum 1) 1) as H.
    cbv zeta in H. destruct (H eq_refl) as [_ H2].
    destruct (H2 ltac:(lia) eq_refl) as (t & Ht & HF & _).
    exists t. split; [exact Ht | exact HF].
Defined.

(** * Tasks *)

Lemma get_task_list_calls w s : calls_of (tr (get_task_list w s)) = [task_list_url].
Proof. apply calls_of_wrapper. wrapper_called. Qed.

Lemma get_task_list_total : total get_task_list.
Proof. apply total_try. intros e. apply total_give_back. Qed.

Lemma get_task_bonus_info_calls w s :
  calls_of (tr (get_task_bonus_info w s)) = [task_bonus_url].
Proof. apply calls_of_wrapper. wrapper_called. Qed.

Lemma get_task_bonus_info_total : total get_task_bonus_info.
Proof. apply total_try. intros e. apply total_give_back. Qed.

Lemma click_task_calls task_id w s :
  calls_of (tr (click_task task_id w s)) = [task_click_url].
Proof. apply calls_of_wrapper. wrapper_called. Qed.

Lemma click_task_total task_id : total (click_task task_id).
Proof. apply total_try. intros e. apply total_give_back. Qed.

Lemma check_task_calls task_id w s :
  calls_of (tr (check_task task_id w s)) = [task_check_url].
Proof. apply calls_of_wrapper. wrapper_called. Qed.

Lemma check_task_total task_id : total (check_task task_id).
Proof. apply total_try. intros e. apply total_give_back. Qed.

Lemma claim_task_reward_calls task_id w s :
  calls_of (tr (claim_task_reward task_id w s)) = [task_claim_url].
Proof. apply calls_of_wrapper. wrapper_called. Qed.

Lemma claim_task_reward_total task_id : total (claim_task_reward task_id).
Proof. apply total_try. intros e. apply total_give_back. Qed.

(** The requests of the body of the two loops. *)
Lemma run_task_calls task w s :
  calls_of (tr (run_task task w s)) = []
  \/ (open_task task = true /\ In (calls_of (tr (run_task task w s))) task_rounds).
Proof.
  unfold run_task, open_task.
  destruct (py_getitem task "taskId") as [task_id |]; cbn [must];
    [rewrite bind_ret | left; reflexivity].
  destruct (py_getitem task "taskName") as [task_name |]; cbn [must];
    [rewrite bind_ret | left; reflexivity].
  destruct (py_getitem task "taskBonusAmount") as [task_bonus |]; cbn [must];
    [rewrite bind_ret | left; reflexivity].
  destruct (py_getitem task "taskStatus") as [task_status |]; cbn [must];
    [rewrite bind_ret | left; reflexivity].
  destruct (py_eq_int task_status 0); [| left; reflexivity].
  right. split; [reflexivity |].
  rewrite bind_assoc.
  destruct (click_task_total task_id w s) as [clicked Hc].
  rewrite (calls_bind_ret _ _ w s clicked Hc), click_task_calls.
  generalize (st (click_task task_id w s)). intros s1.
  destruct clicked; [| cbn; auto].
  rewrite !bind_assoc, bind_sleep. cbn [tr].
  match goal with
  | |- context [calls_of (Sleep 5 :: ?t)] =>
      change (calls_of (Sleep 5 :: t)) with (calls_of t)
  end.
  generalize (set_now (now s1 + Z.max 0 5) s1). intros s2.
  rewrite bind_assoc.
  destruct (check_task_total task_id w s2) as [checked Hk].
  rewrite (calls_bind_ret _ _ w s2 checked Hk), check_task_calls.
  generalize (st (check_task task_id w s2)). intros s3.
  destruct checked; [| cbn; auto].
  rewrite bind_assoc.
  destruct (claim_task_reward_total task_id w s3) as [reward Hr].
  rewrite (calls_bind_ret _ _ w s3 reward Hr), claim_task_reward_calls.
  generalize (st (claim_task_reward task_id w s3)). intros s4.
  destruct (truthy reward).
  - destruct (py_get reward "bonusAmount" (JNum 0)); cbn; auto.
  - cbn. auto.
Qed.

(** A task that is done costs nothing. *)
Lemma run_task_closed task w s :
  task_entry task -> open_task task = false ->
  res (run_task task w s) = Ret Continue /\ calls_of (tr (run_task task w s)) = [].
Proof.
  intros (H1 & H2 & H3 & H4) Ho. unfold run_task, open_task in *.
  destruct (py_getitem task "taskId"); [| contradiction].
  destruct (py_getitem task "taskName"); [| contradiction].
  destruct (py_getitem task "taskBonusAmount"); [| contradiction].
  destruct (py_getitem task "taskStatus"); [| contradiction].
  cbn [must]. rewrite !bind_ret, Ho. auto.
Qed.

(** A loop whose body plays at most one round for an item, and none for an
    item that is not open. *)
Lemma for_each_rounds {A} (open : A -> bool) (rounds : list (list string))
    (items : list A) (body : A -> M loop_ctl) w :
  (forall x s, calls_of (tr (body x w s)) = []
               \/ (open x = true /\ In (calls_of (tr (body x w s))) rounds)) ->
  forall s, exists rs,
    calls_of (tr (for_each items body w s)) = List.concat rs
    /\ (List.length rs <= List.length (filter open items))%nat
    /\ Forall (fun r => In r rounds) rs.
Proof.
  intros Hb. induction items as [| x items IH]; intros s; cbn [for_each].
  - exists []. split; [reflexivity |]. split; [cbn; lia | constructor].
  - assert (Hx : exists r0,
               calls_of (tr (body x w s)) = List.concat r0
               /\ (List.length r0 <= List.length (filter open [x]))%nat
               /\ Forall (fun r => In r rounds) r0).
    { destruct (Hb x s) as [H0 | [Ho Hr]].
      - exists []. split; [exact H0 |]. split; [cbn; lia | constructor].
      - exists [calls_of (tr (body x w s))]. cbn [List.concat filter].
        rewrite app_nil_r, Ho. split; [reflexivity |].
        split; [cbn; lia | constructor; [exact Hr | constructor]]. }
    destruct Hx as (r0 & H0 & Hl0 & Hf0).
    assert (Hlen : (List.length (filter open (x :: items))
                    = List.length (filter open [x]) + List.length (filter open items))%nat).
    { change (x :: items) with ([x] ++ items). now rewrite filter_app, length_app. }
    destruct (res (body x w s)) as [[] | e] eqn:E.
    + rewrite (calls_bind_ret _ _ w s Continue E).
      destruct (IH (st (body x w s))) as (rs & Hc & Hl & Hf).
      exists (r0 ++ rs). rewrite concat_app, H0, Hc. split; [reflexivity |].
      split; [rewrite length_app; lia | apply Forall_app; auto].
    + rewrite (calls_bind_ret _ _ w s Break E). cbn [tr calls_of flat_map ret].
      rewrite app_nil_r. exists r0. split; [exact H0 |]. split; [lia | exact Hf0].
    + rewrite (calls_bind_raise _ _ w s e E).
      exists r0. split; [exact H0 |]. split; [lia | exact Hf0].
Qed.

Lemma no_open_task items x :
  filter open_task items = [] -> In x items -> open_task x = false.
Proof.
  intros Hf Hx. destruct (open_task x) eqn:E; [| reflexivity].
  assert (Hin : In x (filter open_task items)) by (apply filter_In; auto).
  rewrite Hf in Hin. destruct Hin.
Qed.

(** X29. [process_tasks] always returns.  After the task list it
    plays at most one round for each task to do, of the two lists in
    order, and none for the others; a round is click, then check, then
    claim, and stops at the first step the server does not confirm; the
    bonus-info request, if made, comes last.  When no task is left to do
    its requests are the task list and the bonus info. *)
Theorem open_tasks_attempted_once w s task_list tasks special :
  let out := process_tasks w s in
  res (get_task_list w s) = Ret task_list ->
  py_get task_list "taskList" (JArr []) = Some (JArr tasks) ->
  py_get task_list "specialTaskList" (JArr []) = Some (JArr special) ->
  res out = Ret tt
  /\ (exists rs tail,
        calls_of (tr out) = task_list_url :: List.concat rs ++ tail
        /\ (tail = [] \/ tail = [task_bonus_url])
        /\ (List.length rs <= List.length (filter open_task (tasks ++ special)))%nat
        /\ Forall (fun r => In r task_rounds) rs)
  /\ (truthy task_list = true ->
      Forall task_entry (tasks ++ special) ->
      filter open_task (tasks ++ special) = [] ->
      calls_of (tr out) = [task_list_url; task_bonus_url]).
Proof.
  cbv zeta. intros Hl Ht Hs. split; [| split].
  - unfold process_tasks.
    match goal with
    | |- res (try_except ?m ?h w s) = _ =>
        destruct (total_try m h (fun e w0 s0 => ex_intro _ tt eq_refl) w s) as [[] H]
    end.
    exact H.
  - unfold process_tasks. rewrite calls_try_quiet by reflexivity.
    rewrite (calls_bind_ret _ _ w s task_list Hl), get_task_list_calls.
    generalize (st (get_task_list w s)). intros s1. cbn [app].
    destruct (truthy task_list); cbn [negb].
    2:{ exists [], []. cbn. repeat split; auto; lia. }
    rewrite Ht. cbn [must]. rewrite bind_ret. cbn [py_iter must]. rewrite bind_ret.
    match goal with
    | |- context [bind (for_each tasks ?body) ?k w s1] =>
        destruct (for_each_rounds open_task task_rounds tasks body w
                    (fun x s0 => run_task_calls x w s0) s1) as (rs1 & Hc1 & Hn1 & Hf1);
        destruct (res (for_each tasks body w s1)) as [[] | e] eqn:E1;
        [ rewrite (calls_bind_ret _ _ w s1 tt E1), Hc1
        | rewrite (calls_bind_raise _ _ w s1 e E1), Hc1 ]
    end.
    2:{ exists rs1, []. rewrite app_nil_r. split; [reflexivity |].
        split; [auto |]. rewrite filter_app, length_app. split; [lia | exact Hf1]. }
    generalize (st (for_each tasks run_task w s1)). intros s2.
    rewrite Hs. cbn [must]. rewrite bind_ret. cbn [py_iter must]. rewrite bind_ret.
    match goal with
    | |- context [bind (for_each special ?body) ?k w s2] =>
        destruct (for_each_rounds open_task task_rounds special body w
                    (fun x s0 => run_task_calls x w s0) s2) as (rs2 & Hc2 & Hn2 & Hf2);
        destruct (res (for_each special body w s2)) as [[] | e] eqn:E2;
        [ rewrite (calls_bind_ret _ _ w s2 tt E2), Hc2
        | rewrite (calls_bind_raise _ _ w s2 e E2), Hc2 ]
    end.
    2:{ exists (rs1 ++ rs2), []. rewrite app_nil_r, concat_app. split; [reflexivity |].
        split; [auto |]. rewrite filter_app, !length_app.
        split; [lia | apply Forall_app; auto]. }
    generalize (st (for_each special run_task w s2)). intros s3.
    destruct (get_task_bonus_info_total w s3) as [bonus Hb].
    rewrite (calls_bind_ret _ _ w s3 bonus Hb), get_task_bonus_info_calls.
    generalize (st (get_task_bonus_info w s3)). intros s4.
    exists (rs1 ++ rs2), [task_bonus_url]. rewrite concat_app.
    split.
    + rewrite <- app_assoc. f_equal. f_equal. f_equal.
      destruct (truthy bonus); [| reflexivity].
      destruct (py_get bonus "dailyTaskFinishCount" (JNum 0)); reflexivity.
    + split; [auto |]. rewrite filter_app, !length_app.
      split; [lia | apply Forall_app; auto].
  - intros Htr Hw Hno.
    rewrite filter_app in Hno. apply app_eq_nil in Hno. destruct Hno as [Hno1 Hno2].
    apply Forall_app in Hw. destruct Hw as [Hw1 Hw2]. rewrite Forall_forall in Hw1, Hw2.
    unfold process_tasks. rewrite calls_try_quiet by reflexivity.
    rewrite (calls_bind_ret _ _ w s task_list Hl), get_task_list_calls.
    generalize (st (get_task_list w s)). intros s1. cbn [app].
    rewrite Htr. cbn [negb].
    rewrite Ht. cbn [must]. rewrite bind_ret. cbn [py_iter must]. rewrite bind_ret.
    destruct (for_each_all (fun _ => []) tasks run_task w) with (s := s1) as [R1 C1].
    { intros x Hx s0. apply run_task_closed; [apply Hw1, Hx |].
      exact (no_open_task tasks x Hno1 Hx). }
    rewrite (calls_bind_ret _ _ w s1 tt R1), C1.
    generalize (st (for_each tasks run_task w s1)). intros s2.
    rewrite Hs. cbn [must]. rewrite bind_ret. cbn [py_iter must]. rewrite bind_ret.
    destruct (for_each_all (fun _ => []) special run_task w) with (s := s2) as [R2 C2].
    { intros x Hx s0. apply run_task_closed; [apply Hw2, Hx |].
      exact (no_open_task special x Hno2 Hx). }
    rewrite (calls_bind_ret _ _ w s2 tt R2), C2.
    generalize (st (for_each special run_task w s2)). intros s3.
    destruct (get_task_bonus_info_total w s3) as [bonus Hb].
    rewrite (calls_bind_ret _ _ w s3 bonus Hb), get_task_bonus_info_calls.
    assert (F : forall (l : list json), flat_map (fun _ : json => @nil string) l = [])
      by (induction l; auto).
    rewrite !F. cbn [app]. f_equal. f_equal.
    destruct (truthy bonus); [| reflexivity].
    destruct (py_get bonus "dailyTaskFinishCount" (JNum 0)); reflexivity.
Qed.

Lemma open_tasks_attempted_once_witness :
  calls_of (tr (process_tasks done_tasks_world running)) = [task_list_url; task_bonus_url]
  /\ res (process_tasks tasks_world running) = Ret tt.
Proof.
  split.
  - pose proof (open_tasks_attempted_once done_tasks_world running done_tasks
                  [JObj [("taskId"%string, JStr "t1");
                         ("taskName"%string, JStr "join");
                         ("taskBonusAmount"%string, JNum 100);
                         ("taskStatus"%string, JNum 1)]] []) as H.
    cbv zeta in H.
    destruct H as (_ & _ & H); [vm_compute; reflexivity | reflexivity | reflexivity |].
    apply H; [reflexivity | | reflexivity].
    repeat constructor; discriminate.
  - pose proof (open_tasks_attempted_once tasks_world running some_tasks
                  [JObj [("taskId"%string, JStr "t1");
                         ("taskName"%string, JStr "join");
                         ("taskBonusAmount"%string, JNum 100);
                         ("taskStatus"%string, JNum 0)]]
                  [JObj [("taskId"%string, JStr "t2");
                         ("taskName"%string, JStr "follow");
                         ("taskBonusAmount"%string, JNum 100);
                         ("taskStatus"%string, JNum 1)]]) as H.
    cbv zeta in H.
    destruct H as (H & _ & _); [vm_compute; reflexivity | reflexivity | reflexivity |].
    exact H.
Defined.

(** * A rejected tap *)

(** The tap branch is the activation, the tap, and what the loop does with
    the answer. *)
Lemma tap_branch_split available_energy energy turbo w s :
  tap_branch available_energy energy turbo w s
  = (activation turbo ;;
     tap <- tap_once available_energy energy ;;
     after_tap (fst tap) (snd tap)) w s.
Proof.
  unfold tap_branch, activation, tap_once.
  destruct (as_int turbo) as [c |]; cbn [must].
  - rewrite !bind_assoc, !bind_ret, !bind_assoc, !bind_get.
    destruct ((c >? 0) && negb (active_turbo s)).
    + rewrite !bind_assoc.
      destruct (res (apply_turbo_boost w s)) as [a | e] eqn:E.
      * rewrite !(bind_run_ret apply_turbo_boost _ w s a E).
        repeat f_equal; rewrite !bind_assoc; destruct a;
          rewrite ?bind_assoc, ?bind_sleep, ?bind_modify, ?bind_ret, ?bind_assoc,
                  ?bind_get; reflexivity.
      * rewrite !(bind_run_raise apply_turbo_boost _ w s e E). reflexivity.
    + rewrite !bind_ret, !bind_assoc, !bind_get. reflexivity.
  - rewrite !bind_assoc, !bind_raise. reflexivity.
Qed.

Lemma activation_returns turbo c w s :
  as_int turbo = Some c -> res (activation turbo w s) = Ret tt.
Proof.
  intros Hc. unfold activation. rewrite Hc. cbn [must]. rewrite bind_ret, bind_get.
  destruct ((c >? 0) && negb (active_turbo s)); [| reflexivity].
  destruct (apply_turbo_boost_total w s) as [a Ha].
  rewrite (bind_run_ret apply_turbo_boost _ w s a Ha). cbn [res].
  destruct a; [rewrite bind_sleep |]; reflexivity.
Qed.

(** A tap never hands [None] back as its data. *)
Lemma tap_once_data_not_None available_energy energy w s status tap_data :
  res (tap_once available_energy energy w s) = Ret (status, tap_data) ->
  is_None tap_data = false.
Proof.
  unfold tap_once. rewrite bind_get. destruct (active_turbo s).
  - unfold turbo_tap. intros H.
    destruct (bind_ret_inv _ _ w s _ H) as ([st0 d0] & H1 & H2 & _).
    apply bind_ret_inv in H2. destruct H2 as (x & _ & H2 & _).
    cbn in H2. injection H2 as <- <-.
    exact (send_taps_with_turbo_data_not_None w s _ _ H1).
  - unfold regular_tap. rewrite bind_ask. intros H.
    apply bind_ret_inv in H. destruct H as (drawn & _ & H & _).
    cbv zeta in H. exact (send_taps_data_not_None _ w _ _ _ H).
Qed.

#[local] Instance frame_quiet b :
  Frame (keeps (fun s => balance s = b) no_profile_no_wait).
Proof. apply keeps_frame; intros; auto. Qed.

Lemma quiet_run {A} (m : M A) w s :
  triple (keeps (fun s' => balance s' = balance s) no_profile_no_wait)
         (keeps (fun s' => balance s' = balance s) no_profile_no_wait) m w s ->
  balance (st (m w s)) = balance s
  /\ Forall (fun ev => is_call profile_url ev = false /\ is_waiting ev = false)
            (tr (m w s)).
Proof.
  intros H. destruct (H [] (conj eq_refl (Forall_nil _))) as [Hb HF]. cbn [app] in HF.
  split; [exact Hb |].
  eapply Forall_impl; [| exact HF]. intros ev He. unfold no_profile_no_wait in He.
  apply andb_true_iff in He. destruct He as [H1 H2].
  split; apply negb_true_iff; assumption.
Qed.

Lemma activation_quiet turbo w s :
  balance (st (activation turbo w s)) = balance s
  /\ Forall (fun ev => is_call profile_url ev = false /\ is_waiting ev = false)
            (tr (activation turbo w s)).
Proof. apply quiet_run. inv_auto keeps_side. Qed.

Lemma tap_once_quiet available_energy energy w s :
  balance (st (tap_once available_energy energy w s)) = balance s
  /\ Forall (fun ev => is_call profile_url ev = false /\ is_waiting ev = false)
            (tr (tap_once available_energy energy w s)).
Proof. apply quiet_run. inv_auto keeps_side. Qed.

(** The tap branch after a tap that was not collected. *)
Lemma tap_branch_rejected available_energy energy turbo c status tap_data w s :
  as_int turbo = Some c ->
  res (tap_once available_energy energy w (st (activation turbo w s)))
  = Ret (status, tap_data) ->
  truthy status = false ->
  tap_branch available_energy energy turbo w s
  = mkOut (Ret Proceed)
          (st (tap_once available_energy energy w (st (activation turbo w s))))
          (tr (activation turbo w s)
           ++ tr (tap_once available_energy energy w (st (activation turbo w s)))).
Proof.
  intros Hc Ht Hs. rewrite tap_branch_split.
  rewrite (bind_run_ret _ _ w s tt (activation_returns turbo c w s Hc)).
  rewrite (bind_run_ret _ _ w _ _ Ht). cbn [fst snd].
  rewrite (after_tap_rejected status tap_data w _
             (tap_once_data_not_None _ _ _ _ _ _ Ht) Hs).
  cbn [res st tr]. rewrite app_nil_r. reflexivity.
Qed.

Lemma set_balance_twice a b s : set_balance a (set_balance b s) = set_balance a s.
Proof. reflexivity. Qed.

(** C3, as the code has it.  What the loop does with a tap that has a
    payload but was not collected is nothing: the tap branch is then the
    activation and the tap alone, which fetch no profile and announce no
    back-off, and it hands on to the rest of the decision; with energy left
    the decision ends there, with the balance of the boost snapshot.  Every
    decision starts from the balance of its own boost snapshot, whatever
    the cycle before left. *)
Theorem rejected_tap_falls_through w s :
  (forall status tap_data,
     is_None tap_data = false ->
     truthy status = false ->
     after_tap status tap_data w s = mkOut (Ret Proceed) s [])
  /\ (forall available_energy energy turbo c status tap_data,
        let act := activation turbo w s in
        let tap := tap_once available_energy energy w (st act) in
        as_int turbo = Some c ->
        res tap = Ret (status, tap_data) ->
        truthy status = false ->
        tap_branch available_energy energy turbo w s
        = mkOut (Ret Proceed) (st tap) (tr act ++ tr tap)
        /\ Forall (fun ev => is_call profile_url ev = false /\ is_waiting ev = false)
                  (tr act ++ tr tap)
        /\ balance (st tap) = balance s)
  /\ (forall available_energy min_energy boosts_info turbo c energy_boost amount energy
             status tap_data,
        let act := activation turbo w (set_balance amount s) in
        let tap := tap_once available_energy energy w (st act) in
        py_getitem boosts_info "specialBoxLeftRecoveryCount" = Some turbo ->
        py_getitem boosts_info "coinPoolLeftRecoveryCount" = Some energy_boost ->
        py_get boosts_info "currentAmount" (JNum 0) = Some amount ->
        as_int available_energy = Some energy ->
        as_int turbo = Some c ->
        min_energy < energy ->
        energy <> 0 ->
        res tap = Ret (status, tap_data) ->
        truthy status = false ->
        decide available_energy min_energy boosts_info w s
        = mkOut (Ret tt) (st tap) (tr act ++ tr tap)
        /\ balance (st tap) = amount)
  /\ (forall available_energy min_energy boosts_info turbo energy_boost amount b,
        py_getitem boosts_info "specialBoxLeftRecoveryCount" = Some turbo ->
        py_getitem boosts_info "coinPoolLeftRecoveryCount" = Some energy_boost ->
        py_get boosts_info "currentAmount" (JNum 0) = Some amount ->
        decide available_energy min_energy boosts_info w (set_balance b s)
        = decide available_energy min_energy boosts_info w s).
Proof.
  split; [| split; [| split]].
  - intros status tap_data. apply after_tap_rejected.
  - intros available_energy energy turbo c status tap_data. cbv zeta. intros Hc Ht Hs.
    split; [exact (tap_branch_rejected _ _ _ _ _ _ w s Hc Ht Hs) |].
    destruct (activation_quiet turbo w s) as [B1 F1].
    destruct (tap_once_quiet available_energy energy w (st (activation turbo w s)))
      as [B2 F2].
    split; [apply Forall_app; split; assumption | congruence].
  - intros available_energy min_energy boosts_info turbo c energy_boost amount energy
           status tap_data. cbv zeta. intros H1 H2 H3 He Hc Hlt Hne Ht Hs.
    destruct (activation_quiet turbo w (set_balance amount s)) as [B1 _].
    destruct (tap_once_quiet available_energy energy w
                (st (activation turbo w (set_balance amount s)))) as [B2 _].
    split; [| rewrite B2, B1; reflexivity].
    unfold decide. rewrite H1, H2, H3, He. run.
    replace (energy >? min_energy) with true
      by (symmetry; rewrite Z.gtb_ltb; apply Z.ltb_lt; exact Hlt).
    rewrite (bind_eq _ _ w _ _ _ _
               (tap_branch_rejected _ _ _ _ _ _ w (set_balance amount s) Hc Ht Hs)).
    replace (energy =? 0) with false by (symmetry; apply Z.eqb_neq; exact Hne).
    cbn [res st tr ret]. rewrite app_nil_r. reflexivity.
  - intros available_energy min_energy boosts_info turbo energy_boost amount b H1 H2 H3.
    unfold decide. rewrite H1, H2, H3. cbn [must].
    rewrite !bind_ret, !bind_modify, set_balance_twice. reflexivity.
Qed.

Lemma rejected_tap_falls_through_witness :
  let boosts_info := build_info 0 1000 3 500 3 5000 3 5000 in
  let tapped := tap_branch (JNum 500) 500 (JNum 0) rejected_tap_world
                  (set_balance (JNum 1000) running) in
  res tapped = Ret Proceed
  /\ Forall (fun ev => is_call profile_url ev = false /\ is_waiting ev = false)
            (tr tapped)
  /\ decide (JNum 500) 50 boosts_info rejected_tap_world running
     = mkOut (Ret tt) (st tapped) (tr tapped)
  /\ balance (st (decide (JNum 500) 50 boosts_info rejected_tap_world running))
     = JNum 1000.
Proof.
  cbv zeta.
  destruct (rejected_tap_falls_through rejected_tap_world
              (set_balance (JNum 1000) running)) as (_ & H2 & _).
  destruct (H2 (JNum 500) 500 (JNum 0) 0 (JBool false)
               (JObj [("collect_amount"%string, JNum 0);
                      ("current_amount"%string, JNum 1000);
                      ("total_amount"%string, JNum 1000)])
               eq_refl ltac:(vm_compute; reflexivity) eq_refl) as (E & F & _).
  destruct (rejected_tap_falls_through rejected_tap_world running) as (_ & _ & H3 & _).
  destruct (H3 (JNum 500) 50 (build_info 0 1000 3 500 3 5000 3 5000) (JNum 0) 0 (JNum 0)
               (JNum 1000) 500 (JBool false)
               (JObj [("collect_amount"%string, JNum 0);
                      ("current_amount"%string, JNum 1000);
                      ("total_amount"%string, JNum 1000)])
               eq_refl eq_refl eq_refl eq_refl eq_refl ltac:(lia) ltac:(lia)
               ltac:(vm_compute; reflexivity) eq_refl) as (D & B).
  rewrite E, D. cbn [res st tr].
  split; [reflexivity |]. split; [exact F |]. split; [reflexivity | exact B].
Defined.

(** * The token gate *)

Lemma try_ext {A} (m m' : M A) (h : exn -> M A) w s :
  m w s = m' w s -> try_except m h w s = try_except m' h w s.
Proof. intros H. unfold try_except. rewrite H. reflexivity. Qed.

(** A [try] whose body starts with an action that returns. *)
Lemma try_bind_ret {A B} (m : M A) (f : A -> M B) (h : exn -> M B) w s a :
  res (m w s) = Ret a ->
  try_except (bind m f) h w s
  = mkOut (res (try_except (f a) h w (st (m w s))))
          (st (try_except (f a) h w (st (m w s))))
          (tr (m w s) ++ tr (try_except (f a) h w (st (m w s)))).
Proof.
  intros H. unfold try_except. rewrite (bind_run_ret m f w s a H). cbn [res st tr].
  destruct (res (f a w (st (m w s)))) eqn:E; cbn [res st tr];
    [rewrite E; reflexivity |].
  rewrite app_assoc. reflexivity.
Qed.

(** A [try] whose body starts with an action that raises. *)
Lemma try_bind_raise {A B} (m : M A) (f : A -> M B) (h : exn -> M B) w s e :
  res (m w s) = Raise e ->
  try_except (bind m f) h w s
  = mkOut (res (h e w (st (m w s)))) (st (h e w (st (m w s))))
          (tr (m w s) ++ tr (h e w (st (m w s)))).
Proof.
  intros H. unfold try_except. rewrite (bind_run_raise m f w s e H). reflexivity.
Qed.

#[local] Instance frame_transport v :
  Frame (keeps (fun s => _http_client s = v) (fun _ => true)).
Proof. apply keeps_frame; intros; auto. Qed.

Lemma get_tg_web_data_keeps_transport w s :
  _http_client (st (get_tg_web_data w s)) = _http_client s.
Proof.
  assert (H : triple (keeps (fun s' => _http_client s' = _http_client s) (fun _ => true))
                     (keeps (fun s' => _http_client s' = _http_client s) (fun _ => true))
                     get_tg_web_data w s) by (inv_auto keeps_side).
  exact (proj1 (H [] (conj eq_refl (Forall_nil _)))).
Qed.

(** With a transport, a request that is entered is sent. *)
Lemma make_request_sends m u b h w s :
  _http_client s = true ->
  exists hdrs t, tr (make_request m u b h w s) = Call m u b :: Attempt 0 hdrs :: t.
Proof.
  intros Hc. unfold make_request. rewrite bind_emit, bind_get, Hc. cbn [negb].
  change (Z.to_nat max_retries) with 3%nat.
  rewrite request_attempts_step. cbv zeta.
  destruct (attempt_raises _); [destruct (0 <? max_retries - 1) |];
    cbn [tr]; eauto.
Qed.

(** The login opens with its request. *)
Lemma login_sends d w s :
  exists sent,
    tr (login d w s)
    = Call "POST" login_url (Some (JObj [("code"%string, JStr d)])) :: sent
    /\ (_http_client s = true -> exists hdrs sent', sent = Attempt 0 hdrs :: sent').
Proof.
  unfold login. fold login_url.
  match goal with
  | |- context [try_except ?m ?h w s] =>
      destruct (tr_try_prefix m h w s) as [t1 H1]; rewrite H1
  end.
  match goal with
  | |- context [tr (bind ?m ?f w s)] =>
      destruct (tr_bind_prefix m f w s) as [t2 H2]; rewrite H2
  end.
  destruct (_http_client s) eqn:Hc.
  - match goal with
    | |- context [tr (make_request ?m ?u ?b ?h w s)] =>
        destruct (make_request_sends m u b h w s Hc) as (hdrs & t3 & H3); rewrite H3
    end.
    cbn [app]. eexists. split; [reflexivity |]. intros _. eauto.
  - match goal with
    | |- context [tr (make_request ?m ?u ?b ?h w s)] =>
        destruct (make_request_first m u b h w s) as [t3 H3]; rewrite H3
    end.
    cbn [app]. eexists. split; [reflexivity |]. discriminate.
Qed.

Lemma try_moved {A} (m m' : M A) (h : exn -> M A) w s s' :
  m w s = m' w s' -> try_except m h w s = try_except m' h w s'.
Proof. intros H. unfold try_except. rewrite H. reflexivity. Qed.

(** An iteration entered with a stale token, step by step. *)
Lemma stale_iteration_run w s :
  token_stale s = true ->
  exists ref,
    tr (get_tg_web_data w s) = [WebView ref]
    /\ (res (get_tg_web_data w s) = Raise InvalidSession ->
        tr (iteration w s) = [WebView ref]
        /\ res (iteration w s) = Raise InvalidSession)
    /\ (forall d,
          res (get_tg_web_data w s) = Ret d ->
          exists rest,
            tr (iteration w s)
            = WebView ref :: tr (login d w (st (get_tg_web_data w s))) ++ rest
            /\ (forall e,
                  res (login d w (st (get_tg_web_data w s))) = Raise e ->
                  rest = [] /\ res (iteration w s) = Raise InvalidSession)
            /\ (forall token,
                  res (login d w (st (get_tg_web_data w s))) = Ret token ->
                  _access_token (st (iteration w s)) = token
                  /\ access_token_created_time (st (iteration w s))
                     = now (st (login d w (st (get_tg_web_data w s)))))).
Proof.
  intros H. rewrite (iteration_stale w s H).
  destruct (get_tg_web_data_run w s) as (ref & Htr & _).
  exists ref. split; [exact Htr |].
  unfold auth_refresh.
  match goal with
  | |- context [try_except (bind (bind get_tg_web_data ?F) ?K) ?h w s] =>
      rewrite (try_ext _ _ h w s (bind_assoc get_tg_web_data F K w s))
  end.
  split.
  - intros Hr. rewrite (try_bind_raise _ _ _ w s InvalidSession Hr).
    cbn [res st tr raise]. rewrite Htr. auto.
  - intros d Hd. rewrite (try_bind_ret _ _ _ w s d Hd). cbn [res st tr]. rewrite Htr.
    generalize (st (get_tg_web_data w s)). intros s1.
    match goal with
    | |- context [try_except (bind (bind (login d) ?G) ?K) ?h w s1] =>
        rewrite (try_ext _ _ h w s1 (bind_assoc (login d) G K w s1))
    end.
    destruct (res (login d w s1)) as [token | e] eqn:El.
    + rewrite (try_bind_ret _ _ _ w s1 token El). cbn [res st tr].
      eexists. split; [reflexivity |]. split; [discriminate |].
      intros token' Ht. injection Ht as <-.
      match goal with
      | |- context [try_except ?m ?h w ?s2] =>
          erewrite (try_moved m _ h w s2);
          [| rewrite !bind_assoc, bind_modify; cbv beta;
             rewrite !bind_assoc, bind_get; cbv beta;
             rewrite !bind_assoc, bind_modify; cbv beta; reflexivity ]
      end.
      match goal with
      | |- context [st (?m w ?s4)] =>
          assert (HJ : triple
                         (keeps (fun s' => _access_token s' = token
                                           /\ access_token_created_time s'
                                              = now (st (login d w s1)))
                                (fun _ => true))
                         (keeps (fun s' => _access_token s' = token
                                           /\ access_token_created_time s'
                                              = now (st (login d w s1)))
                                (fun _ => true)) m w s4)
            by (inv_auto keeps_side);
          destruct (HJ [] (conj (conj eq_refl eq_refl) (Forall_nil _))) as [HJ1 _]
      end.
      exact HJ1.
    + assert (He : InvalidSession = e) by exact (login_raises d w s1 e El).
      subst e. rewrite (try_bind_raise _ _ _ w s1 InvalidSession El).
      cbn [res st tr raise]. rewrite app_nil_r.
      exists []. rewrite app_nil_r. split; [reflexivity |].
      split; [auto | discriminate].
Qed.

(** C5. An iteration that starts with a token of age 3600s or more
    re-authenticates before anything else: it opens with the identity
    look-up; when the look-up fails the session ends there, with no
    request; when it returns, the login follows at once, entered with the
    data of the look-up and, with a transport, sent; a login that raises
    ends the session, and after a login that returns the iteration leaves
    the new token and its time stamp in place.  With a younger token the
    iteration makes neither the look-up nor the login.  The first iteration
    of [process_bot_logic] starts from creation time 0 and so
    re-authenticates. *)
Theorem token_age_gate w s :
  let age := now s - access_token_created_time s in
  let lookup := get_tg_web_data w s in
  (3600 <= age ->
     exists ref,
       tr lookup = [WebView ref]
       /\ (res lookup = Raise InvalidSession ->
           tr (iteration w s) = [WebView ref]
           /\ res (iteration w s) = Raise InvalidSession)
       /\ (forall d,
             res lookup = Ret d ->
             let lg := login d w (st lookup) in
             exists sent rest,
               tr lg = Call "POST" login_url (Some (JObj [("code"%string, JStr d)]))
                       :: sent
               /\ (_http_client s = true ->
                   exists hdrs sent', sent = Attempt 0 hdrs :: sent')
               /\ tr (iteration w s) = WebView ref :: tr lg ++ rest
               /\ (forall e, res lg = Raise e ->
                     rest = [] /\ res (iteration w s) = Raise InvalidSession)
               /\ (forall token, res lg = Ret token ->
                     _access_token (st (iteration w s)) = token
                     /\ access_token_created_time (st (iteration w s)) = now (st lg))))
  /\ (age < 3600 -> Forall (fun e => is_auth e = false) (tr (iteration w s)))
  /\ (3600 <= now s ->
      forall n,
        let s0 := set_balance (JNum 0) (set_active_turbo false (set_created_time 0 s)) in
        3600 <= now s0 - access_token_created_time s0
        /\ exists rest,
             tr (process_bot_logic (S n) w s) = tr (iteration w s0) ++ rest
             /\ (forall e, res (iteration w s0) = Raise e ->
                   rest = [] /\ res (process_bot_logic (S n) w s) = Raise e)).
Proof.
  cbv zeta. split; [| split].
  - intros H.
    assert (Hs : token_stale s = true) by (unfold token_stale; apply Z.geb_le; exact H).
    destruct (stale_iteration_run w s Hs) as (ref & Htr & Hraise & Hret).
    exists ref. split; [exact Htr |]. split; [exact Hraise |].
    intros d Hd. destruct (Hret d Hd) as (rest & Hi & He & Ht).
    destruct (login_sends d w (st (get_tg_web_data w s))) as (sent & Hl & Hc).
    exists sent, rest. split; [exact Hl |]. split.
    + intros Hh. apply Hc. rewrite get_tg_web_data_keeps_transport. exact Hh.
    + split; [exact Hi |]. split; [exact He | exact Ht].
  - intros H.
    assert (Hf : token_stale s = false).
    { unfold token_stale. destruct (Z.geb_spec (now s - access_token_created_time s) 3600);
        [lia | reflexivity]. }
    rewrite (iteration_fresh w s Hf).
    assert (Ht : triple fresh_inv fresh_inv
                   (try_except poll
                      (fun e => match e with InvalidSession => raise e | _ => sleep 3 end))
                   w s).
    { unfold fresh_inv. inv_auto keeps_side. }
    destruct (Ht [] (conj Logic.I (Forall_nil _))) as [_ HF]. cbn [app] in HF.
    eapply Forall_impl; [| exact HF]. cbv beta. intros e He.
    apply negb_true_iff. exact He.
  - intros H n. split; [cbn; lia |].
    unfold process_bot_logic. rewrite !bind_modify. cbn [iterations].
    match goal with
    | |- context [bind iteration ?k w ?s0] =>
        destruct (res (iteration w s0)) as [[] | e] eqn:E;
        [ rewrite (bind_run_ret iteration k w s0 tt E); cbn [tr];
          eexists; split; [reflexivity | discriminate]
        | rewrite (bind_run_raise iteration k w s0 e E); cbn [res tr];
          exists []; rewrite app_nil_r; split; [reflexivity |];
          intros e' He'; injection He' as <-; auto ]
    end.
Qed.

Lemma token_age_gate_witness :
  (exists ref sent rest,
     tr (iteration first_hours_world newcomer)
     = WebView ref
       :: (Call "POST" login_url (Some (JObj [("code"%string, JStr "user=1")])) :: sent)
       ++ rest)
  /\ _access_token (st (iteration first_hours_world newcomer)) = JStr "fresh"
  /\ Forall (fun e => is_auth e = false) (tr (iteration low_energy_world running)).
Proof.
  pose proof (token_age_gate first_hours_world newcomer) as H. cbv zeta in H.
  destruct H as (H & _ & _).
  destruct H as (ref & _ & _ & H); [vm_compute; discriminate |].
  destruct (H "user=1"%string ltac:(vm_compute; reflexivity))
    as (sent & rest & Hl & _ & Hi & _ & Ht).
  split; [| split].
  - exists ref, sent, rest. rewrite <- Hl. exact Hi.
  - exact (proj1 (Ht (JStr "fresh") ltac:(vm_compute; reflexivity))).
  - pose proof (token_age_gate low_energy_world running) as H'. cbv zeta in H'.
    destruct H' as (_ & H' & _). apply H'. vm_compute. reflexivity.
Defined.

(** * The theorems at concrete inputs *)

Lemma get_auth_headers_extends_witness :
  dict_get "authorization" (get_auth_headers "abc") = Some (JStr "Bearer abc")
  /\ dict_get "user-agent" (get_auth_headers "abc") = dict_get "user-agent" HEADERS.
Proof.
  destruct (get_auth_headers_extends "abc") as (H1 & _ & H3 & _).
  split; [exact H1 | apply H3; discriminate].
Defined.

Lemma make_request_headers_witness :
  headers_of (tr (make_request "GET" game_url None None flaky_world running)) <> []
  /\ dict_get "token" (dict_update (dict_set "token" (JStr "token") HEADERS)
                                   [("token"%string, JStr "other")])
     = Some (JStr "other").
Proof.
  split.
  - pose proof (make_request_headers flaky_world running "GET" game_url None None) as H.
    cbv zeta in H. destruct H as (_ & H & _). apply H. reflexivity.
  - pose proof (make_request_headers flaky_world running "GET" game_url None
                  (Some [("token"%string, JStr "other")])) as H.
    cbv zeta in H. destruct H as (_ & _ & H & _).
    apply (H "token"%string (JStr "other") [("token"%string, JStr "other")]);
      [reflexivity | reflexivity | constructor; [intros [] | constructor]].
Defined.

Lemma only_authentication_is_fatal_witness :
  token_stale newcomer = true
  /\ res (iteration low_energy_world running) = Ret tt.
Proof.
  split.
  - destruct (only_authentication_is_fatal flaky_world newcomer) as [H _].
    destruct (H InvalidSession) as (_ & H1 & _); [vm_compute; reflexivity | exact H1].
  - destruct (only_authentication_is_fatal low_energy_world running) as (_ & H & _).
    apply H. vm_compute. reflexivity.
Defined.

Lemma login_outcome_witness :
  res (login "user=1" first_hours_world newcomer) = Ret (JStr "fresh")
  /\ _access_token (st (login "user=1" first_hours_world newcomer)) = JStr "fresh".
Proof.
  pose proof (login_outcome "user=1" first_hours_world newcomer) as H.
  cbv zeta in H. destruct H as (H1 & _ & H3).
  assert (E : res (login "user=1" first_hours_world newcomer) = Ret (JStr "fresh")).
  { apply (H3 [("code"%string, JNum 0);
               ("data"%string, JObj [("token"%string, JStr "fresh")])]
              [("token"%string, JStr "fresh")] (JNum 0) (JStr "fresh"));
      vm_compute; reflexivity. }
  split; [exact E | exact (proj1 (H1 _ E))].
Defined.

Lemma get_tg_web_data_without_payload_witness :
  res (get_tg_web_data flaky_world running) = Raise InvalidSession
  /\ _init_data (st (get_tg_web_data flaky_world running)) = _init_data running.
Proof.
  apply (get_tg_web_data_without_payload flaky_world running "dIk9eL");
    [vm_compute; reflexivity | left; reflexivity].
Defined.

Lemma get_tg_web_data_extracts_witness :
  res (get_tg_web_data low_energy_world running) = Ret "user=1"%string
  /\ _init_data (st (get_tg_web_data low_energy_world running)) = Some "user=1"%string.
Proof.
  pose proof (get_tg_web_data_extracts low_energy_world running "dIk9eL"
                "https://app.example/" "user=1" "=7") as H.
  cbv zeta in H.
  destruct H as [H _]; try (vm_compute; reflexivity).
  apply H. left. vm_compute. reflexivity.
Defined.

Lemma requests_stay_on_the_game_server_witness :
  Forall (fun u => String.prefix host u = true /\ ~ In u idle_urls)
         (calls_of (tr (process_bot_logic 1 low_energy_world running))).
Proof. exact (proj1 (requests_stay_on_the_game_server 1 low_energy_world running)). Defined.

Lemma regular_tap_within_energy_witness :
  exists taps t,
    tr (regular_tap (JNum 500) 500 low_energy_world running)
    = Call "POST" tap_url (Some (JStr (py_str taps))) :: t
    /\ calls_of t = []
    /\ taps <= 500 /\ taps <= 100 /\ (35 <= taps \/ taps = 500).
Proof.
  pose proof (regular_tap_within_energy low_energy_world running 500) as H.
  cbv zeta in H. destruct H as [H _]. apply H. vm_compute. discriminate.
Defined.

Lemma failed_fetch_backs_off_witness :
  exists hdrs d,
    1800 <= d <= 10800
    /\ res (poll first_hours_world running) = Ret tt
    /\ tr (poll first_hours_world running)
       = [Call "GET" game_url None; Attempt 0 hdrs; Waiting d; Sleep d].
Proof.
  pose proof (failed_fetch_backs_off first_hours_world running) as H.
  cbv zeta in H. destruct H as [_ H]; [vm_compute; discriminate |].
  apply (H 404 None); [reflexivity | vm_compute; reflexivity | discriminate].
Defined.

Lemma accepted_tap_resyncs_witness :
  calls_of (tr (after_tap (JBool true) tapped_amounts low_energy_world running))
  = [game_url]
  /\ balance (st (after_tap (JBool true) tapped_amounts low_energy_world running))
     = JNum 1200
  /\ Forall (fun e => is_waiting e = false)
            (tr (after_tap (JBool true) tapped_amounts low_energy_world running)).
Proof.
  pose proof (accepted_tap_resyncs low_energy_world running (JBool true) tapped_amounts)
    as H.
  cbv zeta in H. destruct H as [H _]; [reflexivity |].
  apply (H (JNum 1200) (JNum 1200) (JNum 200)); reflexivity.
Defined.

Lemma squad_join_attempts_witness :
  calls_of (tr (process_squad squad_member_world running)) = [squad_url].
Proof.
  pose proof (squad_join_attempts squad_member_world running) as H.
  cbv zeta in H. destruct H as (_ & _ & H).
  apply (H (JObj [("isJoinSquad"%string, JBool true)]) (JBool true));
    vm_compute; reflexivity.
Defined.

Lemma offline_bonuses_claimed_witness :
  res (process_offline_bonus offline_world running) = Ret tt
  /\ calls_of (tr (process_offline_bonus offline_world running))
     = [offline_info_url; offline_claim_url].
Proof.
  apply (offline_bonuses_claimed offline_world running offline_bonuses).
  - vm_compute. reflexivity.
  - repeat constructor; discriminate.
Defined.

Lemma recurring_session_never_claims_witness :
  res (initialize_session low_energy_world running) = Ret true
  /\ Forall (fun e => is_referral e = false)
            (tr (process_bot_logic 1 low_energy_world
                   (st (initialize_session low_energy_world running)))).
Proof.
  pose proof (recurring_session_never_claims low_energy_world running) as H.
  cbv zeta in H. destruct H as (_ & H2 & _ & _ & H5).
  split; [apply H2; left; reflexivity | apply H5; reflexivity].
Defined.

Lemma fetchers_never_raise_witness :
  get_game_data low_energy_world unopened
  = mkOut (Ret (JObj [])) (set_now (now unopened + 3) unopened)
          [Call "GET" game_url None; Sleep 3].
Proof.
  destruct (fetchers_never_raise low_energy_world unopened) as (_ & _ & _ & H).
  exact (proj1 (proj2 (H eq_refl))).
Defined.

Lemma token_is_stamped_at_login_witness :
  _access_token (st (auth_refresh first_hours_world newcomer)) = JStr "fresh"
  /\ access_token_created_time (st (iteration low_energy_world running)) = 1700000000.
Proof.
  split.
  - destruct (token_is_stamped_at_login first_hours_world newcomer) as [H _].
    exact (proj1 (H "user=1"%string (JStr "fresh") ltac:(vm_compute; reflexivity)
                    ltac:(vm_compute; reflexivity))).
  - destruct (token_is_stamped_at_login low_energy_world running) as [_ H].
    exact (proj2 (H ltac:(vm_compute; reflexivity))).
Defined.

Lemma wallet_config_is_created_once_witness :
  fst (Wallet.load_wallet_config "config/accounts_config.json" ton empty_disk)
  = Ret (JObj [])
  /\ snd (Wallet.load_wallet_config "config/accounts_config.json" ton stored_disk)
     = stored_disk.
Proof.
  split.
  - pose proof (wallet_config_is_created_once "config/accounts_config.json" ton empty_disk)
      as H.
    cbv zeta in H. destruct H as [H _]. exact (proj1 (H eq_refl)).
  - pose proof (wallet_config_is_created_once "config/accounts_config.json" ton stored_disk)
      as H.
    cbv zeta in H. destruct H as (_ & H & _). apply H. vm_compute. discriminate.
Defined.

Lemma wallet_config_round_trip_witness :
  let saved := snd (Wallet.save_wallet_config "config/accounts_config.json"
                      (JObj [("session1"%string, known_wallet)]) ton accounts_disk) in
  Wallet.get_wallet_data "config/accounts_config.json" "session1" ton saved
  = (Ret known_wallet, saved)
  /\ saved ("config", "accounts_config.json")%string
     = accounts_disk ("config", "accounts_config.json")%string.
Proof.
  cbv zeta.
  pose proof (wallet_config_round_trip "config/accounts_config.json" "session1"
                (JObj [("session1"%string, known_wallet)]) ton accounts_disk) as H.
  cbv zeta in H. destruct H as (_ & H2 & H3).
  split; [exact H2 | apply H3; intros E; vm_compute in E; discriminate E].
Defined.

Lemma accounts_config_keeps_address_witness :
  fst (Wallet.update_accounts_config_wallet "config/accounts_config.json" "session1"
         (JStr "0:abcdef") ton accounts_disk) = Ret tt
  /\ Wallet.update_accounts_config_wallet "config/accounts_config.json" "session1"
       (JStr "0:abcdef") ton empty_disk = (Ret tt, empty_disk).
Proof.
  split.
  - pose proof (accounts_config_keeps_address "config/accounts_config.json" "session1"
                  (JStr "0:abcdef") ton accounts_disk) as H.
    cbv zeta in H. destruct H as (_ & _ & _ & _ & H).
    exact (proj1 (H [("session1"%string,
                      JObj [("proxy"%string, JStr "socks5://127.0.0.1:9050")])]
                    [("proxy"%string, JStr "socks5://127.0.0.1:9050")]
                    eq_refl eq_refl eq_refl)).
  - pose proof (accounts_config_keeps_address "config/accounts_config.json" "session1"
                  (JStr "0:abcdef") ton empty_disk) as H.
    cbv zeta in H. destruct H as (_ & H & _). apply H. reflexivity.
Defined.

Lemma created_wallet_is_stored_witness :
  let out := Wallet.create_and_save_wallet "config/accounts_config.json" "session1" ton
               empty_disk in
  let wallet := JObj [("mnemonic"%string, JStr "abandon ability");
                      ("raw_address"%string, JStr "abcdef")] in
  fst out = Ret wallet
  /\ snd out ("config", "wallet_config.json")%string
     = Some (Wallet.Doc (JObj [("session1"%string, wallet)]))
  /\ snd out ("config", "temp_wallet_session1.json")%string = None.
Proof.
  cbv zeta.
  pose proof (created_wallet_is_stored "config/accounts_config.json" "session1" ton
                empty_disk [] [("mnemonic"%string, JStr "abandon ability")]
                "0:abcdef" "abcdef") as H.
  cbv zeta in H.
  destruct H as (H1 & _ & H3 & H4);
    [reflexivity | reflexivity | reflexivity
     | right; exists "0"%string; repeat split; reflexivity |].
  split; [apply H4; reflexivity | split; [exact H1 | exact H3]].
Defined.

Lemma temp_wallet_is_removed_witness :
  snd (Wallet.create_and_save_wallet "config/accounts_config.json" "session1" ton
         accounts_disk) ("config", "temp_wallet_session1.json")%string = None.
Proof.
  pose proof (temp_wallet_is_removed "config/accounts_config.json" "session1" ton
                accounts_disk (JObj [])) as H.
  cbv zeta in H. destruct H as [H _]; [reflexivity | reflexivity | exact H].
Defined.

Lemma existing_wallet_is_returned_witness :
  Wallet.create_and_save_wallet "config/accounts_config.json" "session1" ton stored_disk
  = (Ret known_wallet, stored_disk).
Proof.
  pose proof (existing_wallet_is_returned "config/accounts_config.json" "session1" ton
                stored_disk [("session1"%string, known_wallet)] known_wallet
                (JStr "0:abcdef")) as H.
  cbv zeta in H.
  destruct H as (_ & _ & H); [reflexivity | reflexivity | reflexivity |].
  apply H. reflexivity.
Defined.

Lemma blacklisted_sessions_are_clean_witness :
  blacklisted_sessions "  session1 " = ["session1"%string].
Proof.
  destruct (blacklisted_sessions_are_clean "  session1 ") as (_ & _ & H).
  apply H; [reflexivity | vm_compute; discriminate].
Defined.
